(** * Hytale Wiki Bot: the wiki client and the article resolution pipeline

    A shallow embedding of [bot.py]: the [WikiAPI] client
    ([search], [search_full], [get_all_pages], [get_page_extract],
    [get_categories], [fuzzy_search]) and the [/wiki] command
    ([wiki_command]), followed by the properties of the resolution
    pipeline.

    Conventions of the embedding.
    - A decoded JSON payload is a value of [json]; the Python objects the
      client handles are exactly such values ([None] is [JNull]).  JSON
      numbers are integers here; the endpoints the bot talks to never make
      the client compute with a number.  A Python [str] is kept as its
      UTF-8 encoding: a character is a byte that is not a continuation
      byte together with the continuation bytes that follow it, and
      [len], subscripts, slices and iteration count characters, not
      bytes ([Py.str_len], [Py.chars], [Py.str_take]).
    - A Python exception is the [Raise] case of [result].  The source has no
      [try]/[except] at all, so an exception raised anywhere unwinds the
      whole command.
    - The remote wiki is a transition system [respond]: a request is
      answered in the current state of the remote and may change it.  Every
      request that is issued is appended to a log, so that "this stage was
      not invoked" is a statement about the log.
    - [rapidfuzz] is a third-party library: the scorer [fuzz.WRatio] and the
      rendering of a score inside an f-string are parameters, a score is an
      integer, and [process.extract] is modelled from its contract.
    - The calls of the Discord library ([interaction.response.defer],
      [followup.send]) are taken to return: a command ends with the
      message it sends, or with the exception that left it.
      [wiki_command] is the command up to the value it hands to the code
      that builds the embed, [wiki_command_send] the whole command, with
      the embed it builds on the way. *)

From Stdlib Require Import String Ascii List ZArith Bool Lia Arith DecimalString Sorted.
Import ListNotations.
Local Open Scope string_scope.
Local Open Scope list_scope.

(** ** Exceptions and the error monad *)

Inductive exn : Type :=
| TypeError
| AttributeError
| KeyError
| IndexError
| ClientError        (* aiohttp: the request itself failed *)
| ContentTypeError.  (* aiohttp: [resp.json()] could not decode the body *)

Inductive result (A : Type) : Type :=
| Ok (a : A)
| Raise (e : exn).

Arguments Ok {A} a.
Arguments Raise {A} e.

Definition rbind {A B} (m : result A) (f : A -> result B) : result B :=
  match m with
  | Ok a => f a
  | Raise e => Raise e
  end.

Declare Scope result_scope.
Declare Scope net_scope.
Delimit Scope net_scope with net.
Delimit Scope result_scope with res.
Notation "x <- m ;; k" := (rbind m (fun x => k))
  (at level 61, m at next level, right associativity) : result_scope.

(** [[f(x) for x in xs]] where [f] may raise: evaluated left to right, the
    first exception ends the comprehension. *)
Fixpoint rmap {A B} (f : A -> result B) (xs : list A) : result (list B) :=
  match xs with
  | [] => Ok []
  | x :: xs' =>
      (y <- f x ;;
       ys <- rmap f xs' ;;
       Ok (y :: ys))%res
  end.

(** ** JSON values and the Python operations the client applies to them *)

Set Warnings "-register-all".

Inductive json : Type :=
| JNull
| JBool (b : bool)
| JNum (n : Z)
| JStr (s : string)
| JArr (l : list json)
| JObj (o : list (string * json)).

(** A decoded object is a [dict]: insertion ordered, its keys distinct. *)
Fixpoint assoc (k : string) (o : list (string * json)) : option json :=
  match o with
  | [] => None
  | (k', v) :: o' => if String.eqb k k' then Some v else assoc k o'
  end.

Module Py.

(** A byte [10xxxxxx] continues the character the byte before it belongs
    to; every other byte starts a character. *)
Definition continuation (c : ascii) : bool :=
  match c with
  | Ascii _ _ _ _ _ _ b6 b7 => b7 && negb b6
  end.

(** [len(s)] on a string: the number of its characters. *)
Fixpoint str_len (s : string) : nat :=
  match s with
  | EmptyString => 0
  | String c s' => if continuation c then str_len s' else S (str_len s')
  end.

(** [s[:k]] on a string: its first [k] characters, all of it when it has
    fewer. *)
Fixpoint str_take (k : nat) (s : string) : string :=
  match s with
  | EmptyString => EmptyString
  | String c s' =>
      if continuation c then String c (str_take k s')
      else
        match k with
        | O => EmptyString
        | S k' => String c (str_take k' s')
        end
  end.

(** The characters of a string, each one a string of length one. *)
Fixpoint chars (s : string) : list string :=
  match s with
  | EmptyString => []
  | String c s' =>
      match s' with
      | EmptyString => [String c EmptyString]
      | String c' _ =>
          if continuation c' then
            match chars s' with
            | ch :: rest => String c ch :: rest
            | [] => [String c EmptyString]
            end
          else String c EmptyString :: chars s'
      end
  end.

(** [len(v)] *)
Definition len (v : json) : result nat :=
  match v with
  | JArr l => Ok (List.length l)
  | JStr s => Ok (str_len s)
  | JObj o => Ok (List.length o)
  | JNull | JBool _ | JNum _ => Raise TypeError
  end.

(** [v[i]] for a literal non-negative integer [i].  A decoded object has
    string keys only, so an integer subscript is a [KeyError]. *)
Definition getitem (v : json) (i : nat) : result json :=
  match v with
  | JArr l =>
      match nth_error l i with
      | Some x => Ok x
      | None => Raise IndexError
      end
  | JStr s =>
      match nth_error (chars s) i with
      | Some c => Ok (JStr c)
      | None => Raise IndexError
      end
  | JObj _ => Raise KeyError
  | JNull | JBool _ | JNum _ => Raise TypeError
  end.

(** The elements [iter(v)] yields: the items of a list, the characters of
    a string, the keys of a dict. *)
Definition iter (v : json) : result (list json) :=
  match v with
  | JArr l => Ok l
  | JStr s => Ok (map JStr (chars s))
  | JObj o => Ok (map (fun kv => JStr (fst kv)) o)
  | JNull | JBool _ | JNum _ => Raise TypeError
  end.

(** [v.get(k, default)]: only a dict has the method. *)
Definition get (v : json) (k : string) (default : json) : result json :=
  match v with
  | JObj o =>
      match assoc k o with
      | Some x => Ok x
      | None => Ok default
      end
  | _ => Raise AttributeError
  end.

(** [v.items()] *)
Definition items (v : json) : result (list (string * json)) :=
  match v with
  | JObj o => Ok o
  | _ => Raise AttributeError
  end.

(** [v.values()] *)
Definition values (v : json) : result (list json) :=
  match v with
  | JObj o => Ok (map snd o)
  | _ => Raise AttributeError
  end.

(** [s.replace(old, new)] on strings, for a non-empty [old]: the
    occurrences are replaced from left to right, without overlap.
    [skip] counts the bytes of a replaced occurrence still to drop (an
    occurrence of an ASCII [old] starts and ends between characters). *)
Fixpoint replace_from (old new s : string) (skip : nat) : string :=
  match s with
  | EmptyString => EmptyString
  | String c s' =>
      match skip with
      | S k => replace_from old new s' k
      | O =>
          if String.prefix old s
          then new ++ replace_from old new s' (String.length old - 1)
          else String c (replace_from old new s' 0)
      end
  end.

Definition str_replace (old new s : string) : string :=
  replace_from old new s 0.

(** [v.replace(old, new)]: only a string has the method. *)
Definition replace (v : json) (old new : string) : result string :=
  match v with
  | JStr s => Ok (str_replace old new s)
  | _ => Raise AttributeError
  end.

(** [zip(a, b, c)] on the already iterated arguments. *)
Fixpoint zip3 {A B C} (a : list A) (b : list B) (c : list C) : list (A * B * C) :=
  match a, b, c with
  | x :: a', y :: b', z :: c' => (x, y, z) :: zip3 a' b' c'
  | _, _, _ => []
  end.

(** [a == b] on decoded values.  [True == 1] and [False == 0] hold in
    Python; dicts compare as maps, whatever the order of their keys. *)
Fixpoint eq (a b : json) {struct a} : bool :=
  match a, b with
  | JNull, JNull => true
  | JBool x, JBool y => Bool.eqb x y
  | JBool x, JNum n => Z.eqb (if x then 1 else 0) n
  | JNum n, JBool x => Z.eqb n (if x then 1 else 0)
  | JNum n, JNum m => Z.eqb n m
  | JStr s, JStr t => String.eqb s t
  | JArr l, JArr m =>
      (fix eq_list (l : list json) (m : list json) {struct l} : bool :=
         match l, m with
         | [], [] => true
         | x :: l', y :: m' => eq x y && eq_list l' m'
         | _, _ => false
         end) l m
  | JObj o, JObj p =>
      Nat.eqb (List.length o) (List.length p) &&
      (fix eq_items (o : list (string * json)) {struct o} : bool :=
         match o with
         | [] => true
         | (k, v) :: o' =>
             existsb (fun kv => String.eqb k (fst kv) && eq v (snd kv)) p
             && eq_items o'
         end) o
  | _, _ => false
  end.

End Py.

(** ** Records

    [Cand.t] is the dict a search stage returns for one article: the keys
    ["title"], ["description"], ["url"] and, once a fuzzy stage has scored
    it, ["score"].  [Page.t] is the dict [get_page_extract] returns.  The
    values are whatever the payload held, hence [json]. *)

Module Cand.
Record t : Type := mk {
  title : json;
  description : json;
  url : json;
  score : option Z   (* [None]: the dict has no ["score"] key *)
}.
End Cand.

Module Page.
Record t : Type := mk {
  title : json;
  extract : json;
  url : json;
  thumbnail : json   (* [JNull] when the page has no thumbnail *)
}.
End Page.

(** ** The transport *)

Definition WIKI_BASE_URL : string := "https://hytalewiki.org".
Definition WIKI_API_URL : string := "https://hytalewiki.org/api.php".

(** [session.get(url, params=params)] *)
Record request : Type := mk_request {
  req_url : string;
  req_params : list (string * string)
}.

(** What comes back: the request fails in the transport (aiohttp raises),
    or a response arrives with its status and its body; the body is [None]
    when [resp.json()] cannot decode it. *)
Inductive reply : Type :=
| NetFail
| Reply (status : Z) (body : option json).

(** The state a command runs in: the state of the remote wiki and the log
    of the requests issued so far. *)
Record net (St : Type) : Type := mk_net {
  remote : St;
  log : list request
}.

Arguments mk_net {St} remote log.
Arguments remote {St} n.
Arguments log {St} n.

(** [resp.json()] *)
Definition resp_json (body : option json) : result json :=
  match body with
  | Some j => Ok j
  | None => Raise ContentTypeError
  end.

(** [str(limit)] *)
Definition str_of_nat (n : nat) : string :=
  NilZero.string_of_uint (Nat.to_uint n).

(** The parameter dicts of the five endpoints, as the methods build them. *)
Definition search_params (query : string) (limit : nat) : list (string * string) :=
  [ ("action", "opensearch");
    ("search", query);
    ("limit", str_of_nat limit);
    ("namespace", "0");
    ("format", "json") ].

Definition search_full_params (query : string) (limit : nat) : list (string * string) :=
  [ ("action", "query");
    ("list", "search");
    ("srsearch", query);
    ("srlimit", str_of_nat limit);
    ("format", "json") ].

Definition get_all_pages_params (prefix : string) (limit : nat) : list (string * string) :=
  [ ("action", "query");
    ("list", "allpages");
    ("aplimit", str_of_nat limit);
    ("apprefix", match prefix with
                 | EmptyString => EmptyString
                 | _ => Py.str_take 2 prefix
                 end);
    ("format", "json") ].

Definition get_page_extract_params (title : string) : list (string * string) :=
  [ ("action", "query");
    ("titles", title);
    ("prop", "extracts|pageimages|info");
    ("exintro", "1");
    ("explaintext", "1");
    ("exsentences", "5");
    ("piprop", "thumbnail");
    ("pithumbsize", "300");
    ("inprop", "url");
    ("format", "json") ].

Definition get_categories_params (title : string) : list (string * string) :=
  [ ("action", "query");
    ("titles", title);
    ("prop", "categories");
    ("cllimit", "10");
    ("format", "json") ].

Definition get_random_page_params : list (string * string) :=
  [ ("action", "query");
    ("list", "random");
    ("rnnamespace", "0");
    ("rnlimit", "1");
    ("format", "json") ].

(** ** What each method does with a decoded payload *)

(** [search]: the body of [if resp.status == 200]. *)
Definition search_payload (data : json) : result (list Cand.t) :=
  (n <- Py.len data ;;
   if (4 <=? n)%nat then
     titles <- Py.getitem data 1 ;;
     descriptions <- Py.getitem data 2 ;;
     urls <- Py.getitem data 3 ;;
     ts <- Py.iter titles ;;
     ds <- Py.iter descriptions ;;
     us <- Py.iter urls ;;
     Ok (map (fun tdu => match tdu with
                         | (t, d, u) => Cand.mk t d u None
                         end)
             (Py.zip3 ts ds us))
   else Ok [])%res.

(** The markup [<span class="searchmatch">] that highlights a match. *)
Definition span_open : string :=
  "<span class=" ++ String "034"%char "searchmatch" ++ String "034"%char ">".

(** [search_full]: one element of the comprehension. *)
Definition search_full_record (r : json) : result Cand.t :=
  (title <- Py.get r "title" JNull ;;
   snippet <- Py.get r "snippet" (JStr EmptyString) ;;
   d1 <- Py.replace snippet span_open EmptyString ;;
   let d2 := Py.str_replace "</span>" EmptyString d1 in
   title' <- Py.get r "title" JNull ;;
   u <- Py.replace title' " " "_" ;;
   Ok (Cand.mk title (JStr d2) (JStr (WIKI_BASE_URL ++ "/w/" ++ u)) None))%res.

(** [search_full]: the body of [if resp.status == 200]. *)
Definition search_full_payload (data : json) : result (list Cand.t) :=
  (q <- Py.get data "query" (JObj []) ;;
   results <- Py.get q "search" (JArr []) ;;
   rs <- Py.iter results ;;
   rmap search_full_record rs)%res.

(** [get_all_pages]: the body of [if resp.status == 200].  A page without a
    ["title"] contributes [None]. *)
Definition get_all_pages_payload (data : json) : result (list json) :=
  (q <- Py.get data "query" (JObj []) ;;
   pages <- Py.get q "allpages" (JArr []) ;;
   ps <- Py.iter pages ;;
   rmap (fun p => Py.get p "title" JNull) ps)%res.

Definition NO_DESCRIPTION : string := "Sin descripción disponible.".

(** [get_page_extract]: the body of [if resp.status == 200].  The loop over
    [pages.items()] returns in its first iteration, so only the first entry
    is ever looked at; with no entry the function falls through to its
    final [return None]. *)
Definition get_page_extract_payload (title : string) (data : json)
  : result (option Page.t) :=
  (q <- Py.get data "query" (JObj []) ;;
   pages <- Py.get q "pages" (JObj []) ;;
   entries <- Py.items pages ;;
   match entries with
   | [] => Ok None
   | (page_id, page_data) :: _ =>
       if String.eqb page_id "-1" then Ok None
       else
         t <- Py.get page_data "title" (JStr title) ;;
         e <- Py.get page_data "extract" (JStr NO_DESCRIPTION) ;;
         u <- Py.get page_data "fullurl" (JStr (WIKI_BASE_URL ++ "/w/" ++ title)) ;;
         th <- Py.get page_data "thumbnail" (JObj []) ;;
         src <- Py.get th "source" JNull ;;
         Ok (Some (Page.mk t e u src))
   end)%res.

(** [get_categories]: the body of [if resp.status == 200]; again only the
    first page is looked at. *)
Definition get_categories_payload (data : json) : result (list string) :=
  (q <- Py.get data "query" (JObj []) ;;
   pages <- Py.get q "pages" (JObj []) ;;
   vals <- Py.values pages ;;
   match vals with
   | [] => Ok []
   | page_data :: _ =>
       categories <- Py.get page_data "categories" (JArr []) ;;
       cs <- Py.iter categories ;;
       rmap (fun cat =>
               t <- Py.get cat "title" (JStr EmptyString) ;;
               Py.replace t "Category:" EmptyString) cs
   end)%res.

(** ** The fuzzy ranking engine

    [rapidfuzz] is not part of the repository.  The scorer stays a
    parameter; [process.extract] is the function below. *)

Definition match_t : Type := (json * Z)%type.

Fixpoint insert_desc (x : match_t) (l : list match_t) : list match_t :=
  match l with
  | [] => [x]
  | y :: l' =>
      if (snd y <=? snd x)%Z then x :: y :: l'
      else y :: insert_desc x l'
  end.

(** [desc a b]: [a] may stand before [b] in a ranking. *)
Definition desc (a b : match_t) : Prop := (snd b <= snd a)%Z.

(** Modelled from the spec: the order of a ranking, a stable sort that
    descends in the score. *)
Fixpoint sort_desc (l : list match_t) : list match_t :=
  match l with
  | [] => []
  | x :: l' => insert_desc x (sort_desc l')
  end.

(** ** Vocabulary of the statements *)

(** The entries of [query.pages] in a payload, as [get_page_extract] and
    [get_categories] reach them. *)
Definition page_entries (data : json) : result (list (string * json)) :=
  (q <- Py.get data "query" (JObj []) ;;
   pages <- Py.get q "pages" (JObj []) ;;
   Py.items pages)%res.

(** What the first entry of [query.pages] yields when it is not the
    sentinel. *)
Definition page_of_entry (title : string) (page_data : json) : result (option Page.t) :=
  (t <- Py.get page_data "title" (JStr title) ;;
   e <- Py.get page_data "extract" (JStr NO_DESCRIPTION) ;;
   u <- Py.get page_data "fullurl" (JStr (WIKI_BASE_URL ++ "/w/" ++ title)) ;;
   th <- Py.get page_data "thumbnail" (JObj []) ;;
   src <- Py.get th "source" JNull ;;
   Ok (Some (Page.mk t e u src)))%res.

(** [page_data.get(k, default)] on the members of a page entry. *)
Definition field (k : string) (pd : list (string * json)) (default : json) : json :=
  match assoc k pd with
  | Some v => v
  | None => default
  end.

(** The shape of every method: what it makes of a reply. *)
Definition on_reply {A} (decode : json -> result A) (d : A) (r : reply) : result A :=
  match r with
  | NetFail => Raise ClientError
  | Reply status body =>
      if (status =? 200)%Z then (data <- resp_json body ;; decode data)%res else Ok d
  end.

(** Two records that agree on everything but the score. *)
Definition same_meta (a b : Cand.t) : Prop :=
  Cand.title a = Cand.title b /\
  Cand.description a = Cand.description b /\
  Cand.url a = Cand.url b.

(** [len(data) >= 4] fails in [search]. *)
Definition short (data : json) : bool :=
  match Py.len data with
  | Ok k => (k <? 4)%nat
  | Raise _ => false
  end.

(** [data.get("query", {}).get(k, default)] finds nothing: the payload is an
    object without a ["query"], or one whose ["query"] is an object
    without [k]. *)
Definition lacks (k : string) (data : json) : bool :=
  match data with
  | JObj o =>
      match assoc "query" o with
      | None => true
      | Some (JObj q) =>
          match assoc k q with
          | None => true
          | Some _ => false
          end
      | Some _ => false
      end
  | _ => false
  end.

(** The replies a method answers with "no result": a status other than
    200, or a 200 whose decoded payload holds [nothing] for the method. *)
Definition empty_handed (nothing : json -> bool) (r : reply) : bool :=
  match r with
  | NetFail => false
  | Reply status body =>
      negb (status =? 200)%Z ||
      match body with
      | Some data => nothing data
      | None => false
      end
  end.

(** A reply with a status other than 200. *)
Definition refused (r : reply) : bool := empty_handed (fun _ => false) r.

(** ** The presentation code and the countdown

    The rest of [bot.py]: the two functions that build an embed, and the
    arithmetic of [tiempo_restante_command].  An embed is the record of
    what the code passes to [discord.Embed] and to its setters. *)

(** [bool(v)] *)
Definition py_truthy (v : json) : bool :=
  match v with
  | JNull => false
  | JBool b => b
  | JNum n => negb (n =? 0)%Z
  | JStr s => negb (String.eqb s EmptyString)
  | JArr [] => false
  | JArr (_ :: _) => true
  | JObj [] => false
  | JObj (_ :: _) => true
  end.

(** [v[:k]]: strings and lists are sliced; nothing else is (a dict refuses
    the slice as a key). *)
Definition py_slice (v : json) (k : nat) : result json :=
  match v with
  | JStr s => Ok (JStr (Py.str_take k s))
  | JArr l => Ok (JArr (firstn k l))
  | _ => Raise TypeError
  end.

(** [v + "..."] for a string literal on the right: only a string takes it. *)
Definition py_add_str (v : json) (s : string) : result json :=
  match v with
  | JStr a => Ok (JStr (a ++ s))
  | _ => Raise TypeError
  end.

(** [str(n)] for an integer. *)
Definition str_of_Z (n : Z) : string :=
  NilZero.string_of_int (Z.to_int n).

Module Embed.
Record t : Type := mk {
  title : json;
  url : option json;
  description : option json;
  color : Z;
  thumbnail : option json;                 (* [set_thumbnail(url=...)] *)
  fields : list (string * string * bool);  (* [add_field(name, value, inline)] *)
  footer : option string                   (* [set_footer(text=...)] *)
}.
End Embed.

(** The description of [create_wiki_embed]:
    [extract[:1000] + "..." if len(extract) > 1000 else extract]; the
    condition is evaluated first. *)
Definition wiki_description (extract : json) : result json :=
  (n <- Py.len extract ;;
   if (1000 <? n)%nat then
     cut <- py_slice extract 1000 ;;
     py_add_str cut "..."
   else Ok extract)%res.

(** The value of the field [Categorías]:
    [", ".join(categories[:5]) or "Sin categorías"]. *)
Definition categories_value (categories : list string) : string :=
  match String.concat ", " (firstn 5 categories) with
  | EmptyString => "Sin categorías"
  | v => v
  end.

(** [create_wiki_embed(page_data, categories)]; a [categories] that is
    [None] behaves as the empty list. *)
Definition create_wiki_embed (page_data : Page.t) (categories : list string)
  : result Embed.t :=
  (description <- wiki_description (Page.extract page_data) ;;
   Ok (Embed.mk
         (Page.title page_data)
         (Some (Page.url page_data))
         (Some description)
         43240
         (if py_truthy (Page.thumbnail page_data)
          then Some (Page.thumbnail page_data)
          else None)
         (match categories with
          | [] => []
          | _ :: _ => [("Categorías", categories_value categories, false)]
          end)
         (Some "HytaleWiki.org • Hytale Wiki Bot")))%res.

(** [tiempo_restante_command].  A moment is its number of microseconds
    since the epoch, a [timedelta] the difference of two moments; its
    [days] and [seconds] are the quotient by a day and what is left of it
    in whole seconds. *)
Definition LAUNCH_DATE : Z := 1768320000 * 1000000.   (* 2026-01-13 17:00 CET *)

Definition US_PER_SECOND : Z := 1000000.
Definition US_PER_DAY : Z := 86400 * 1000000.

Definition timedelta_days (td : Z) : Z := td / US_PER_DAY.
Definition timedelta_seconds (td : Z) : Z := (td mod US_PER_DAY) / US_PER_SECOND.

(** What the command shows: the game is out, or the days, hours and
    minutes that remain. *)
Inductive countdown : Type :=
| Released
| Remaining (days hours minutes : Z).

Definition tiempo_restante (now : Z) : countdown :=
  let remaining := (LAUNCH_DATE - now)%Z in
  if (remaining <=? 0)%Z then Released
  else
    let days := timedelta_days remaining in
    let hours := (timedelta_seconds remaining / 3600)%Z in
    let remainder := (timedelta_seconds remaining mod 3600)%Z in
    let minutes := (remainder / 60)%Z in
    Remaining days hours minutes.

(** The embed of the command. *)
Definition tiempo_restante_embed (now : Z) : Embed.t :=
  match tiempo_restante now with
  | Released =>
      Embed.mk (JStr "🚀 ¡HYTALE YA ESTÁ DISPONIBLE!")
               (Some (JStr "https://hytale.com"))
               (Some (JStr "El Early Access ha comenzado. ¡A jugar!"))
               65280 None [] None
  | Remaining days hours minutes =>
      Embed.mk (JStr "⏳ Tiempo restante para Hytale Early Access")
               None None 43240 None
               [ ("📅 Días", ("**" ++ str_of_Z days ++ "**")%string, true);
                 ("🕐 Horas", ("**" ++ str_of_Z hours ++ "**")%string, true);
                 ("⏱️ Minutos", ("**" ++ str_of_Z minutes ++ "**")%string, true);
                 ("📆 Fecha de lanzamiento", "13 de Enero de 2026 a las 17:00 CET", false) ]
               (Some "hytale.com")
  end.

(** Whether [old] occurs in [s], decided. *)
Fixpoint occursb (old s : string) : bool :=
  match s with
  | EmptyString => String.prefix old EmptyString
  | String _ s' => String.prefix old s || occursb old s'
  end.

(** ** Sample remotes, for the examples

    A remote that answers from a fixed table and counts the requests it has
    served; a request that is not in the table gets a 404. *)

Definition params_eqb (a b : list (string * string)) : bool :=
  (List.length a =? List.length b)%nat &&
  forallb (fun p => String.eqb (fst (fst p)) (fst (snd p))
                    && String.eqb (snd (fst p)) (snd (snd p)))
          (combine a b).

Fixpoint table_reply (tbl : list (list (string * string) * reply))
         (params : list (string * string)) : reply :=
  match tbl with
  | [] => Reply 404 None
  | (k, r) :: tbl' => if params_eqb k params then r else table_reply tbl' params
  end.

Definition table_remote (tbl : list (list (string * string) * reply))
           (served : nat) (rq : request) : reply * nat :=
  (table_reply tbl (req_params rq), S served).

(** A scorer for the examples: it knows three titles. *)
Definition sample_WRatio (query : string) (choice : json) : result Z :=
  match choice with
  | JStr t =>
      Ok (if String.eqb t "Kweebec" then 88
          else if String.eqb t "Kweebec Village" then 70
          else if String.eqb t "Trork" then 45
          else 30)%Z
  | _ => Raise TypeError
  end.

Definition sample_str_score (s : Z) : string :=
  NilZero.string_of_int (Z.to_int s).

Definition missing_page (title : string) : json :=
  JObj [ ("batchcomplete", JStr EmptyString);
         ("query", JObj [ ("pages", JObj [ ("-1", JObj [ ("ns", JNum 0);
                                                        ("title", JStr title);
                                                        ("missing", JStr EmptyString) ]) ]) ]) ].

Definition kweebec_page : json :=
  JObj [ ("batchcomplete", JStr EmptyString);
         ("query", JObj [ ("pages", JObj [ ("11", JObj [
            ("pageid", JNum 11);
            ("ns", JNum 0);
            ("title", JStr "Kweebec");
            ("extract", JStr "The Kweebecs are a peaceful forest people.");
            ("thumbnail", JObj [ ("source", JStr "https://hytalewiki.org/images/kweebec.png");
                                 ("width", JNum 300) ]);
            ("fullurl", JStr "https://hytalewiki.org/w/Kweebec") ]) ]) ]) ].

Definition kweebec_categories : json :=
  JObj [ ("query", JObj [ ("pages", JObj [ ("11", JObj [
            ("pageid", JNum 11);
            ("title", JStr "Kweebec");
            ("categories", JArr [ JObj [ ("ns", JNum 14); ("title", JStr "Category:Factions") ];
                                  JObj [ ("ns", JNum 14); ("title", JStr "Category:Zone 1") ] ]) ]) ]) ]) ].

(** The wiki as the query [Kweebek] (a typo) sees it: no such page, no
    open-search hit, and a title sample that holds [Kweebec]. *)
Definition kweebek_wiki : list (list (string * string) * reply) :=
  [ (get_page_extract_params "Kweebek", Reply 200 (Some (missing_page "Kweebek")));
    (search_params "Kweebek" 10,
     Reply 200 (Some (JArr [ JStr "Kweebek"; JArr []; JArr []; JArr [] ])));
    (get_all_pages_params "Kweebek" 50,
     Reply 200 (Some (JObj [ ("query", JObj [ ("allpages", JArr [
        JObj [ ("pageid", JNum 11); ("ns", JNum 0); ("title", JStr "Kweebec") ];
        JObj [ ("pageid", JNum 12); ("ns", JNum 0); ("title", JStr "Kweebec Village") ];
        JObj [ ("pageid", JNum 13); ("ns", JNum 0); ("title", JStr "Kwyjibo") ] ]) ]) ])));
    (get_page_extract_params "Kweebec", Reply 200 (Some kweebec_page));
    (get_categories_params "Kweebec", Reply 200 (Some kweebec_categories)) ].

(** The wiki as the query [blo] sees it: the open search answers. *)
Definition blo_wiki : list (list (string * string) * reply) :=
  [ (get_page_extract_params "blo", Reply 200 (Some (missing_page "Blo")));
    (search_params "blo" 10,
     Reply 200 (Some (JArr [ JStr "blo";
                             JArr [ JStr "Block"; JStr "Blood Moon"; JStr "Blowgun" ];
                             JArr [ JStr EmptyString; JStr EmptyString; JStr EmptyString ];
                             JArr [ JStr "https://hytalewiki.org/w/Block";
                                    JStr "https://hytalewiki.org/w/Blood_Moon";
                                    JStr "https://hytalewiki.org/w/Blowgun" ] ]))) ].

(** The wiki as the query [forest people] sees it: only the full-text
    search answers. *)
Definition forest_wiki : list (list (string * string) * reply) :=
  [ (get_page_extract_params "forest people", Reply 200 (Some (missing_page "Forest people")));
    (search_params "forest people" 10,
     Reply 200 (Some (JArr [ JStr "forest people"; JArr []; JArr []; JArr [] ])));
    (get_all_pages_params "forest people" 50,
     Reply 200 (Some (JObj [ ("batchcomplete", JStr EmptyString);
                             ("query", JObj [ ("allpages", JArr []) ]) ])));
    (search_full_params "forest people" 10,
     Reply 200 (Some (JObj [ ("query", JObj [ ("search", JArr [
        JObj [ ("title", JStr "Trork");
               ("snippet", JStr ("enemies of the " ++ span_open ++ "forest</span> folk")) ];
        JObj [ ("title", JStr "Kweebec Village");
               ("snippet", JStr "a village") ];
        JObj [ ("title", JStr "Kweebec");
               ("snippet", JStr ("a " ++ span_open ++ "forest</span> " ++ span_open ++ "people</span>")) ] ]) ]) ])));
    (get_page_extract_params "Kweebec", Reply 200 (Some kweebec_page));
    (get_categories_params "Kweebec", Reply 200 (Some kweebec_categories)) ].

(** The page [Kweebec] as the API describes it with nothing but its id,
    namespace and title. *)
Definition bare_page : json :=
  JObj [ ("query", JObj [ ("pages", JObj [ ("11", JObj [
            ("pageid", JNum 11);
            ("ns", JNum 0);
            ("title", JStr "Kweebec") ]) ]) ]) ].

Definition bare_wiki : list (list (string * string) * reply) :=
  [ (get_page_extract_params "kweebec", Reply 200 (Some bare_page)) ].

(** Replies with a status of 200 that resolve nothing, or not what was
    asked: no [query] at all; two entries, the missing one second. *)
Definition odd_wiki : list (list (string * string) * reply) :=
  [ (get_page_extract_params "Nowhere",
     Reply 200 (Some (JObj [ ("batchcomplete", JStr EmptyString) ])));
    (get_page_extract_params "Kweebec|Nope",
     Reply 200 (Some (JObj [ ("query", JObj [ ("pages", JObj [
        ("11", JObj [ ("pageid", JNum 11); ("ns", JNum 0); ("title", JStr "Kweebec");
                      ("extract", JStr "The Kweebecs are a peaceful forest people.");
                      ("fullurl", JStr "https://hytalewiki.org/w/Kweebec") ]);
        ("-1", JObj [ ("ns", JNum 0); ("title", JStr "Nope");
                      ("missing", JStr EmptyString) ]) ]) ]) ]))) ].

(** Replies that are not what the methods expect: an object of four members
    for the open search, a hit without a title for the full-text search, a
    body that is not JSON for the page. *)
Definition unexpected_wiki : list (list (string * string) * reply) :=
  [ (search_params "Kweebec" 5,
     Reply 200 (Some (JObj [ ("error", JObj [ ("code", JStr "internal_api_error") ]);
                             ("servedby", JStr "mw1");
                             ("warnings", JObj []);
                             ("batchcomplete", JStr EmptyString) ])));
    (search_full_params "Kweebec" 20,
     Reply 200 (Some (JObj [ ("query", JObj [ ("search", JArr [
        JObj [ ("ns", JNum 0); ("snippet", JStr "a forest people") ] ]) ]) ])));
    (get_page_extract_params "Kweebec", Reply 200 None) ].

(** A 200 whose payload is a JSON array. *)
Definition array_wiki : list (list (string * string) * reply) :=
  [ (get_page_extract_params "Kweebec", Reply 200 (Some (JArr []))) ].

(** Replies the client answers with "no result": a 503 for the open
    search, the API's error object for the full-text search, a [query]
    without the list for the title sample, an empty body of a 200 for the
    page, a 404 for everything else. *)
Definition error_wiki : list (list (string * string) * reply) :=
  [ (search_params "Kweebec" 5, Reply 503 None);
    (search_full_params "Kweebec" 5,
     Reply 200 (Some (JObj [ ("error", JObj [ ("code", JStr "badvalue") ]);
                             ("servedby", JStr "mw1") ])));
    (get_all_pages_params "Kw" 5,
     Reply 200 (Some (JObj [ ("batchcomplete", JStr EmptyString);
                             ("query", JObj []) ])));
    (get_page_extract_params "Kweebec",
     Reply 200 (Some (JObj [ ("batchcomplete", JStr EmptyString) ]))) ].

(** The wiki of [kweebek_wiki] once the page [Kweebec] is gone while the
    title sample still lists it. *)
Definition stale_wiki : list (list (string * string) * reply) :=
  (get_page_extract_params "Kweebec", Reply 200 (Some (missing_page "Kweebec")))
    :: kweebek_wiki.

(** A remote that cannot be reached. *)
Definition unreachable (served : nat) (rq : request) : reply * nat :=
  (NetFail, served).

(** Records the examples meet. *)
Definition blo_results : list Cand.t :=
  [ Cand.mk (JStr "Block") (JStr EmptyString)
            (JStr "https://hytalewiki.org/w/Block") None;
    Cand.mk (JStr "Blood Moon") (JStr EmptyString)
            (JStr "https://hytalewiki.org/w/Blood_Moon") None;
    Cand.mk (JStr "Blowgun") (JStr EmptyString)
            (JStr "https://hytalewiki.org/w/Blowgun") None ].

Definition kweebek_candidates : list Cand.t :=
  [ Cand.mk (JStr "Kweebec") (JStr "Coincidencia: 88%")
            (JStr "https://hytalewiki.org/w/Kweebec") (Some 88%Z);
    Cand.mk (JStr "Kweebec Village") (JStr "Coincidencia: 70%")
            (JStr "https://hytalewiki.org/w/Kweebec_Village") (Some 70%Z) ].

Definition forest_results : list Cand.t :=
  [ Cand.mk (JStr "Trork") (JStr "enemies of the forest folk")
            (JStr "https://hytalewiki.org/w/Trork") None;
    Cand.mk (JStr "Kweebec Village") (JStr "a village")
            (JStr "https://hytalewiki.org/w/Kweebec_Village") None;
    Cand.mk (JStr "Kweebec") (JStr "a forest people")
            (JStr "https://hytalewiki.org/w/Kweebec") None ].

Definition forest_candidates : list Cand.t :=
  [ Cand.mk (JStr "Kweebec") (JStr "a forest people")
            (JStr "https://hytalewiki.org/w/Kweebec") (Some 88%Z);
    Cand.mk (JStr "Kweebec Village") (JStr "a village")
            (JStr "https://hytalewiki.org/w/Kweebec_Village") (Some 70%Z);
    Cand.mk (JStr "Trork") (JStr "enemies of the forest folk")
            (JStr "https://hytalewiki.org/w/Trork") (Some 45%Z) ].

Definition forest_matches : list match_t :=
  [ (JStr "Kweebec", 88%Z); (JStr "Kweebec Village", 70%Z); (JStr "Trork", 45%Z) ].

Definition kweebec_record : Page.t :=
  Page.mk (JStr "Kweebec")
          (JStr "The Kweebecs are a peaceful forest people.")
          (JStr "https://hytalewiki.org/w/Kweebec")
          (JStr "https://hytalewiki.org/images/kweebec.png").

(** A full-text search that lists the same title twice. *)
Definition twin_wiki : list (list (string * string) * reply) :=
  [ (search_full_params "people" 10,
     Reply 200 (Some (JObj [ ("query", JObj [ ("search", JArr [
        JObj [ ("title", JStr "Kweebec"); ("snippet", JStr "first") ];
        JObj [ ("title", JStr "Kweebec"); ("snippet", JStr "second") ] ]) ]) ]))) ].

(** A full-text search with six hits, one more than the ranking keeps. *)
Definition crowded_wiki : list (list (string * string) * reply) :=
  [ (search_full_params "zone" 10,
     Reply 200 (Some (JObj [ ("query", JObj [ ("search", JArr [
        JObj [ ("title", JStr "Emerald Grove"); ("snippet", JStr "a zone") ];
        JObj [ ("title", JStr "Trork"); ("snippet", JStr "zone 1") ];
        JObj [ ("title", JStr "Howling Sands"); ("snippet", JStr "a zone") ];
        JObj [ ("title", JStr "Kweebec"); ("snippet", JStr "zone 1") ];
        JObj [ ("title", JStr "Borea"); ("snippet", JStr "a zone") ];
        JObj [ ("title", JStr "Devastated Lands"); ("snippet", JStr "a zone") ] ]) ]) ]))) ].

(** A rendering of the values that are not strings, for the examples. *)
Definition sample_repr (v : json) : string := "<value>".

(** A page whose extract is present and null. *)
Definition null_extract_wiki : list (list (string * string) * reply) :=
  [ (get_page_extract_params "Void",
     Reply 200 (Some (JObj [ ("query", JObj [ ("pages", JObj [ ("31", JObj [
        ("pageid", JNum 31); ("ns", JNum 0); ("title", JStr "Void");
        ("extract", JNull) ]) ]) ]) ]))) ].

Definition void_record : Page.t :=
  Page.mk (JStr "Void") JNull (JStr "https://hytalewiki.org/w/Void") JNull.

(** The wiki when it draws [Kweebec] as its random page. *)
Definition random_payload : json :=
  JObj [ ("batchcomplete", JStr EmptyString);
         ("query", JObj [ ("random", JArr [
            JObj [ ("id", JNum 11); ("ns", JNum 0); ("title", JStr "Kweebec") ] ]) ]) ].

Definition random_wiki : list (list (string * string) * reply) :=
  [ (get_random_page_params, Reply 200 (Some random_payload));
    (get_page_extract_params "Kweebec", Reply 200 (Some kweebec_page)) ].

(** The embed of the page [Kweebec] with its two categories. *)
Definition kweebec_embed : Embed.t :=
  Embed.mk (JStr "Kweebec")
           (Some (JStr "https://hytalewiki.org/w/Kweebec"))
           (Some (JStr "The Kweebecs are a peaceful forest people."))
           43240
           (Some (JStr "https://hytalewiki.org/images/kweebec.png"))
           [("Categorías", "Factions, Zone 1", false)]
           (Some "HytaleWiki.org • Hytale Wiki Bot").

(** Fifty characters, a hundred bytes. *)
Definition accent_text : string :=
  "éééééééééééééééééééééééééééééééééééééééééééééééééé".

(** Six hundred characters, twelve hundred bytes. *)
Definition accent_extract : string :=
  String.concat EmptyString (repeat accent_text 12).

Definition accent_record : Page.t :=
  Page.mk (JStr "Señal") (JStr accent_extract)
          (JStr "https://hytalewiki.org/w/Señal") JNull.

Definition accent_candidate : Cand.t :=
  Cand.mk (JStr "Señal") (JStr accent_text)
          (JStr "https://hytalewiki.org/w/Señal") None.

(** A moment three days, 13 hours, 55 minutes, 54 seconds and some
    microseconds before the launch: 2026-01-10 03:04:05.123456 CET. *)
Definition three_days_before : Z := 1768010645123456.

Definition fresh : net nat := mk_net 0 [].

Section Bot.

(** [fuzz.WRatio(query, choice)]: a similarity between 0 and 100, or an
    exception when the library refuses the choice. *)
Variable WRatio : string -> json -> result Z.

(** How an f-string renders a score. *)
Variable str_score : Z -> string.

(** The remote wiki: its states, and how it answers a request in a state. *)
Variable St : Type.
Variable respond : St -> request -> reply * St.

(** Modelled from the spec: the scoring pass of [process.extract], which is
    library code.  Every choice is scored in the order of the list; the
    library skips a choice that is [None]. *)
Fixpoint extract_iter (query : string) (choices : list json) : result (list match_t) :=
  match choices with
  | [] => Ok []
  | JNull :: cs => extract_iter query cs
  | c :: cs =>
      (s <- WRatio query c ;;
       rest <- extract_iter query cs ;;
       Ok ((c, s) :: rest))%res
  end.

(** Modelled from the spec: [process.extract(query, choices,
    scorer=fuzz.WRatio, limit=limit)], which is library code: an ordered
    sequence of (candidate, score), descending by score, ties in the
    candidates' original order, cut at [limit]; no threshold is applied. *)
Definition process_extract (query : string) (choices : list json) (limit : nat)
  : result (list match_t) :=
  (ms <- extract_iter query choices ;;
   Ok (firstn limit (sort_desc ms)))%res.

(** ** The client monad: exceptions over the state of the client *)

Definition M (A : Type) : Type := net St -> result A * net St.

Definition ret {A} (a : A) : M A := fun n => (Ok a, n).

Definition bind {A B} (m : M A) (f : A -> M B) : M B :=
  fun n =>
    match m n with
    | (Ok a, n') => f a n'
    | (Raise e, n') => (Raise e, n')
    end.

Definition lift {A} (r : result A) : M A := fun n => (r, n).

Notation "x <- m ;; k" := (bind m (fun x => k))
  (at level 61, m at next level, right associativity) : net_scope.

(** [async with self.session.get(self.api_url, params=params) as resp]:
    the response object is its status and its (not yet decoded) body. *)
Definition session_get (params : list (string * string)) : M (Z * option json) :=
  fun n =>
    let rq := mk_request WIKI_API_URL params in
    let n' := mk_net (snd (respond (remote n) rq)) (log n ++ [rq]) in
    match fst (respond (remote n) rq) with
    | NetFail => (Raise ClientError, n')
    | Reply status body => (Ok (status, body), n')
    end.

Definition api_request (params : list (string * string)) : request :=
  mk_request WIKI_API_URL params.

(** The state of the client after one request. *)
Definition after (n : net St) (params : list (string * string)) : net St :=
  mk_net (snd (respond (remote n) (api_request params)))
         (log n ++ [api_request params]).

(** The reply the remote gives to a request in the state [n]. *)
Definition reply_to (n : net St) (params : list (string * string)) : reply :=
  fst (respond (remote n) (api_request params)).

(** ** The methods of [WikiAPI] *)

Definition search (query : string) (limit : nat) : M (list Cand.t) :=
  (resp <- session_get (search_params query limit) ;;
   if (fst resp =? 200)%Z
   then lift (data <- resp_json (snd resp) ;; search_payload data)%res
   else ret [])%net.

Definition search_full (query : string) (limit : nat) : M (list Cand.t) :=
  (resp <- session_get (search_full_params query limit) ;;
   if (fst resp =? 200)%Z
   then lift (data <- resp_json (snd resp) ;; search_full_payload data)%res
   else ret [])%net.

Definition get_all_pages (prefix : string) (limit : nat) : M (list json) :=
  (resp <- session_get (get_all_pages_params prefix limit) ;;
   if (fst resp =? 200)%Z
   then lift (data <- resp_json (snd resp) ;; get_all_pages_payload data)%res
   else ret [])%net.

Definition get_page_extract (title : string) : M (option Page.t) :=
  (resp <- session_get (get_page_extract_params title) ;;
   if (fst resp =? 200)%Z
   then lift (data <- resp_json (snd resp) ;; get_page_extract_payload title data)%res
   else ret None)%net.

Definition get_categories (title : string) : M (list string) :=
  (resp <- session_get (get_categories_params title) ;;
   if (fst resp =? 200)%Z
   then lift (data <- resp_json (snd resp) ;; get_categories_payload data)%res
   else ret [])%net.

(** *** [fuzzy_search] *)

(** Stage 2, the comprehension over the matches: the filter is evaluated
    before the element, so a match under the threshold is never touched. *)
Fixpoint scored_matches (threshold : Z) (matches : list match_t) : result (list Cand.t) :=
  match matches with
  | [] => Ok []
  | m :: ms =>
      if (threshold <=? snd m)%Z then
        (u <- Py.replace (fst m) " " "_" ;;
         rest <- scored_matches threshold ms ;;
         Ok (Cand.mk (fst m)
                     (JStr ("Coincidencia: " ++ str_score (snd m) ++ "%"))
                     (JStr (WIKI_BASE_URL ++ "/w/" ++ u))
                     (Some (snd m))
               :: rest))%res
      else scored_matches threshold ms
  end.

(** Stage 2 on a non-empty title sample: rank, then filter and convert. *)
Definition title_sample_matches (query : string) (threshold : Z) (all_pages : list json)
  : result (list Cand.t) :=
  (matches <- process_extract query all_pages 5 ;;
   scored_matches threshold matches)%res.

(** Stage 3.  [results] is a list of dict objects and the loop works on the
    objects themselves: [r["score"] = match[1]] mutates the dict in place
    and [scored_results.append(r)] stores a reference to it.  The dicts are
    the cells of a store, a reference is an index into it. *)

(** The inner loop: the first [r] with [r["title"] == match[0]]. *)
Fixpoint find_title (t : json) (rs : list Cand.t) : option nat :=
  match rs with
  | [] => None
  | r :: rs' =>
      if Py.eq (Cand.title r) t then Some O
      else option_map S (find_title t rs')
  end.

(** [r["score"] = s]: the dict keeps its other keys. *)
Definition with_score (s : Z) (r : Cand.t) : Cand.t :=
  Cand.mk (Cand.title r) (Cand.description r) (Cand.url r) (Some s).

(** [r["score"] = s] on the cell [i] of the store. *)
Fixpoint set_score (i : nat) (s : Z) (store : list Cand.t) : list Cand.t :=
  match store, i with
  | [], _ => []
  | r :: rest, O => with_score s r :: rest
  | r :: rest, S i' => r :: set_score i' s rest
  end.

(** The outer loop, from the store and the references appended so far. *)
Fixpoint rerank (matches : list match_t) (store : list Cand.t) (scored : list nat)
  : list Cand.t * list nat :=
  match matches with
  | [] => (store, scored)
  | m :: ms =>
      match find_title (fst m) store with
      | Some i => rerank ms (set_score i (snd m) store) (scored ++ [i])
      | None => rerank ms store scored
      end
  end.

(** The list a caller of [fuzzy_search] reads: every reference followed in
    the final store (a reference is always an index of the store). *)
Definition deref (store : list Cand.t) (refs : list nat) : list Cand.t :=
  flat_map (fun i => match nth_error store i with
                     | Some r => [r]
                     | None => []
                     end) refs.

Definition scored_results (matches : list match_t) (results : list Cand.t) : list Cand.t :=
  deref (fst (rerank matches results [])) (snd (rerank matches results [])).

Definition is_empty {A} (l : list A) : bool :=
  match l with
  | [] => true
  | _ :: _ => false
  end.

Definition fuzzy_search (query : string) (threshold : Z) : M (list Cand.t) :=
  (results <- search query 10 ;;
   results <-
     (if is_empty results then
        all_pages <- get_all_pages query 50 ;;
        if is_empty all_pages then ret results
        else lift (title_sample_matches query threshold all_pages)
      else ret results) ;;
   if is_empty results then
     results <- search_full query 10 ;;
     if is_empty results then ret results
     else
       matches <- lift (process_extract query (map Cand.title results) 5) ;;
       ret (scored_results matches results)
   else ret results)%net.

(** ** The [/wiki] command *)

(** What the command hands to the presentation code: the page and its
    categories for [create_wiki_embed], the suggestions for
    [create_search_embed], or the message that nothing was found. *)
Inductive outcome : Type :=
| ShowPage (page : Page.t) (categories : list string)
| ShowSuggestions (results : list Cand.t)
| NotFound.

(** [best_match.get("score", 0)] *)
Definition score_or_0 (r : Cand.t) : Z :=
  match Cand.score r with
  | Some s => s
  | None => 0
  end.

(** [best_match["title"]] as the argument of a method declared on
    [title: str].  A record that has a score has a string for its title,
    so the other case never runs. *)
Definition as_str (v : json) : result string :=
  match v with
  | JStr s => Ok s
  | _ => Raise TypeError
  end.

Definition wiki_command (articulo : string) : M outcome :=
  (page <- get_page_extract articulo ;;
   match page with
   | Some p =>
       categories <- get_categories articulo ;;
       ret (ShowPage p categories)
   | None =>
       results <- fuzzy_search articulo 60 ;;
       match results with
       | best_match :: _ =>
           if (85 <=? score_or_0 best_match)%Z then
             title <- lift (as_str (Cand.title best_match)) ;;
             page <- get_page_extract title ;;
             match page with
             | Some p =>
                 categories <- get_categories title ;;
                 ret (ShowPage p categories)
             | None => ret (ShowSuggestions results)
             end
           else ret (ShowSuggestions results)
       | [] => ret NotFound
       end
   end)%net.

(** ** The rest of the client and of the commands *)

Section Rendering.

(** How an f-string renders a value that is not a string (its [repr]). *)
Variable repr_json : json -> string.

(** [f"{v}"] *)
Definition fstr (v : json) : string :=
  match v with
  | JStr s => s
  | _ => repr_json v
  end.

(** [if score:] on [result.get("score")]: a score of 0 counts as none. *)
Definition score_truthy (r : Cand.t) : bool :=
  match Cand.score r with
  | Some s => negb (s =? 0)%Z
  | None => false
  end.

Definition newline : string := String "010"%char EmptyString.

(** The text [create_search_embed] puts under the link of a record it
    shows without a score: the first 80 characters of the description,
    with an ellipsis when there were more, or a fixed text when there is
    nothing to show. *)
Definition excerpt (description : json) : result string :=
  (desc <- py_slice description 80 ;;
   desc <- (if py_truthy desc then
              n <- Py.len description ;;
              if (80 <? n)%nat then py_add_str desc "..." else Ok desc
            else Ok desc) ;;
   Ok (if py_truthy desc then fstr desc else "Sin descripción"))%res.

(** One element of [description_parts], for the [i]-th record. *)
Definition search_entry (i : nat) (r : Cand.t) : result string :=
  let link :=
    ("**" ++ str_of_nat i ++ ". [" ++ fstr (Cand.title r) ++ "]("
          ++ fstr (Cand.url r) ++ ")**")%string in
  if score_truthy r then
    Ok (link ++ " (" ++ str_score (score_or_0 r) ++ "% coincidencia)")%string
  else
    (d <- excerpt (Cand.description r) ;;
     Ok (link ++ newline ++ d)%string)%res.

(** [for i, result in enumerate(results, i)] *)
Fixpoint search_entries (i : nat) (results : list Cand.t) : result (list string) :=
  match results with
  | [] => Ok []
  | r :: rest =>
      (e <- search_entry i r ;;
       es <- search_entries (S i) rest ;;
       Ok (e :: es))%res
  end.

Definition create_search_embed (results : list Cand.t) (query : string) (fuzzy : bool)
  : result Embed.t :=
  let title :=
    (if fuzzy then "🔎 ¿Quisiste decir...? (" ++ query ++ ")"
     else "🔍 Resultados para: " ++ query)%string in
  (description <-
     (if is_empty results then Ok "No se encontraron resultados."
      else
        description_parts <- search_entries 1 results ;;
        Ok (String.concat (newline ++ newline)%string description_parts)) ;;
   Ok (Embed.mk (JStr title) None (Some (JStr description)) 43240 None []
                (Some "HytaleWiki.org • Usa /wiki <artículo> para ver detalles")))%res.

(** What a command sends: an embed, or a plain (ephemeral) message. *)
Inductive message : Type :=
| SendEmbed (embed : Embed.t)
| SendText (content : string) (ephemeral : bool).

(** The three [followup.send] of [wiki_command], from its outcome. *)
Definition present (articulo : string) (o : outcome) : result message :=
  match o with
  | ShowPage page categories =>
      (embed <- create_wiki_embed page categories ;; Ok (SendEmbed embed))%res
  | ShowSuggestions results =>
      (embed <- create_search_embed results articulo true ;; Ok (SendEmbed embed))%res
  | NotFound =>
      Ok (SendText ("❌ No se encontró ningún artículo para **" ++ articulo ++ "**")%string
                   true)
  end.

(** The whole of [wiki_command]: the command builds the embed itself,
    between its last client call and [followup.send], and what it returns
    here is the message it sends.  Without the embeds it is [wiki_command]
    above. *)
Definition wiki_command_send (articulo : string) : M message :=
  (page <- get_page_extract articulo ;;
   match page with
   | Some p =>
       categories <- get_categories articulo ;;
       embed <- lift (create_wiki_embed p categories) ;;
       ret (SendEmbed embed)
   | None =>
       results <- fuzzy_search articulo 60 ;;
       match results with
       | best_match :: _ =>
           if (85 <=? score_or_0 best_match)%Z then
             title <- lift (as_str (Cand.title best_match)) ;;
             page <- get_page_extract title ;;
             match page with
             | Some p =>
                 categories <- get_categories title ;;
                 embed <- lift (create_wiki_embed p categories) ;;
                 ret (SendEmbed embed)
             | None =>
                 embed <- lift (create_search_embed results articulo true) ;;
                 ret (SendEmbed embed)
             end
           else
             embed <- lift (create_search_embed results articulo true) ;;
             ret (SendEmbed embed)
       | [] =>
           ret (SendText ("❌ No se encontró ningún artículo para **" ++ articulo ++ "**")%string
                         true)
       end
   end)%net.

(** [bool(results and results[0].get("score"))] *)
Definition fuzzy_flag (results : list Cand.t) : bool :=
  match results with
  | [] => false
  | r :: _ => score_truthy r
  end.

Definition wikisearch_command (busqueda : string) : M message :=
  (results <- fuzzy_search busqueda 60 ;;
   embed <- lift (create_search_embed results busqueda (fuzzy_flag results)) ;;
   ret (SendEmbed embed))%net.

End Rendering.

(** *** [get_random_page] *)

(** The title [get_random_page] reads in the payload, if it reads one. *)
Definition random_title (data : json) : result (option json) :=
  (q <- Py.get data "query" (JObj []) ;;
   random_pages <- Py.get q "random" (JArr []) ;;
   if py_truthy random_pages then
     first <- Py.getitem random_pages 0 ;;
     title <- Py.get first "title" JNull ;;
     Ok (Some title)
   else Ok None)%res.

(** A value as a request parameter: the transport takes a string as it is
    and an integer as its decimal text, and refuses anything else before it
    sends the request. *)
Definition query_var (v : json) : result string :=
  match v with
  | JStr s => Ok s
  | JNum n => Ok (str_of_Z n)
  | _ => Raise TypeError
  end.

(** [get_page_extract(title)] for the title [get_random_page] has read,
    which is whatever the payload held: the body of [get_page_extract] with
    that value where the source has [title]. *)
Definition get_page_extract_payload_of (title : json) (text : string) (data : json)
  : result (option Page.t) :=
  (q <- Py.get data "query" (JObj []) ;;
   pages <- Py.get q "pages" (JObj []) ;;
   entries <- Py.items pages ;;
   match entries with
   | [] => Ok None
   | (page_id, page_data) :: _ =>
       if String.eqb page_id "-1" then Ok None
       else
         t <- Py.get page_data "title" title ;;
         e <- Py.get page_data "extract" (JStr NO_DESCRIPTION) ;;
         u <- Py.get page_data "fullurl" (JStr (WIKI_BASE_URL ++ "/w/" ++ text)) ;;
         th <- Py.get page_data "thumbnail" (JObj []) ;;
         src <- Py.get th "source" JNull ;;
         Ok (Some (Page.mk t e u src))
   end)%res.

Definition get_page_extract_of (title : json) : M (option Page.t) :=
  (text <- lift (query_var title) ;;
   resp <- session_get (get_page_extract_params text) ;;
   if (fst resp =? 200)%Z
   then lift (data <- resp_json (snd resp) ;;
              get_page_extract_payload_of title text data)%res
   else ret None)%net.

Definition get_random_page : M (option Page.t) :=
  (resp <- session_get get_random_page_params ;;
   if (fst resp =? 200)%Z then
     title <- lift (data <- resp_json (snd resp) ;; random_title data)%res ;;
     match title with
     | Some t => get_page_extract_of t
     | None => ret None
     end
   else ret None)%net.

(** ** Vocabulary of the statements about the pipeline *)

(** Stage 2 as [fuzzy_search] runs it: nothing on an empty title sample. *)
Definition stage2 (query : string) (threshold : Z) (all_pages : list json)
  : result (list Cand.t) :=
  if is_empty all_pages then Ok []
  else title_sample_matches query threshold all_pages.

(** Stage 3 on the results of [search_full]. *)
Definition stage3 (query : string) (results : list Cand.t) : result (list Cand.t) :=
  if is_empty results then Ok []
  else
    (matches <- process_extract query (map Cand.title results) 5 ;;
     Ok (scored_results matches results))%res.

(** What the command does once a confident match [title] is found. *)
Definition resolve_again (title : string) (results : list Cand.t) : M outcome :=
  (page <- get_page_extract title ;;
   match page with
   | Some p =>
       categories <- get_categories title ;;
       ret (ShowPage p categories)
   | None => ret (ShowSuggestions results)
   end)%net.

(** The ways the client calls of [wiki_command] can go from the state [n]:
    they decide how the command ends. *)

(** The direct lookup finds nothing and the cascade answers with
    [results], whose first candidate is confident (a score of at least 85)
    and has the title [title]: the command looks [title] up, from the
    state [n2]. *)
Definition confident (articulo : string) (n : net St) (results : list Cand.t)
           (title : string) (n2 : net St) : Prop :=
  exists n1 best_match rest,
    get_page_extract articulo n = (Ok None, n1) /\
    fuzzy_search articulo 60 n1 = (Ok results, n2) /\
    results = best_match :: rest /\
    (85 <= score_or_0 best_match)%Z /\
    Cand.title best_match = JStr title.

(** One of the client calls of the command raises [e]: the direct lookup,
    the categories of the page it found, the cascade, the second lookup,
    or the categories of the page the second lookup found. *)
Definition call_raises (articulo : string) (n : net St) (e : exn) : Prop :=
  fst (get_page_extract articulo n) = Raise e \/
  (exists p n1,
      get_page_extract articulo n = (Ok (Some p), n1) /\
      fst (get_categories articulo n1) = Raise e) \/
  (exists n1,
      get_page_extract articulo n = (Ok None, n1) /\
      fst (fuzzy_search articulo 60 n1) = Raise e) \/
  (exists results title n2,
      confident articulo n results title n2 /\
      (fst (get_page_extract title n2) = Raise e \/
       exists p n3,
         get_page_extract title n2 = (Ok (Some p), n3) /\
         fst (get_categories title n3) = Raise e)).

(** The client calls return and leave the command with a page and its
    categories: the page of the direct lookup, or the page of the second
    lookup. *)
Definition page_found (articulo : string) (n : net St)
           (p : Page.t) (categories : list string) : Prop :=
  (exists n1,
      get_page_extract articulo n = (Ok (Some p), n1) /\
      fst (get_categories articulo n1) = Ok categories) \/
  (exists results title n2 n3,
      confident articulo n results title n2 /\
      get_page_extract title n2 = (Ok (Some p), n3) /\
      fst (get_categories title n3) = Ok categories).

(** The client calls return and leave the command with the candidates of
    the cascade: the first of them is not confident, or the second lookup
    finds nothing. *)
Definition candidates_left (articulo : string) (n : net St) (results : list Cand.t)
  : Prop :=
  (exists n1 best_match rest,
      get_page_extract articulo n = (Ok None, n1) /\
      fst (fuzzy_search articulo 60 n1) = Ok results /\
      results = best_match :: rest /\
      (score_or_0 best_match < 85)%Z) \/
  (exists title n2,
      confident articulo n results title n2 /\
      fst (get_page_extract title n2) = Ok None).

(** The direct lookup finds nothing and the cascade returns the empty
    list. *)
Definition nothing_found (articulo : string) (n : net St) : Prop :=
  exists n1,
    get_page_extract articulo n = (Ok None, n1) /\
    fst (fuzzy_search articulo 60 n1) = Ok [].

(** A reference appended so far points to a cell that carries the score of
    its own title. *)
Definition scored_cell (query : string) (store : list Cand.t) (j : nat) : Prop :=
  exists r s,
    nth_error store j = Some r /\
    WRatio query (Cand.title r) = Ok s /\
    Cand.score r = Some s.

(** A match the outer loop can place: a string title of the store, with the
    score the scorer gives it. *)
Definition placeable (query : string) (store : list Cand.t) (m : match_t) : Prop :=
  (exists t, fst m = JStr t) /\
  In (fst m) (map Cand.title store) /\
  WRatio query (fst m) = Ok (snd m).

(** A computation whose result does not depend on the state it starts in. *)
Definition stable {A} (m : M A) : Prop :=
  forall n n', fst (m n) = fst (m n').

(** The remote's data set is unchanged: whatever state the remote is in, it
    gives the same reply to the same request. *)
Definition unchanged_remote : Prop :=
  forall st st' rq, fst (respond st rq) = fst (respond st' rq).

(** A computation that issues at most [bound] requests, each of them
    satisfying [P], whatever the state it starts in. *)
Definition issues {A} (m : M A) (bound : nat) (P : request -> Prop) : Prop :=
  forall n, exists new,
    log (snd (m n)) = log n ++ new /\
    List.length new <= bound /\
    Forall P new.

(** A request to the API of the wiki that asks for JSON. *)
Definition api_json (rq : request) : Prop :=
  req_url rq = WIKI_API_URL /\ In ("format", "json") (req_params rq).

(** The requests of the three stages of the cascade, in their order. *)
Definition stage_requests (query : string) : list request :=
  [ api_request (search_params query 10);
    api_request (get_all_pages_params query 50);
    api_request (search_full_params query 10) ].

(** [old] occurs somewhere in [s]. *)
Definition occurs (old s : string) : Prop :=
  exists a b, s = (a ++ old ++ b)%string.

(** A space becomes an underscore, every other character stays. *)
Definition underscore (c : ascii) : ascii :=
  if Ascii.eqb c " " then "_"%char else c.

(** How [get_categories] turns an entry of [categories] into a name: the
    title [Category:name] gives [name], no title gives the empty string. *)
Definition category_named (cat : json) (name : string) : Prop :=
  exists o,
    cat = JObj o /\
    ((assoc "title" o = Some (JStr ("Category:" ++ name)) /\
      ~ occurs "Category:" name) \/
     (assoc "title" o = None /\ name = EmptyString)).

(** * Properties *)

(** ** Running a method against one reply *)

Lemma bind_run {A B} (m : M A) (f : A -> M B) (n : net St) :
  bind m f n
  = match fst (m n) with
    | Ok a => f a (snd (m n))
    | Raise e => (Raise e, snd (m n))
    end.
Proof. unfold bind. destruct (m n) as [[a|e] n']; reflexivity. Qed.

Lemma call_run {A} (params : list (string * string))
      (decode : json -> result A) (d : A) (n : net St) :
  (resp <- session_get params ;;
   if (fst resp =? 200)%Z
   then lift (data <- resp_json (snd resp) ;; decode data)%res
   else ret d)%net n
  = (on_reply decode d (reply_to n params), after n params).
Proof.
  unfold bind, session_get, reply_to, after, api_request, lift, ret, on_reply.
  destruct (fst (respond (remote n) (mk_request WIKI_API_URL params)))
    as [|status body]; cbn; [reflexivity|].
  destruct (status =? 200)%Z; reflexivity.
Qed.

Lemma search_run query limit n :
  search query limit n
  = (on_reply search_payload [] (reply_to n (search_params query limit)),
     after n (search_params query limit)).
Proof. apply call_run. Qed.

Lemma search_full_run query limit n :
  search_full query limit n
  = (on_reply search_full_payload [] (reply_to n (search_full_params query limit)),
     after n (search_full_params query limit)).
Proof. apply call_run. Qed.

Lemma get_all_pages_run prefix limit n :
  get_all_pages prefix limit n
  = (on_reply get_all_pages_payload [] (reply_to n (get_all_pages_params prefix limit)),
     after n (get_all_pages_params prefix limit)).
Proof. apply call_run. Qed.

Lemma get_page_extract_run title n :
  get_page_extract title n
  = (on_reply (get_page_extract_payload title) None
              (reply_to n (get_page_extract_params title)),
     after n (get_page_extract_params title)).
Proof. apply call_run. Qed.

Lemma get_categories_run title n :
  get_categories title n
  = (on_reply get_categories_payload [] (reply_to n (get_categories_params title)),
     after n (get_categories_params title)).
Proof. apply call_run. Qed.

(** ** [get_page_extract] *)

Lemma get_page_extract_payload_entries title data :
  get_page_extract_payload title data
  = (entries <- page_entries data ;;
     match entries with
     | [] => Ok None
     | (page_id, page_data) :: _ =>
         if String.eqb page_id "-1" then Ok None
         else
           t <- Py.get page_data "title" (JStr title) ;;
           e <- Py.get page_data "extract" (JStr NO_DESCRIPTION) ;;
           u <- Py.get page_data "fullurl" (JStr (WIKI_BASE_URL ++ "/w/" ++ title)) ;;
           th <- Py.get page_data "thumbnail" (JObj []) ;;
           src <- Py.get th "source" JNull ;;
           Ok (Some (Page.mk t e u src))
     end)%res.
Proof.
  unfold get_page_extract_payload, page_entries.
  destruct (Py.get data "query" (JObj [])) as [q|]; cbn [rbind]; [|reflexivity].
  destruct (Py.get q "pages" (JObj [])) as [pages|]; cbn [rbind]; reflexivity.
Qed.

Lemma py_get_obj pd k default : Py.get (JObj pd) k default = Ok (field k pd default).
Proof. unfold Py.get, field. destruct (assoc k pd); reflexivity. Qed.

Lemma page_of_entry_some title page_data r :
  page_of_entry title page_data = Ok r ->
  exists pd p,
    page_data = JObj pd /\ r = Some p /\
    Page.title p = field "title" pd (JStr title) /\
    Page.extract p = field "extract" pd (JStr NO_DESCRIPTION) /\
    Page.url p = field "fullurl" pd (JStr (WIKI_BASE_URL ++ "/w/" ++ title)) /\
    Py.get (field "thumbnail" pd (JObj [])) "source" JNull = Ok (Page.thumbnail p).
Proof.
  unfold page_of_entry. intros H.
  destruct page_data as [| | | | |pd]; try discriminate H.
  rewrite !py_get_obj in H. cbn [rbind] in H.
  destruct (Py.get (field "thumbnail" pd (JObj [])) "source" JNull) as [src|] eqn:Hsrc;
    cbn [rbind] in H; [|discriminate H].
  injection H as <-. exists pd. eexists. repeat split; try reflexivity. exact Hsrc.
Qed.

Lemma get_page_extract_on title n status body :
  reply_to n (get_page_extract_params title) = Reply status body ->
  fst (get_page_extract title n)
  = if (status =? 200)%Z
    then (data <- resp_json body ;;
          entries <- page_entries data ;;
          match entries with
          | [] => Ok None
          | (page_id, page_data) :: _ =>
              if String.eqb page_id "-1" then Ok None
              else page_of_entry title page_data
          end)%res
    else Ok None.
Proof.
  intros H. rewrite get_page_extract_run, H. cbn [fst on_reply].
  destruct (status =? 200)%Z; [|reflexivity].
  destruct body as [data|]; cbn [resp_json rbind]; [|reflexivity].
  apply get_page_extract_payload_entries.
Qed.

Lemma page_entries_raise data e : page_entries data = Raise e -> e = AttributeError.
Proof.
  unfold page_entries.
  destruct data as [| | | | |o]; cbn [Py.get rbind]; try (intros H; injection H as <-; reflexivity).
  destruct (assoc "query" o) as [q|]; cbn [rbind].
  - destruct q as [| | | | |q]; cbn [Py.get rbind];
      try (intros H; injection H as <-; reflexivity).
    destruct (assoc "pages" q) as [pages|]; cbn [rbind Py.items].
    + destruct pages; try discriminate; intros H; injection H as <-; reflexivity.
    + discriminate.
  - cbn [Py.get assoc rbind Py.items]. discriminate.
Qed.

Lemma page_of_entry_obj title pd :
  page_of_entry title (JObj pd)
  = match assoc "thumbnail" pd with
    | None =>
        Ok (Some (Page.mk (field "title" pd (JStr title))
                          (field "extract" pd (JStr NO_DESCRIPTION))
                          (field "fullurl" pd (JStr (WIKI_BASE_URL ++ "/w/" ++ title)))
                          JNull))
    | Some (JObj th) =>
        Ok (Some (Page.mk (field "title" pd (JStr title))
                          (field "extract" pd (JStr NO_DESCRIPTION))
                          (field "fullurl" pd (JStr (WIKI_BASE_URL ++ "/w/" ++ title)))
                          (field "source" th JNull)))
    | Some _ => Raise AttributeError
    end.
Proof.
  unfold page_of_entry. rewrite !py_get_obj. cbn [rbind].
  unfold field at 1. destruct (assoc "thumbnail" pd) as [[| | | | |th]|];
    try reflexivity.
  rewrite py_get_obj. reflexivity.
Qed.

Lemma page_of_entry_not_obj title page_data :
  (forall pd, page_data <> JObj pd) -> page_of_entry title page_data = Raise AttributeError.
Proof.
  intros H. destruct page_data as [| | | | |pd]; try reflexivity.
  exfalso. apply (H pd). reflexivity.
Qed.


(** C7, as the code has it.  [get_page_extract] returns [None] exactly when
    the status is not 200, or the decoded payload of a 200 has no entry
    under [query.pages] (members missing, or the object empty), or the
    first entry of [query.pages] has the id [-1].  It returns a page
    exactly when the status is 200 and the first entry has another id and
    is an object whose thumbnail, if it has one, is an object; the page
    then carries the entry's title, extract and fullurl where the entry has
    them (else the requested title, the placeholder and the URL built from
    the requested title) and the source of the thumbnail, or [None].  In
    every other case it raises: [ClientError] when the request fails in
    the transport, the decoding error when the body of a 200 is not JSON,
    [AttributeError] when the payload, the first entry or its thumbnail
    has another shape. *)
Theorem get_page_extract_none_iff title n :
  (fst (get_page_extract title n) = Ok None <->
   (exists status body,
       reply_to n (get_page_extract_params title) = Reply status body /\
       status <> 200%Z) \/
   (exists data,
       reply_to n (get_page_extract_params title) = Reply 200 (Some data) /\
       page_entries data = Ok []) \/
   (exists data page_data rest,
       reply_to n (get_page_extract_params title) = Reply 200 (Some data) /\
       page_entries data = Ok (("-1", page_data) :: rest)))
  /\
  (forall p,
      fst (get_page_extract title n) = Ok (Some p) <->
      exists data page_id pd rest,
        reply_to n (get_page_extract_params title) = Reply 200 (Some data) /\
        page_entries data = Ok ((page_id, JObj pd) :: rest) /\
        page_id <> "-1" /\
        Page.title p = field "title" pd (JStr title) /\
        Page.extract p = field "extract" pd (JStr NO_DESCRIPTION) /\
        Page.url p = field "fullurl" pd (JStr (WIKI_BASE_URL ++ "/w/" ++ title)) /\
        ((assoc "thumbnail" pd = None /\ Page.thumbnail p = JNull) \/
         (exists th,
             assoc "thumbnail" pd = Some (JObj th) /\
             Page.thumbnail p = field "source" th JNull)))
  /\
  (forall e,
      fst (get_page_extract title n) = Raise e <->
      (reply_to n (get_page_extract_params title) = NetFail /\ e = ClientError) \/
      (reply_to n (get_page_extract_params title) = Reply 200 None /\
       e = ContentTypeError) \/
      (exists data,
          reply_to n (get_page_extract_params title) = Reply 200 (Some data) /\
          e = AttributeError /\
          (page_entries data = Raise AttributeError \/
           exists page_id page_data rest,
             page_entries data = Ok ((page_id, page_data) :: rest) /\
             page_id <> "-1" /\
             ((forall pd, page_data <> JObj pd) \/
              exists pd v,
                page_data = JObj pd /\
                assoc "thumbnail" pd = Some v /\
                forall th, v <> JObj th)))).
Proof.
  destruct (reply_to n (get_page_extract_params title)) as [|status body] eqn:Hr.
  { (* the transport failed *)
    rewrite get_page_extract_run, Hr. cbn [fst on_reply].
    split; [|split].
    - split; [discriminate|].
      intros [(s & b & H & _)|[(d & H & _)|(d & pd & r & H & _)]]; discriminate H.
    - intros p. split; [discriminate|].
      intros (d & i & pd & r & H & _). discriminate H.
    - intros e. split.
      + intros H. injection H as <-. left. split; reflexivity.
      + intros [(_ & ->)|[(H & _)|(d & H & _)]]; [reflexivity|discriminate H..]. }
  rewrite (get_page_extract_on _ _ _ _ Hr).
  destruct (Z.eqb_spec status 200) as [->|Hne].
  2:{ (* a status other than 200 *)
    split; [|split].
    - split; [|reflexivity]. intros _. left. eauto.
    - intros p. split; [discriminate|].
      intros (d & i & pd & r & H & _). injection H as E _. contradiction.
    - intros e. split; [discriminate|].
      intros [(H & _)|[(H & _)|(d & H & _)]]; [discriminate H| |];
        injection H as E; contradiction. }
  destruct body as [data|]; cbn [resp_json rbind].
  2:{ (* the body does not decode *)
    split; [|split].
    - split; [discriminate|].
      intros [(s & b & H & Hs)|[(d & H & _)|(d & pd & r & H & _)]];
        [injection H as E _; congruence|discriminate H..].
    - intros p. split; [discriminate|].
      intros (d & i & pd & r & H & _). discriminate H.
    - intros e. split.
      + intros H. injection H as <-. right. left. split; reflexivity.
      + intros [(H & _)|[(_ & ->)|(d & H & _)]]; [discriminate H|reflexivity|discriminate H]. }
  destruct (page_entries data) as [[|[page_id page_data] rest]|e0] eqn:He; cbn [rbind].
  - (* no entry *)
    split; [|split].
    + split; [|reflexivity]. intros _. right. left. eauto.
    + intros p. split; [discriminate|].
      intros (d & i & pd & r & H & H' & _). injection H as <-.
      rewrite He in H'. discriminate H'.
    + intros e. split; [discriminate|].
      intros [(H & _)|[(H & _)|(d & H & _ & [H'|(i & pd & r & H' & _)])]];
        try discriminate H; injection H as <-; rewrite He in H'; discriminate H'.
  - destruct (String.eqb_spec page_id "-1") as [->|Hid].
    + (* the sentinel *)
      split; [|split].
      * split; [|reflexivity]. intros _. right. right. eauto.
      * intros p. split; [discriminate|].
        intros (d & i & pd & r & H & H' & Hi & _). injection H as <-.
        rewrite He in H'. injection H' as <- _ _. contradiction.
      * intros e. split; [discriminate|].
        intros [(H & _)|[(H & _)|(d & H & _ & [H'|(i & pd & r & H' & Hi & _)])]];
          try discriminate H; injection H as <-; rewrite He in H';
          [discriminate H'|injection H' as <- _ _; contradiction].
    + (* another id *)
      assert (Hnone :
                ~ ((exists status body,
                       Reply 200 (Some data) = Reply status body /\ status <> 200%Z) \/
                   (exists data0,
                       Reply 200 (Some data) = Reply 200 (Some data0) /\
                       page_entries data0 = Ok []) \/
                   (exists data0 page_data0 rest0,
                       Reply 200 (Some data) = Reply 200 (Some data0) /\
                       page_entries data0 = Ok (("-1", page_data0) :: rest0)))).
      { intros [(s & b & H & Hs)|[(d & H & Hd)|(d & pd & r & H & Hd)]].
        - injection H as <- _. contradiction.
        - injection H as <-. rewrite He in Hd. discriminate Hd.
        - injection H as <-. rewrite He in Hd. injection Hd as E _ _. contradiction. }
      destruct page_data as [| | | | |pd].
      6:{ rewrite page_of_entry_obj.
          destruct (assoc "thumbnail" pd) as [[| | | | |th]|] eqn:Hth.
          6:{ (* a page, with the source of its thumbnail *)
            split; [|split].
            - split; [discriminate|]. intros H. contradiction.
            - intros p. split.
              + intros H. injection H as <-. exists data, page_id, pd, rest.
                cbn [Page.title Page.extract Page.url Page.thumbnail].
                repeat (split; [first [reflexivity|assumption]|]).
                right. exists th. split; [assumption|reflexivity].
              + intros (d & i & pd' & r & H & H' & _ & Ht & Hx & Hu & Hthumb).
                injection H as <-. rewrite He in H'. injection H' as <- <- <-.
                destruct p as [t x u s]. cbn [Page.title Page.extract Page.url Page.thumbnail] in *.
                subst t x u.
                destruct Hthumb as [(Hn & _)|(th' & Hs & ->)]; [congruence|].
                rewrite Hth in Hs. injection Hs as <-. reflexivity.
            - intros e. split; [discriminate|].
              intros [(H & _)|[(H & _)|(d & H & _ & [H'|(i & pd' & r & H' & _ & Hshape)])]];
                try discriminate H; injection H as <-; rewrite He in H';
                [discriminate H'|]. injection H' as <- <- <-.
              destruct Hshape as [Hno|(pd' & v & Hpd & Hv & Hno)].
              + exfalso. apply (Hno pd). reflexivity.
              + injection Hpd as <-. rewrite Hth in Hv. injection Hv as <-.
                exfalso. apply (Hno th). reflexivity. }
          6:{ (* a page without a thumbnail *)
            split; [|split].
            - split; [discriminate|]. intros H. contradiction.
            - intros p. split.
              + intros H. injection H as <-. exists data, page_id, pd, rest.
                cbn [Page.title Page.extract Page.url Page.thumbnail].
                repeat (split; [first [reflexivity|assumption]|]).
                left. split; [assumption|reflexivity].
              + intros (d & i & pd' & r & H & H' & _ & Ht & Hx & Hu & Hthumb).
                injection H as <-. rewrite He in H'. injection H' as <- <- <-.
                destruct p as [t x u s]. cbn [Page.title Page.extract Page.url Page.thumbnail] in *.
                subst t x u.
                destruct Hthumb as [(_ & ->)|(th' & Hs & _)]; [reflexivity|congruence].
            - intros e. split; [discriminate|].
              intros [(H & _)|[(H & _)|(d & H & _ & [H'|(i & pd' & r & H' & _ & Hshape)])]];
                try discriminate H; injection H as <-; rewrite He in H';
                [discriminate H'|]. injection H' as <- <- <-.
              destruct Hshape as [Hno|(pd' & v & Hpd & Hv & Hno)].
              + exfalso. apply (Hno pd). reflexivity.
              + injection Hpd as <-. congruence. }
          (* a thumbnail that is not an object *)
          all: split; [|split];
            [ split; [discriminate|]; intros H; contradiction
            | intros p; split; [discriminate|];
              intros (d & i & pd' & r & H & H' & _ & _ & _ & _ & Hthumb);
              injection H as <-; rewrite He in H'; injection H' as <- <- <-;
              destruct Hthumb as [(Hn & _)|(th' & Hs & _)]; congruence
            | intros e; split;
              [ intros H; injection H as <-; right; right; exists data;
                split; [reflexivity|]; split; [reflexivity|]; right;
                exists page_id, (JObj pd), rest;
                split; [exact He|]; split; [assumption|]; right;
                eexists; eexists; split; [reflexivity|]; split; [eassumption|];
                intros th; discriminate
              | intros [(H & _)|[(H & _)|(d & _ & -> & _)]];
                [discriminate H|discriminate H|reflexivity] ] ]. }
      (* an entry that is not an object *)
      all: rewrite page_of_entry_not_obj by (intros pd; discriminate);
        split; [|split];
        [ split; [discriminate|]; intros H; contradiction
        | intros p; split; [discriminate|];
          intros (d & i & pd' & r & H & H' & _);
          injection H as <-; rewrite He in H'; discriminate H'
        | intros e; split;
          [ intros H; injection H as <-; right; right; exists data;
            split; [reflexivity|]; split; [reflexivity|]; right;
            eexists; eexists; exists rest;
            split; [exact He|]; split; [assumption|]; left;
            intros pd; discriminate
          | intros [(H & _)|[(H & _)|(d & _ & -> & _)]];
            [discriminate H|discriminate H|reflexivity] ] ].
  - (* a payload of another shape *)
    pose proof (page_entries_raise _ _ He) as ->.
    split; [|split].
    + split; [discriminate|].
      intros [(s & b & H & Hs)|[(d & H & Hd)|(d & pd & r & H & Hd)]].
      * injection H as <- _. contradiction.
      * injection H as <-. rewrite He in Hd. discriminate Hd.
      * injection H as <-. rewrite He in Hd. discriminate Hd.
    + intros p. split; [discriminate|].
      intros (d & i & pd & r & H & H' & _). injection H as <-.
      rewrite He in H'. discriminate H'.
    + intros e. split.
      * intros H. injection H as <-. right. right. exists data.
        split; [reflexivity|]. split; [reflexivity|]. left. exact He.
      * intros [(H & _)|[(H & _)|(d & _ & -> & _)]];
          [discriminate H|discriminate H|reflexivity].
Qed.

(** C10.  When [get_page_extract] resolves a page whose entry has no
    [extract], the page's extract is the placeholder, which is not the
    empty string; when the entry has no [fullurl], the page's URL is built
    from the requested title. *)
Theorem get_page_extract_defaults title n data page_id page_data rest p :
  reply_to n (get_page_extract_params title) = Reply 200 (Some data) ->
  page_entries data = Ok ((page_id, page_data) :: rest) ->
  fst (get_page_extract title n) = Ok (Some p) ->
  exists pd,
    page_data = JObj pd /\
    (assoc "extract" pd = None ->
     Page.extract p = JStr "Sin descripción disponible." /\
     Page.extract p <> JStr EmptyString) /\
    (assoc "fullurl" pd = None ->
     Page.url p = JStr ("https://hytalewiki.org" ++ "/w/" ++ title)).
Proof.
  intros Hr He H.
  rewrite (get_page_extract_on _ _ _ _ Hr) in H. cbn [Z.eqb Pos.eqb resp_json rbind] in H.
  rewrite He in H. cbn [rbind] in H.
  destruct (String.eqb page_id "-1"); [discriminate H|].
  apply page_of_entry_some in H.
  destruct H as (pd & p' & -> & Hp & _ & Hx & Hu & _). injection Hp as <-.
  exists pd. split; [reflexivity|]. unfold field in Hx, Hu. split.
  - intros Hn. rewrite Hn in Hx. rewrite Hx. unfold NO_DESCRIPTION. split; [reflexivity|discriminate].
  - intros Hn. rewrite Hn in Hu. exact Hu.
Qed.

(** ** The failure policy of the client *)

Lemma search_payload_short data :
  short data = true -> search_payload data = Ok [].
Proof.
  unfold short, search_payload.
  destruct (Py.len data) as [k|]; [|discriminate].
  intros H. cbn [rbind]. apply Nat.ltb_lt in H.
  destruct (Nat.leb_spec 4 k); [lia|reflexivity].
Qed.

(** The two [.get] in a row on a payload that lacks the member. *)
Lemma lacks_get k default data :
  lacks k data = true ->
  (q <- Py.get data "query" (JObj []) ;; Py.get q k default)%res = Ok default.
Proof.
  unfold lacks. destruct data as [| | | | |o]; try discriminate.
  cbn [Py.get]. destruct (assoc "query" o) as [[| | | | |q]|]; try discriminate;
    cbn [rbind Py.get assoc].
  - destruct (assoc k q); [discriminate|reflexivity].
  - reflexivity.
Qed.

Lemma rbind_assoc {A B C} (m : result A) (f : A -> result B) (g : B -> result C) :
  rbind (rbind m f) g = rbind m (fun a => rbind (f a) g).
Proof. destruct m; reflexivity. Qed.

Lemma search_full_payload_lacks data :
  lacks "search" data = true -> search_full_payload data = Ok [].
Proof.
  intros H. unfold search_full_payload.
  rewrite <- rbind_assoc, (lacks_get _ (JArr []) _ H). reflexivity.
Qed.

Lemma get_all_pages_payload_lacks data :
  lacks "allpages" data = true -> get_all_pages_payload data = Ok [].
Proof.
  intros H. unfold get_all_pages_payload.
  rewrite <- rbind_assoc, (lacks_get _ (JArr []) _ H). reflexivity.
Qed.

Lemma get_categories_payload_lacks data :
  lacks "pages" data = true -> get_categories_payload data = Ok [].
Proof.
  intros H. unfold get_categories_payload.
  rewrite <- rbind_assoc, (lacks_get _ (JObj []) _ H). reflexivity.
Qed.

Lemma get_page_extract_payload_lacks title data :
  lacks "pages" data = true -> get_page_extract_payload title data = Ok None.
Proof.
  intros H. unfold get_page_extract_payload.
  rewrite <- rbind_assoc, (lacks_get _ (JObj []) _ H). reflexivity.
Qed.

Lemma on_reply_empty_handed {A} (decode : json -> result A) (d : A)
      (nothing : json -> bool) (r : reply) :
  (forall data, nothing data = true -> decode data = Ok d) ->
  empty_handed nothing r = true ->
  on_reply decode d r = Ok d.
Proof.
  intros Hdec H. destruct r as [|status body]; cbn in H; [discriminate H|].
  cbn [on_reply]. destruct (status =? 200)%Z; cbn in H; [|reflexivity].
  destruct body as [data|]; [|discriminate H].
  cbn [resp_json rbind]. apply Hdec, H.
Qed.

Lemma refused_empty_handed nothing r :
  refused r = true -> empty_handed nothing r = true.
Proof.
  unfold refused. destruct r as [|status body]; cbn; [discriminate|].
  destruct (status =? 200)%Z; cbn; [|reflexivity].
  destruct body; discriminate.
Qed.

Lemma search_empty_handed query limit n :
  empty_handed short (reply_to n (search_params query limit)) = true ->
  fst (search query limit n) = Ok [].
Proof.
  intros H. rewrite search_run. cbn [fst].
  apply (on_reply_empty_handed search_payload [] short); [|exact H].
  apply search_payload_short.
Qed.

Lemma search_full_empty_handed query limit n :
  empty_handed (lacks "search") (reply_to n (search_full_params query limit)) = true ->
  fst (search_full query limit n) = Ok [].
Proof.
  intros H. rewrite search_full_run. cbn [fst].
  apply (on_reply_empty_handed search_full_payload [] (lacks "search")); [|exact H].
  apply search_full_payload_lacks.
Qed.

Lemma get_all_pages_empty_handed prefix limit n :
  empty_handed (lacks "allpages") (reply_to n (get_all_pages_params prefix limit)) = true ->
  fst (get_all_pages prefix limit n) = Ok [].
Proof.
  intros H. rewrite get_all_pages_run. cbn [fst].
  apply (on_reply_empty_handed get_all_pages_payload [] (lacks "allpages")); [|exact H].
  apply get_all_pages_payload_lacks.
Qed.

Lemma get_categories_empty_handed title n :
  empty_handed (lacks "pages") (reply_to n (get_categories_params title)) = true ->
  fst (get_categories title n) = Ok [].
Proof.
  intros H. rewrite get_categories_run. cbn [fst].
  apply (on_reply_empty_handed get_categories_payload [] (lacks "pages")); [|exact H].
  apply get_categories_payload_lacks.
Qed.

Lemma get_page_extract_empty_handed title n :
  empty_handed (lacks "pages") (reply_to n (get_page_extract_params title)) = true ->
  fst (get_page_extract title n) = Ok None.
Proof.
  intros H. rewrite get_page_extract_run. cbn [fst].
  apply (on_reply_empty_handed (get_page_extract_payload title) None (lacks "pages"));
    [|exact H].
  apply get_page_extract_payload_lacks.
Qed.

(** C2, as the code has it.  A method returns the empty list
    ([get_page_extract]: [None]) when the status of the response is not
    200, and on a 200 whose decoded payload lacks what the method reads:
    fewer than four elements for [search]; for the others an object without
    a ["query"], or whose ["query"] is an object without the member the
    method looks up. *)
Theorem client_no_result n query limit prefix title :
  (empty_handed short (reply_to n (search_params query limit)) = true ->
   fst (search query limit n) = Ok []) /\
  (empty_handed (lacks "search") (reply_to n (search_full_params query limit)) = true ->
   fst (search_full query limit n) = Ok []) /\
  (empty_handed (lacks "allpages") (reply_to n (get_all_pages_params prefix limit)) = true ->
   fst (get_all_pages prefix limit n) = Ok []) /\
  (empty_handed (lacks "pages") (reply_to n (get_categories_params title)) = true ->
   fst (get_categories title n) = Ok []) /\
  (empty_handed (lacks "pages") (reply_to n (get_page_extract_params title)) = true ->
   fst (get_page_extract title n) = Ok None).
Proof.
  split; [apply search_empty_handed|].
  split; [apply search_full_empty_handed|].
  split; [apply get_all_pages_empty_handed|].
  split; [apply get_categories_empty_handed|apply get_page_extract_empty_handed].
Qed.

(** ** The cascade, stage by stage *)

Lemma fuzzy_search_run query threshold n :
  fuzzy_search query threshold n
  = let n1 := snd (search query 10 n) in
    match fst (search query 10 n) with
    | Raise e => (Raise e, n1)
    | Ok (r :: rs) => (Ok (r :: rs), n1)
    | Ok [] =>
        let n2 := snd (get_all_pages query 50 n1) in
        match fst (get_all_pages query 50 n1) with
        | Raise e => (Raise e, n2)
        | Ok all_pages =>
            match stage2 query threshold all_pages with
            | Raise e => (Raise e, n2)
            | Ok (r :: rs) => (Ok (r :: rs), n2)
            | Ok [] =>
                let n3 := snd (search_full query 10 n2) in
                match fst (search_full query 10 n2) with
                | Raise e => (Raise e, n3)
                | Ok results => (stage3 query results, n3)
                end
            end
        end
    end.
Proof.
  unfold fuzzy_search. rewrite bind_run.
  destruct (search query 10 n) as [[[|r rs]|e] n1]; cbn [fst snd is_empty].
  - rewrite !bind_run.
    destruct (get_all_pages query 50 n1) as [[all_pages|e] n2]; cbn [fst snd];
      [|reflexivity].
    unfold stage2.
    destruct all_pages as [|p ps]; cbn [is_empty ret lift fst snd].
    + rewrite bind_run.
      destruct (search_full query 10 n2) as [[[|r rs]|e] n3];
        cbn [fst snd is_empty ret]; try reflexivity.
      unfold stage3. cbn [is_empty]. rewrite bind_run. unfold lift, ret. cbn [fst snd].
      destruct (process_extract query (map Cand.title (r :: rs)) 5); reflexivity.
    + destruct (title_sample_matches query threshold (p :: ps)) as [[|r rs]|e];
        cbn [is_empty]; try reflexivity.
      rewrite bind_run.
      destruct (search_full query 10 n2) as [[[|r rs]|e] n3];
        cbn [fst snd is_empty ret]; try reflexivity.
      unfold stage3. cbn [is_empty]. rewrite bind_run. unfold lift, ret. cbn [fst snd].
      destruct (process_extract query (map Cand.title (r :: rs)) 5); reflexivity.
  - rewrite bind_run. reflexivity.
  - reflexivity.
Qed.

(** ** The ranking engine *)

Lemma insert_desc_In x y l : In y (insert_desc x l) <-> y = x \/ In y l.
Proof.
  induction l as [|z l IH]; cbn [insert_desc].
  - cbn. intuition congruence.
  - destruct (snd z <=? snd x)%Z; cbn [In].
    + intuition congruence.
    + rewrite IH. intuition congruence.
Qed.

Lemma sort_desc_In y l : In y (sort_desc l) <-> In y l.
Proof.
  induction l as [|x l IH]; cbn [sort_desc]; [reflexivity|].
  rewrite insert_desc_In, IH. cbn. intuition congruence.
Qed.

Lemma insert_desc_length x l : List.length (insert_desc x l) = S (List.length l).
Proof.
  induction l as [|z l IH]; cbn [insert_desc]; [reflexivity|].
  destruct (snd z <=? snd x)%Z; cbn [List.length]; [reflexivity|].
  now rewrite IH.
Qed.

Lemma sort_desc_length l : List.length (sort_desc l) = List.length l.
Proof.
  induction l as [|x l IH]; cbn [sort_desc]; [reflexivity|].
  rewrite insert_desc_length, IH. reflexivity.
Qed.

Lemma insert_desc_sorted x l :
  StronglySorted desc l -> StronglySorted desc (insert_desc x l).
Proof.
  induction l as [|z l IH]; intros Hs; cbn [insert_desc].
  - constructor; constructor.
  - inversion Hs as [|? ? Hl Hz]; subst.
    destruct (Z.leb_spec (snd z) (snd x)) as [Hle|Hlt].
    + constructor; [exact Hs|].
      constructor; [exact Hle|].
      eapply Forall_impl; [|exact Hz]. unfold desc. intros a Ha. lia.
    + constructor; [apply IH, Hl|].
      apply Forall_forall. intros a Ha. apply insert_desc_In in Ha.
      destruct Ha as [->|Ha].
      * unfold desc. lia.
      * rewrite Forall_forall in Hz. apply Hz, Ha.
Qed.

Lemma sort_desc_sorted l : StronglySorted desc (sort_desc l).
Proof.
  induction l as [|x l IH]; cbn [sort_desc]; [constructor|].
  apply insert_desc_sorted, IH.
Qed.

Lemma firstn_incl {A} k (l : list A) a : In a (firstn k l) -> In a l.
Proof.
  revert l. induction k as [|k IH]; intros [|x l]; cbn [firstn In]; try tauto.
  intros [->|H]; [now left|right]. apply IH, H.
Qed.

Lemma firstn_sorted k l : StronglySorted desc l -> StronglySorted desc (firstn k l).
Proof.
  revert l. induction k as [|k IH]; intros [|x l] Hs; cbn [firstn]; try constructor.
  - inversion Hs; subst. apply IH. assumption.
  - inversion Hs as [|? ? _ Hx]; subst.
    rewrite Forall_forall in *. intros a Ha. apply Hx.
    eapply firstn_incl, Ha.
Qed.

Lemma extract_iter_spec query choices ms :
  extract_iter query choices = Ok ms ->
  Forall (fun m => In (fst m) choices /\ WRatio query (fst m) = Ok (snd m)) ms.
Proof.
  revert ms. induction choices as [|c cs IH]; intros ms H.
  - injection H as <-. constructor.
  - assert (Hrest : forall ms', extract_iter query cs = Ok ms' ->
              Forall (fun m => In (fst m) (c :: cs) /\ WRatio query (fst m) = Ok (snd m)) ms').
    { intros ms' H'. eapply Forall_impl; [|apply IH, H'].
      cbn. intros m [Hin Hs]. auto. }
    assert (Hscored :
              (s <- WRatio query c ;;
               rest <- extract_iter query cs ;;
               Ok ((c, s) :: rest))%res = Ok ms ->
              Forall (fun m => In (fst m) (c :: cs) /\ WRatio query (fst m) = Ok (snd m)) ms).
    { destruct (WRatio query c) as [s|e] eqn:Hs; cbn [rbind]; [|discriminate].
      destruct (extract_iter query cs) as [rest|e]; cbn [rbind]; [|discriminate].
      intros E. injection E as <-. constructor.
      - cbn. auto.
      - apply Hrest. reflexivity. }
    destruct c; cbn [extract_iter] in H; auto.
Qed.

Lemma extract_iter_all query choices ms :
  Forall (fun c => c <> JNull) choices ->
  extract_iter query choices = Ok ms ->
  map fst ms = choices.
Proof.
  revert ms. induction choices as [|c cs IH]; intros ms Hnn H.
  - injection H as <-. reflexivity.
  - inversion Hnn as [|? ? Hc Hcs]; subst.
    assert (Hscored :
              (s <- WRatio query c ;;
               rest <- extract_iter query cs ;;
               Ok ((c, s) :: rest))%res = Ok ms -> map fst ms = c :: cs).
    { destruct (WRatio query c) as [s|e]; cbn [rbind]; [|discriminate].
      destruct (extract_iter query cs) as [rest|e] eqn:Hr; cbn [rbind]; [|discriminate].
      intros E. injection E as <-. cbn. f_equal. apply IH; [exact Hcs|reflexivity]. }
    destruct c; cbn [extract_iter] in H; auto. congruence.
Qed.

(** What [process.extract] returns: at most [limit] matches, best first,
    each a choice with the score the scorer gave it. *)
Lemma process_extract_spec query choices limit ms :
  process_extract query choices limit = Ok ms ->
  (List.length ms <= limit)%nat /\
  StronglySorted desc ms /\
  Forall (fun m => In (fst m) choices /\ WRatio query (fst m) = Ok (snd m)) ms.
Proof.
  unfold process_extract.
  destruct (extract_iter query choices) as [ms0|e] eqn:H0; cbn [rbind]; [|discriminate].
  intros E. injection E as <-. split; [apply firstn_le_length|]. split.
  - apply firstn_sorted, sort_desc_sorted.
  - apply extract_iter_spec in H0. rewrite Forall_forall in *.
    intros m Hm. apply H0. apply sort_desc_In. eapply firstn_incl, Hm.
Qed.

(** With no [None] among the choices, every choice is ranked and only the
    limit shortens the ranking. *)
Lemma process_extract_length query choices limit ms :
  Forall (fun c => c <> JNull) choices ->
  process_extract query choices limit = Ok ms ->
  List.length ms = Nat.min limit (List.length choices).
Proof.
  unfold process_extract. intros Hnn.
  destruct (extract_iter query choices) as [ms0|e] eqn:H0; cbn [rbind]; [|discriminate].
  intros E. injection E as <-.
  rewrite length_firstn, sort_desc_length.
  apply extract_iter_all in H0; [|exact Hnn]. rewrite <- H0, length_map. reflexivity.
Qed.

(** ** Stage 2 *)

Lemma scored_matches_spec threshold ms rs :
  scored_matches threshold ms = Ok rs ->
  (List.length rs <= List.length ms)%nat /\
  Forall (fun r => exists t s,
              In (JStr t, s) ms /\ (threshold <= s)%Z /\
              r = Cand.mk (JStr t)
                          (JStr ("Coincidencia: " ++ str_score s ++ "%"))
                          (JStr (WIKI_BASE_URL ++ "/w/" ++ Py.str_replace " " "_" t))
                          (Some s)) rs.
Proof.
  revert rs. induction ms as [|[c s] ms IH]; intros rs H; cbn [scored_matches] in H.
  - injection H as <-. split; [apply Nat.le_refl|constructor].
  - cbn [fst snd] in H. destruct (Z.leb_spec threshold s) as [Hle|Hlt].
    + destruct c as [| | |t| |]; try discriminate H.
      cbn [Py.replace rbind] in H.
      destruct (scored_matches threshold ms) as [rest|e]; cbn [rbind] in H;
        [|discriminate H].
      injection H as <-. destruct (IH rest eq_refl) as [Hlen Hall]. split.
      * cbn [List.length]. lia.
      * constructor.
        -- exists t, s. cbn [In]. auto.
        -- eapply Forall_impl; [|exact Hall].
           cbn. intros r (t' & s' & Hin & Hs' & ->). exists t', s'. auto.
    + destruct (IH rs H) as [Hlen Hall]. split.
      * cbn [List.length]. lia.
      * eapply Forall_impl; [|exact Hall].
        cbn. intros r (t' & s' & Hin & Hs' & ->). exists t', s'. auto.
Qed.

(** C4, as the code has it.  When stage 1 finds nothing and stage 2 produces
    records, [fuzzy_search] returns exactly those: at most 5, each with a
    score of at least 60 that the scorer gave to its title, a title from
    the title sample, the description [Coincidencia: {score}%] and the URL
    built from the base URL and the title with its spaces replaced by
    underscores. *)
Theorem fuzzy_search_title_sample query n n1 n2 all_pages r rs :
  search query 10 n = (Ok [], n1) ->
  get_all_pages query 50 n1 = (Ok all_pages, n2) ->
  stage2 query 60 all_pages = Ok (r :: rs) ->
  fuzzy_search query 60 n = (Ok (r :: rs), n2) /\
  (List.length (r :: rs) <= 5)%nat /\
  Forall (fun c => exists t s,
              Cand.score c = Some s /\ (60 <= s)%Z /\
              Cand.title c = JStr t /\ In (JStr t) all_pages /\
              WRatio query (JStr t) = Ok s /\
              Cand.description c = JStr ("Coincidencia: " ++ str_score s ++ "%") /\
              Cand.url c = JStr (WIKI_BASE_URL ++ "/w/" ++ Py.str_replace " " "_" t))
         (r :: rs).
Proof.
  intros H1 H2 H3. split.
  - rewrite fuzzy_search_run. cbv zeta. rewrite H1. cbn [fst snd].
    rewrite H2. cbn [fst snd]. rewrite H3. reflexivity.
  - unfold stage2 in H3. destruct (is_empty all_pages); [discriminate H3|].
    unfold title_sample_matches in H3.
    destruct (process_extract query all_pages 5) as [ms|e] eqn:Hms; cbn [rbind] in H3;
      [|discriminate H3].
    apply process_extract_spec in Hms. destruct Hms as (Hlen & _ & Hms).
    apply scored_matches_spec in H3. destruct H3 as [Hlen' Hall]. split; [lia|].
    eapply Forall_impl; [|exact Hall].
    cbn beta. intros c (t & s & Hin & Hs & ->). exists t, s. cbn.
    rewrite Forall_forall in Hms. destruct (Hms _ Hin) as [Hin' Hw].
    repeat split; assumption.
Qed.

(** ** Stage 1 *)

Lemma search_payload_unscored data rs :
  search_payload data = Ok rs -> Forall (fun r => Cand.score r = None) rs.
Proof.
  unfold search_payload.
  destruct (Py.len data) as [k|]; cbn [rbind]; [|discriminate].
  destruct (4 <=? k)%nat; [|intros E; injection E as <-; constructor].
  destruct (Py.getitem data 1) as [titles|]; cbn [rbind]; [|discriminate].
  destruct (Py.getitem data 2) as [descriptions|]; cbn [rbind]; [|discriminate].
  destruct (Py.getitem data 3) as [urls|]; cbn [rbind]; [|discriminate].
  destruct (Py.iter titles) as [ts|]; cbn [rbind]; [|discriminate].
  destruct (Py.iter descriptions) as [ds|]; cbn [rbind]; [|discriminate].
  destruct (Py.iter urls) as [us|]; cbn [rbind]; [|discriminate].
  intros E. injection E as <-. apply Forall_map, Forall_forall.
  intros [[t d] u] _. reflexivity.
Qed.

Lemma on_reply_ok {A} (decode : json -> result A) (d : A) (r : reply) (a : A) :
  on_reply decode d r = Ok a ->
  a = d \/ exists data, decode data = Ok a.
Proof.
  destruct r as [|status body]; cbn [on_reply]; [discriminate|].
  destruct (status =? 200)%Z.
  - destruct body as [data|]; cbn [resp_json rbind]; [|discriminate]. eauto.
  - intros E. injection E as <-. now left.
Qed.

Lemma search_unscored query limit n rs :
  fst (search query limit n) = Ok rs -> Forall (fun r => Cand.score r = None) rs.
Proof.
  rewrite search_run. cbn [fst]. intros H.
  apply on_reply_ok in H. destruct H as [->|[data H]]; [constructor|].
  eapply search_payload_unscored, H.
Qed.

(** C3.  When stage 1 returns a non-empty list, [fuzzy_search] returns that
    list as it is and stops: the only request it has issued is the open
    search (the remote has answered once), and no record of the list has a
    score. *)
Theorem fuzzy_search_short_circuit query threshold n rs :
  fst (search query 10 n) = Ok rs ->
  rs <> [] ->
  fst (fuzzy_search query threshold n) = Ok rs /\
  snd (fuzzy_search query threshold n) = after n (search_params query 10) /\
  log (snd (fuzzy_search query threshold n))
  = log n ++ [api_request (search_params query 10)] /\
  Forall (fun r => Cand.score r = None) rs.
Proof.
  intros H Hne.
  assert (Hrun : fuzzy_search query threshold n = (Ok rs, after n (search_params query 10))).
  { rewrite fuzzy_search_run. cbv zeta. rewrite H.
    destruct rs as [|r rs]; [contradiction|].
    rewrite search_run. reflexivity. }
  rewrite Hrun. cbn [fst snd]. repeat split.
  eapply search_unscored, H.
Qed.

(** ** Stage 3 *)

Lemma py_eq_str x t : Py.eq x (JStr t) = true -> x = JStr t.
Proof.
  destruct x; cbn; try discriminate.
  intros H. apply String.eqb_eq in H. now subst.
Qed.

Lemma py_eq_str_refl t : Py.eq (JStr t) (JStr t) = true.
Proof. cbn. apply String.eqb_refl. Qed.

Lemma set_score_titles i s store :
  map Cand.title (set_score i s store) = map Cand.title store.
Proof.
  revert i. induction store as [|r rest IH]; intros [|i]; cbn; try reflexivity.
  now rewrite IH.
Qed.

Lemma find_title_set_score t i s store :
  find_title t (set_score i s store) = find_title t store.
Proof.
  revert i. induction store as [|r rest IH]; intros [|i]; cbn; try reflexivity.
  now rewrite IH.
Qed.

Lemma find_title_str t store :
  In (JStr t) (map Cand.title store) ->
  exists i r,
    find_title (JStr t) store = Some i /\
    nth_error store i = Some r /\ Cand.title r = JStr t.
Proof.
  induction store as [|r rest IH]; cbn [map In find_title]; [tauto|].
  intros H. destruct (Py.eq (Cand.title r) (JStr t)) eqn:E.
  - exists O, r. apply py_eq_str in E. auto.
  - destruct H as [H|H].
    + rewrite H, py_eq_str_refl in E. discriminate E.
    + destruct (IH H) as (i & r' & Hf & Hn & Ht).
      exists (S i), r'. rewrite Hf. auto.
Qed.

Lemma nth_error_set_score_same i s store r :
  nth_error store i = Some r ->
  nth_error (set_score i s store) i = Some (with_score s r).
Proof.
  revert i. induction store as [|r0 rest IH]; intros [|i] H; cbn in *; try discriminate.
  - now injection H as <-.
  - apply IH, H.
Qed.

Lemma nth_error_set_score_other i j s store :
  i <> j -> nth_error (set_score i s store) j = nth_error store j.
Proof.
  revert i j. induction store as [|r0 rest IH]; intros [|i] [|j] H; cbn; try reflexivity.
  - contradiction.
  - apply IH. congruence.
Qed.

Lemma with_score_same s r : Cand.score r = Some s -> with_score s r = r.
Proof. destruct r as [t d u sc]. cbn. intros ->. reflexivity. Qed.

Lemma set_score_meta i s store r' :
  In r' (set_score i s store) -> exists r, In r store /\ same_meta r r'.
Proof.
  revert i. induction store as [|r0 rest IH]; intros [|i]; cbn [set_score In]; try tauto.
  - intros [<-|H].
    + exists r0. split; [now left|]. repeat split.
    + exists r'. split; [now right|]. repeat split.
  - intros [<-|H].
    + exists r0. split; [now left|]. repeat split.
    + destruct (IH _ H) as (r & Hin & Hm). exists r. auto.
Qed.

Lemma deref_app store a b : deref store (a ++ b) = deref store a ++ deref store b.
Proof. unfold deref. apply flat_map_app. Qed.

Lemma deref_ext store store' refs :
  (forall j, In j refs -> nth_error store' j = nth_error store j) ->
  deref store' refs = deref store refs.
Proof.
  unfold deref. induction refs as [|j refs IH]; intros H; cbn [flat_map]; [reflexivity|].
  rewrite H by now left. f_equal. apply IH. intros k Hk. apply H. now right.
Qed.

Lemma same_meta_trans a b c : same_meta a b -> same_meta b c -> same_meta a c.
Proof. unfold same_meta. intuition congruence. Qed.

Lemma set_score_keeps_scored query store i r s j :
  nth_error store i = Some r ->
  WRatio query (Cand.title r) = Ok s ->
  scored_cell query store j ->
  nth_error (set_score i s store) j = nth_error store j.
Proof.
  intros Hi Hw (rj & sj & Hj & Hwj & Hsj).
  destruct (Nat.eq_dec i j) as [<-|Hne].
  - rewrite (nth_error_set_score_same _ _ _ _ Hi).
    rewrite Hi in Hj. injection Hj as <-.
    rewrite Hw in Hwj. injection Hwj as <-.
    rewrite with_score_same by exact Hsj. symmetry. exact Hi.
  - apply nth_error_set_score_other, Hne.
Qed.

(** The loop of stage 3: every match appends the first record with its
    title, scored with the score of the match, and what was appended before
    reads the same afterwards although the store is mutated. *)
Lemma rerank_spec query ms :
  forall store refs,
    Forall (placeable query store) ms ->
    (forall j, In j refs -> scored_cell query store j) ->
    exists out,
      deref (fst (rerank ms store refs)) (snd (rerank ms store refs))
      = deref store refs ++ out /\
      Forall2 (fun m r' =>
                 Cand.title r' = fst m /\
                 Cand.score r' = Some (snd m) /\
                 exists r, In r store /\ same_meta r r') ms out.
Proof.
  induction ms as [|m ms IH]; intros store refs Hms Hrefs.
  - exists []. cbn [rerank fst snd]. rewrite app_nil_r. split; constructor.
  - inversion Hms as [|? ? Hm Hms']; subst.
    destruct Hm as ((t & Ht) & Hin & Hw).
    rewrite Ht in Hin, Hw.
    destruct (find_title_str _ _ Hin) as (i & r & Hf & Hn & Htr).
    assert (Hwr : WRatio query (Cand.title r) = Ok (snd m)) by (rewrite Htr; exact Hw).
    cbn [rerank]. rewrite Ht, Hf.
    destruct (IH (set_score i (snd m) store) (refs ++ [i])) as (out & Hout & Hall).
    + eapply Forall_impl; [|exact Hms'].
      unfold placeable. intros m' (Hs & Hi & Hw'). rewrite set_score_titles. auto.
    + intros j Hj. apply in_app_or in Hj. destruct Hj as [Hj|[<-|[]]].
      * destruct (Hrefs j Hj) as (rj & sj & Hnj & Hwj & Hsj).
        exists rj, sj. split; [|auto].
        rewrite (set_score_keeps_scored query store i r (snd m) j Hn Hwr (Hrefs j Hj)). exact Hnj.
      * exists (with_score (snd m) r), (snd m).
        split; [apply nth_error_set_score_same, Hn|]. split; [exact Hwr|reflexivity].
    + exists (with_score (snd m) r :: out). split.
      * rewrite Hout, deref_app, <- app_assoc. f_equal.
        -- apply deref_ext. intros j Hj.
           apply (set_score_keeps_scored query store i r (snd m) j Hn Hwr (Hrefs j Hj)).
        -- unfold deref at 1. cbn [flat_map].
           rewrite (nth_error_set_score_same _ _ _ _ Hn). reflexivity.
      * constructor.
        -- cbn. split; [congruence|]. split; [reflexivity|].
           exists r. split; [eapply nth_error_In, Hn|]. repeat split.
        -- eapply Forall2_impl; [|exact Hall].
           cbn beta. intros m' r' (Ht' & Hs' & r1 & Hin1 & Hm1).
           split; [exact Ht'|]. split; [exact Hs'|].
           destruct (set_score_meta _ _ _ _ Hin1) as (r0 & Hin0 & Hm0).
           exists r0. split; [exact Hin0|]. eapply same_meta_trans; eassumption.
Qed.

Lemma rmap_ok {A B} (f : A -> result B) xs ys :
  rmap f xs = Ok ys -> Forall2 (fun x y => f x = Ok y) xs ys.
Proof.
  revert ys. induction xs as [|x xs IH]; intros ys H; cbn [rmap] in H.
  - injection H as <-. constructor.
  - destruct (f x) as [y|e] eqn:Hx; cbn [rbind] in H; [|discriminate H].
    destruct (rmap f xs) as [ys'|e]; cbn [rbind] in H; [|discriminate H].
    injection H as <-. constructor; [exact Hx|]. apply IH. reflexivity.
Qed.

Lemma search_full_record_str r c :
  search_full_record r = Ok c ->
  (exists t, Cand.title c = JStr t) /\ Cand.score c = None.
Proof.
  unfold search_full_record.
  destruct (Py.get r "title" JNull) as [title|]; cbn [rbind]; [|discriminate].
  destruct (Py.get r "snippet" (JStr EmptyString)) as [snippet|]; cbn [rbind]; [|discriminate].
  destruct (Py.replace snippet span_open EmptyString) as [d1|]; cbn [rbind]; [|discriminate].
  destruct title as [| | |t| |]; cbn [Py.replace rbind]; try discriminate.
  intros E. injection E as <-. cbn. eauto.
Qed.

Lemma search_full_payload_str data rs :
  search_full_payload data = Ok rs ->
  Forall (fun c => (exists t, Cand.title c = JStr t) /\ Cand.score c = None) rs.
Proof.
  unfold search_full_payload.
  destruct (Py.get data "query" (JObj [])) as [q|]; cbn [rbind]; [|discriminate].
  destruct (Py.get q "search" (JArr [])) as [results|]; cbn [rbind]; [|discriminate].
  destruct (Py.iter results) as [xs|]; cbn [rbind]; [|discriminate].
  intros H. apply rmap_ok in H.
  induction H as [|x c xs cs Hx _ IH]; constructor; [|exact IH].
  eapply search_full_record_str, Hx.
Qed.

Lemma search_full_str query limit n rs :
  fst (search_full query limit n) = Ok rs ->
  Forall (fun c => (exists t, Cand.title c = JStr t) /\ Cand.score c = None) rs.
Proof.
  rewrite search_full_run. cbn [fst]. intros H.
  apply on_reply_ok in H. destruct H as [->|[data H]]; [constructor|].
  eapply search_full_payload_str, H.
Qed.

(** What stage 3 hands back, match by match. *)
Lemma scored_results_spec query results ms :
  Forall (fun c => exists t, Cand.title c = JStr t) results ->
  process_extract query (map Cand.title results) 5 = Ok ms ->
  Forall2 (fun m r' =>
             Cand.title r' = fst m /\
             Cand.score r' = Some (snd m) /\
             exists r, In r results /\ same_meta r r')
          ms (scored_results ms results).
Proof.
  intros Hstr Hms. apply process_extract_spec in Hms.
  destruct Hms as (_ & _ & Hms).
  destruct (rerank_spec query ms results []) as (out & Hout & Hall).
  - eapply Forall_impl; [|exact Hms].
    intros m [Hin Hw]. split; [|auto].
    apply in_map_iff in Hin. destruct Hin as (c & Hc & Hin).
    rewrite Forall_forall in Hstr. destruct (Hstr c Hin) as [t Ht].
    exists t. congruence.
  - intros j [].
  - unfold scored_results. rewrite Hout. exact Hall.
Qed.

Lemma ranked_scores_sorted ms out :
  StronglySorted desc ms ->
  Forall2 (fun m r' => Cand.score r' = Some (snd m)) ms out ->
  StronglySorted (fun a b => (score_or_0 b <= score_or_0 a)%Z) out.
Proof.
  intros Hs H. induction H as [|m r' ms out Hm Hall IH]; [constructor|].
  inversion Hs as [|? ? Hs' Hm']; subst. constructor; [apply IH, Hs'|].
  clear IH Hs Hs'. induction Hall as [|m2 r2 ms2 out2 H2 _ IH2]; constructor.
  - inversion Hm'; subst. unfold score_or_0. rewrite Hm, H2. assumption.
  - apply IH2. inversion Hm'; assumption.
Qed.

(** C5.  When stages 1 and 2 find nothing and [search_full] answers,
    [fuzzy_search] returns one record per match of the re-rank, in the
    order of the re-rank, whatever the score (the list is as long as the
    results allow, up to the 5 the ranking keeps): the record has the title
    and the score of its match, the score the scorer computed, and the
    title, description and url of a result of [search_full]; the scores
    descend; a result whose title is not in the re-rank has no record in
    the list. *)
Theorem fuzzy_search_rerank query threshold n n1 n2 n3 all_pages results matches :
  search query 10 n = (Ok [], n1) ->
  get_all_pages query 50 n1 = (Ok all_pages, n2) ->
  stage2 query threshold all_pages = Ok [] ->
  search_full query 10 n2 = (Ok results, n3) ->
  results <> [] ->
  process_extract query (map Cand.title results) 5 = Ok matches ->
  exists out,
    fuzzy_search query threshold n = (Ok out, n3) /\
    List.length out = Nat.min 5 (List.length results) /\
    Forall2 (fun m r' =>
               Cand.title r' = fst m /\
               Cand.score r' = Some (snd m) /\
               WRatio query (fst m) = Ok (snd m) /\
               exists r, In r results /\ same_meta r r')
            matches out /\
    StronglySorted (fun a b => (score_or_0 b <= score_or_0 a)%Z) out /\
    (forall r, In r results -> ~ In (Cand.title r) (map fst matches) ->
               forall r', In r' out -> Cand.title r' <> Cand.title r).
Proof.
  intros H1 H2 H3 H4 Hne Hms.
  exists (scored_results matches results).
  assert (Hstr : Forall (fun c => (exists t, Cand.title c = JStr t) /\ Cand.score c = None)
                        results).
  { apply (search_full_str query 10 n2). rewrite H4. reflexivity. }
  assert (Hstr' : Forall (fun c => exists t, Cand.title c = JStr t) results).
  { eapply Forall_impl; [|exact Hstr]. cbn. tauto. }
  pose proof (scored_results_spec _ _ _ Hstr' Hms) as Hall.
  pose proof (process_extract_spec _ _ _ _ Hms) as (_ & Hsorted & Hscores).
  split; [|split; [|split; [|split]]].
  - rewrite fuzzy_search_run. cbv zeta. rewrite H1. cbn [fst snd].
    rewrite H2. cbn [fst snd]. rewrite H3, H4. cbn [fst snd].
    unfold stage3. destruct results as [|r rs]; [contradiction|].
    cbn [is_empty]. rewrite Hms. reflexivity.
  - rewrite <- (Forall2_length Hall).
    rewrite <- (length_map Cand.title results).
    apply (process_extract_length query); [|exact Hms].
    apply Forall_map. eapply Forall_impl; [|exact Hstr'].
    cbn. intros c [t Ht]. congruence.
  - clear - Hall Hscores. induction Hall as [|m r' ms out Hm _ IH]; constructor.
    + inversion Hscores as [|? ? [_ Hw] _]; subst. tauto.
    + apply IH. inversion Hscores; assumption.
  - apply (ranked_scores_sorted matches); [exact Hsorted|].
    eapply Forall2_impl; [|exact Hall]. cbn. tauto.
  - intros r Hr Hnot r' Hr' Heq. apply Hnot.
    clear - Hall Hr' Heq. induction Hall as [|m r2 ms out (Ht & _) _ IH]; [destruct Hr'|].
    destruct Hr' as [->|Hr'].
    + left. congruence.
    + right. apply IH, Hr'.
Qed.

(** C9.  The list [fuzzy_search] returns is all unscored (stage 1, or
    nothing found) or all scored (stage 2 or 3): never a mix. *)
Theorem fuzzy_search_uniform query threshold n rs :
  fst (fuzzy_search query threshold n) = Ok rs ->
  Forall (fun r => Cand.score r = None) rs \/
  Forall (fun r => Cand.score r <> None) rs.
Proof.
  rewrite fuzzy_search_run. cbv zeta.
  destruct (fst (search query 10 n)) as [[|r1 rs1]|e] eqn:H1; cbn [fst];
    [| |discriminate].
  - destruct (fst (get_all_pages query 50 (snd (search query 10 n))))
      as [all_pages|e]; cbn [fst]; [|discriminate].
    destruct (stage2 query threshold all_pages) as [[|r2 rs2]|e] eqn:H2; cbn [fst];
      [| |discriminate].
    + destruct (fst (search_full query 10
                       (snd (get_all_pages query 50 (snd (search query 10 n))))))
        as [results|e] eqn:H3; cbn [fst]; [|discriminate].
      unfold stage3. destruct results as [|r3 rs3]; cbn [is_empty].
      * intros E. injection E as <-. left. constructor.
      * destruct (process_extract query (map Cand.title (r3 :: rs3)) 5)
          as [ms|e] eqn:Hms; cbn [rbind]; [|discriminate].
        intros E. injection E as <-. right.
        apply search_full_str in H3.
        assert (Hstr : Forall (fun c => exists t, Cand.title c = JStr t) (r3 :: rs3)).
        { eapply Forall_impl; [|exact H3]. cbn. tauto. }
        pose proof (scored_results_spec _ _ _ Hstr Hms) as Hall.
        clear - Hall. induction Hall as [|m r' ms out (_ & Hs & _) _ IH]; constructor.
        -- rewrite Hs. discriminate.
        -- exact IH.
    + intros E. injection E as <-. right.
      unfold stage2 in H2. destruct (is_empty all_pages); [discriminate H2|].
      unfold title_sample_matches in H2.
      destruct (process_extract query all_pages 5) as [ms|e]; cbn [rbind] in H2;
        [|discriminate H2].
      apply scored_matches_spec in H2. destruct H2 as [_ Hall].
      eapply Forall_impl; [|exact Hall].
      cbn beta. intros c (t & s & _ & _ & ->). discriminate.
  - intros E. injection E as <-. left.
    eapply search_unscored, H1.
Qed.

(** ** The [/wiki] command *)

Lemma wiki_command_run articulo n :
  wiki_command articulo n
  = let n1 := snd (get_page_extract articulo n) in
    match fst (get_page_extract articulo n) with
    | Raise e => (Raise e, n1)
    | Ok (Some p) =>
        match fst (get_categories articulo n1) with
        | Ok categories => (Ok (ShowPage p categories), snd (get_categories articulo n1))
        | Raise e => (Raise e, snd (get_categories articulo n1))
        end
    | Ok None =>
        let n2 := snd (fuzzy_search articulo 60 n1) in
        match fst (fuzzy_search articulo 60 n1) with
        | Raise e => (Raise e, n2)
        | Ok [] => (Ok NotFound, n2)
        | Ok (best_match :: rest) =>
            if (85 <=? score_or_0 best_match)%Z then
              match as_str (Cand.title best_match) with
              | Ok title => resolve_again title (best_match :: rest) n2
              | Raise e => (Raise e, n2)
              end
            else (Ok (ShowSuggestions (best_match :: rest)), n2)
        end
    end.
Proof.
  unfold wiki_command. rewrite bind_run.
  destruct (get_page_extract articulo n) as [[[p|]|e] n1]; cbn [fst snd];
    [| |reflexivity].
  - rewrite bind_run.
    destruct (get_categories articulo n1) as [[categories|e] n2]; reflexivity.
  - rewrite bind_run.
    destruct (fuzzy_search articulo 60 n1) as [[[|best_match rest]|e] n2];
      cbn [fst snd]; try reflexivity.
    destruct (85 <=? score_or_0 best_match)%Z; [|reflexivity].
    rewrite bind_run. unfold lift at 1 2. cbn [fst snd].
    destruct (as_str (Cand.title best_match)); reflexivity.
Qed.

Lemma resolve_again_run title results n :
  resolve_again title results n
  = let n1 := snd (get_page_extract title n) in
    match fst (get_page_extract title n) with
    | Raise e => (Raise e, n1)
    | Ok (Some p) =>
        match fst (get_categories title n1) with
        | Ok categories => (Ok (ShowPage p categories), snd (get_categories title n1))
        | Raise e => (Raise e, snd (get_categories title n1))
        end
    | Ok None => (Ok (ShowSuggestions results), n1)
    end.
Proof.
  unfold resolve_again. rewrite bind_run.
  destruct (get_page_extract title n) as [[[p|]|e] n1]; cbn [fst snd]; try reflexivity.
  rewrite bind_run.
  destruct (get_categories title n1) as [[categories|e] n2]; reflexivity.
Qed.

(** A scored record of the cascade has a string for a title, so that the
    command can always look its best match up again. *)
Lemma fuzzy_search_scored_str query threshold n rs :
  fst (fuzzy_search query threshold n) = Ok rs ->
  Forall (fun r => Cand.score r <> None -> exists t, Cand.title r = JStr t) rs.
Proof.
  rewrite fuzzy_search_run. cbv zeta.
  destruct (fst (search query 10 n)) as [[|r1 rs1]|e] eqn:H1; cbn [fst];
    [| |discriminate].
  - destruct (fst (get_all_pages query 50 (snd (search query 10 n))))
      as [all_pages|e]; cbn [fst]; [|discriminate].
    destruct (stage2 query threshold all_pages) as [[|r2 rs2]|e] eqn:H2; cbn [fst];
      [| |discriminate].
    + destruct (fst (search_full query 10
                       (snd (get_all_pages query 50 (snd (search query 10 n))))))
        as [results|e] eqn:H3; cbn [fst]; [|discriminate].
      unfold stage3. destruct results as [|r3 rs3]; cbn [is_empty].
      * intros E. injection E as <-. constructor.
      * destruct (process_extract query (map Cand.title (r3 :: rs3)) 5)
          as [ms|e] eqn:Hms; cbn [rbind]; [|discriminate].
        intros E. injection E as <-.
        apply search_full_str in H3.
        assert (Hstr : Forall (fun c => exists t, Cand.title c = JStr t) (r3 :: rs3)).
        { eapply Forall_impl; [|exact H3]. cbn. tauto. }
        pose proof (scored_results_spec _ _ _ Hstr Hms) as Hall.
        rewrite Forall_forall in Hstr.
        clear - Hall Hstr.
        induction Hall as [|m r' ms out (_ & _ & r & Hin & Ht & _) _ IH]; constructor.
        -- intros _. destruct (Hstr r Hin) as [t Hr]. exists t. congruence.
        -- exact IH.
    + intros E. injection E as <-.
      unfold stage2 in H2. destruct (is_empty all_pages); [discriminate H2|].
      unfold title_sample_matches in H2.
      destruct (process_extract query all_pages 5) as [ms|e]; cbn [rbind] in H2;
        [|discriminate H2].
      apply scored_matches_spec in H2. destruct H2 as [_ Hall].
      eapply Forall_impl; [|exact Hall].
      cbn beta. intros c (t & s & _ & _ & ->) _. cbn. eauto.
  - intros E. injection E as <-.
    apply search_unscored in H1.
    eapply Forall_impl; [|exact H1]. cbn. intros c -> H. contradiction.
Qed.

Lemma get_page_extract_log title n :
  log (snd (get_page_extract title n))
  = log n ++ [api_request (get_page_extract_params title)].
Proof. rewrite get_page_extract_run. reflexivity. Qed.



Lemma wiki_command_send_run repr_json articulo n :
  wiki_command_send repr_json articulo n
  = (match fst (wiki_command articulo n) with
     | Ok o => present repr_json articulo o
     | Raise e => Raise e
     end,
     snd (wiki_command articulo n)).
Proof.
  unfold wiki_command_send, wiki_command. rewrite !bind_run.
  destruct (get_page_extract articulo n) as [[[p|]|e] n1]; cbn [fst snd];
    [| |reflexivity].
  - rewrite !bind_run.
    destruct (get_categories articulo n1) as [[categories|e] n2]; cbn [fst snd];
      [|reflexivity].
    rewrite bind_run. unfold lift, ret. cbn [fst snd present].
    destruct (create_wiki_embed p categories); reflexivity.
  - rewrite !bind_run.
    destruct (fuzzy_search articulo 60 n1) as [[[|best_match rest]|e] n2];
      cbn [fst snd]; try reflexivity.
    destruct (85 <=? score_or_0 best_match)%Z.
    + rewrite !bind_run. unfold lift. cbn [fst snd].
      destruct (as_str (Cand.title best_match)) as [title|e]; [|reflexivity].
      rewrite !bind_run.
      destruct (get_page_extract title n2) as [[[p|]|e] n3]; cbn [fst snd];
        [| |reflexivity].
      * rewrite !bind_run.
        destruct (get_categories title n3) as [[categories|e] n4]; cbn [fst snd];
          [|reflexivity].
        rewrite bind_run. unfold lift, ret. cbn [fst snd present].
        destruct (create_wiki_embed p categories); reflexivity.
      * rewrite bind_run. unfold lift, ret. cbn [fst snd present].
        destruct (create_search_embed repr_json (best_match :: rest) articulo true);
          reflexivity.
    + rewrite bind_run. unfold lift, ret. cbn [fst snd present].
      destruct (create_search_embed repr_json (best_match :: rest) articulo true);
        reflexivity.
Qed.

Lemma confident_run articulo n results title n2 :
  confident articulo n results title n2 ->
  wiki_command articulo n = resolve_again title results n2.
Proof.
  intros (n1 & best_match & rest & H1 & H2 & -> & H85 & Ht).
  rewrite wiki_command_run. cbv zeta. rewrite H1. cbn [fst snd].
  rewrite H2. cbn [fst snd].
  destruct (Z.leb_spec 85 (score_or_0 best_match)) as [_|N];
    [|exfalso; apply (Z.lt_irrefl 85); eapply Z.le_lt_trans; eassumption].
  rewrite Ht. reflexivity.
Qed.

Lemma call_raises_run articulo n e :
  call_raises articulo n e -> fst (wiki_command articulo n) = Raise e.
Proof.
  intros [H|[(p & n1 & H1 & H2)|[(n1 & H1 & H2)|(rs & title & n2 & Hc & H)]]].
  - rewrite wiki_command_run. cbv zeta. rewrite H. reflexivity.
  - rewrite wiki_command_run. cbv zeta. rewrite H1. cbn [fst snd]. rewrite H2. reflexivity.
  - rewrite wiki_command_run. cbv zeta. rewrite H1. cbn [fst snd]. rewrite H2. reflexivity.
  - rewrite (confident_run _ _ _ _ _ Hc), resolve_again_run. cbv zeta.
    destruct H as [H|(p & n3 & H3 & H4)].
    + rewrite H. reflexivity.
    + rewrite H3. cbn [fst snd]. rewrite H4. reflexivity.
Qed.

Lemma page_found_run articulo n p categories :
  page_found articulo n p categories ->
  fst (wiki_command articulo n) = Ok (ShowPage p categories).
Proof.
  intros [(n1 & H1 & H2)|(rs & title & n2 & n3 & Hc & H3 & H4)].
  - rewrite wiki_command_run. cbv zeta. rewrite H1. cbn [fst snd]. rewrite H2. reflexivity.
  - rewrite (confident_run _ _ _ _ _ Hc), resolve_again_run. cbv zeta.
    rewrite H3. cbn [fst snd]. rewrite H4. reflexivity.
Qed.

Lemma candidates_left_run articulo n results :
  candidates_left articulo n results ->
  fst (wiki_command articulo n) = Ok (ShowSuggestions results).
Proof.
  intros [(n1 & best_match & rest & H1 & H2 & -> & Hlow)|(title & n2 & Hc & H3)].
  - rewrite wiki_command_run. cbv zeta. rewrite H1. cbn [fst snd]. rewrite H2.
    destruct (Z.leb_spec 85 (score_or_0 best_match)) as [N|_]; [|reflexivity].
    exfalso. apply (Z.lt_irrefl 85). eapply Z.le_lt_trans; eassumption.
  - rewrite (confident_run _ _ _ _ _ Hc), resolve_again_run. cbv zeta.
    rewrite H3. reflexivity.
Qed.

Lemma nothing_found_run articulo n :
  nothing_found articulo n -> fst (wiki_command articulo n) = Ok NotFound.
Proof.
  intros (n1 & H1 & H2).
  rewrite wiki_command_run. cbv zeta. rewrite H1. cbn [fst snd]. rewrite H2. reflexivity.
Qed.

(** The client calls always go one of the four ways: in particular a
    confident candidate has a string for its title, so that the second
    lookup can be made. *)
Lemma wiki_command_ways articulo n :
  (exists e, call_raises articulo n e) \/
  (exists p categories, page_found articulo n p categories) \/
  (exists results, results <> [] /\ candidates_left articulo n results) \/
  nothing_found articulo n.
Proof.
  destruct (get_page_extract articulo n) as [[[p|]|e] n1] eqn:H1.
  - destruct (get_categories articulo n1) as [[categories|e] n2] eqn:H2.
    + right. left. exists p, categories. left. exists n1.
      split; [exact H1|]. rewrite H2. reflexivity.
    + left. exists e. right. left. exists p, n1.
      split; [exact H1|]. rewrite H2. reflexivity.
  - destruct (fuzzy_search articulo 60 n1) as [[[|best_match rest]|e] n2] eqn:H2.
    + do 3 right. exists n1. split; [exact H1|]. rewrite H2. reflexivity.
    + destruct (Z.leb_spec 85 (score_or_0 best_match)) as [H85|Hlow].
      * assert (Hstr : exists title, Cand.title best_match = JStr title).
        { pose proof (fuzzy_search_scored_str articulo 60 n1 (best_match :: rest)) as H.
          rewrite H2 in H. specialize (H eq_refl). inversion H as [|? ? Hb _]; subst.
          apply Hb. unfold score_or_0 in H85.
          destruct (Cand.score best_match); [discriminate|].
          exfalso. apply (Z.lt_irrefl 0). eapply Z.lt_le_trans; [|exact H85]. reflexivity. }
        destruct Hstr as [title Ht].
        assert (Hc : confident articulo n (best_match :: rest) title n2).
        { exists n1, best_match, rest. repeat split; assumption. }
        destruct (get_page_extract title n2) as [[[p|]|e] n3] eqn:H3.
        -- destruct (get_categories title n3) as [[categories|e] n4] eqn:H4.
           ++ right. left. exists p, categories. right.
              exists (best_match :: rest), title, n2, n3.
              split; [exact Hc|]. split; [exact H3|]. rewrite H4. reflexivity.
           ++ left. exists e. do 3 right. exists (best_match :: rest), title, n2.
              split; [exact Hc|]. right. exists p, n3.
              split; [exact H3|]. rewrite H4. reflexivity.
        -- right. right. left. exists (best_match :: rest). split; [discriminate|].
           right. exists title, n2. split; [exact Hc|]. rewrite H3. reflexivity.
        -- left. exists e. do 3 right. exists (best_match :: rest), title, n2.
           split; [exact Hc|]. left. rewrite H3. reflexivity.
      * right. right. left. exists (best_match :: rest). split; [discriminate|].
        left. exists n1, best_match, rest.
        split; [exact H1|]. split; [rewrite H2; reflexivity|].
        split; [reflexivity|exact Hlow].
    + left. exists e. right. right. left. exists n1.
      split; [exact H1|]. rewrite H2. reflexivity.
  - left. exists e. left. rewrite H1. reflexivity.
Qed.

Lemma fuzzy_search_refused query threshold n :
  (forall st rq, refused (fst (respond st rq)) = true) ->
  fst (fuzzy_search query threshold n) = Ok [].
Proof.
  intros H. rewrite fuzzy_search_run. cbv zeta.
  rewrite search_empty_handed by apply refused_empty_handed, H.
  rewrite get_all_pages_empty_handed by apply refused_empty_handed, H.
  cbn [stage2 is_empty].
  rewrite search_full_empty_handed by apply refused_empty_handed, H.
  reflexivity.
Qed.

(** C1, as the code has it.  The client calls of the command go exactly
    one of four ways, which decide its outcome: one of them raises, and
    the exception is the outcome, for nothing catches it; or they leave the
    command with a page and its categories; or with the candidates of the
    cascade, a list that is not empty; or the direct lookup finds nothing
    and the cascade returns the empty list, which is the not-found
    outcome.  With a page the command sends the embed [create_wiki_embed]
    builds, with candidates the embed [create_search_embed] builds, and an
    exception raised while the embed is built leaves the command as well.
    The not-found message is sent exactly when the direct lookup finds
    nothing and the cascade returns the empty list, in particular when
    every reply has a status other than 200.  An exception that leaves the
    command is that of a client call or that of the code that builds the
    embed. *)
Theorem wiki_command_outcome repr_json articulo n :
  let outcome := fst (wiki_command articulo n) in
  let sent := fst (wiki_command_send repr_json articulo n) in
  let not_found :=
    SendText ("❌ No se encontró ningún artículo para **" ++ articulo ++ "**")%string true in
  ((exists e, call_raises articulo n e) \/
   (exists p categories, page_found articulo n p categories) \/
   (exists results, results <> [] /\ candidates_left articulo n results) \/
   nothing_found articulo n)
  /\
  ((forall e, call_raises articulo n e <-> outcome = Raise e) /\
   (forall p categories,
       page_found articulo n p categories <-> outcome = Ok (ShowPage p categories)) /\
   (forall results,
       candidates_left articulo n results <-> outcome = Ok (ShowSuggestions results)) /\
   (nothing_found articulo n <-> outcome = Ok NotFound))
  /\
  ((forall e, call_raises articulo n e -> sent = Raise e) /\
   (forall p categories,
       page_found articulo n p categories ->
       sent = (embed <- create_wiki_embed p categories ;; Ok (SendEmbed embed))%res) /\
   (forall results,
       candidates_left articulo n results ->
       sent = (embed <- create_search_embed repr_json results articulo true ;;
               Ok (SendEmbed embed))%res) /\
   (nothing_found articulo n <-> sent = Ok not_found))
  /\
  (forall e,
      sent = Raise e ->
      call_raises articulo n e \/
      (exists p categories,
          page_found articulo n p categories /\
          create_wiki_embed p categories = Raise e) \/
      (exists results,
          candidates_left articulo n results /\
          create_search_embed repr_json results articulo true = Raise e))
  /\
  ((forall st rq, refused (fst (respond st rq)) = true) -> sent = Ok not_found).
Proof.
  intros outcome sent not_found.
  assert (Hsend : sent = match outcome with
                         | Ok o => present repr_json articulo o
                         | Raise e => Raise e
                         end).
  { unfold sent, outcome. rewrite wiki_command_send_run. reflexivity. }
  assert (O1 : forall e, call_raises articulo n e -> outcome = Raise e)
    by apply call_raises_run.
  assert (O2 : forall p categories,
             page_found articulo n p categories ->
             outcome = Ok (ShowPage p categories))
    by apply page_found_run.
  assert (O3 : forall results,
             candidates_left articulo n results ->
             outcome = Ok (ShowSuggestions results))
    by apply candidates_left_run.
  assert (O4 : nothing_found articulo n -> outcome = Ok NotFound)
    by apply nothing_found_run.
  pose proof (wiki_command_ways articulo n) as Hways.
  clearbody outcome sent.
  assert (E1 : forall e, call_raises articulo n e -> sent = Raise e).
  { intros e H. rewrite Hsend, (O1 _ H). reflexivity. }
  assert (E2 : forall p categories,
             page_found articulo n p categories ->
             sent = (embed <- create_wiki_embed p categories ;; Ok (SendEmbed embed))%res).
  { intros p categories H. rewrite Hsend, (O2 _ _ H). reflexivity. }
  assert (E3 : forall results,
             candidates_left articulo n results ->
             sent = (embed <- create_search_embed repr_json results articulo true ;;
                     Ok (SendEmbed embed))%res).
  { intros results H. rewrite Hsend, (O3 _ H). reflexivity. }
  assert (E4 : nothing_found articulo n -> sent = Ok not_found).
  { intros H. rewrite Hsend, (O4 H). reflexivity. }
  clear Hsend.
  split; [exact Hways|]. split; [|split; [|split]].
  - (* the outcome tells the way *)
    split; [|split; [|split]].
    + intros e. split; [apply O1|]. intros Ho.
      destruct Hways as [[e' H]|[(p & c & H)|[(rs & _ & H)|H]]].
      * rewrite (O1 _ H) in Ho. injection Ho as <-. exact H.
      * rewrite (O2 _ _ H) in Ho. discriminate Ho.
      * rewrite (O3 _ H) in Ho. discriminate Ho.
      * rewrite (O4 H) in Ho. discriminate Ho.
    + intros p categories. split; [apply O2|]. intros Ho.
      destruct Hways as [[e' H]|[(p' & c' & H)|[(rs & _ & H)|H]]].
      * rewrite (O1 _ H) in Ho. discriminate Ho.
      * rewrite (O2 _ _ H) in Ho. injection Ho as <- <-. exact H.
      * rewrite (O3 _ H) in Ho. discriminate Ho.
      * rewrite (O4 H) in Ho. discriminate Ho.
    + intros results. split; [apply O3|]. intros Ho.
      destruct Hways as [[e' H]|[(p' & c' & H)|[(rs & _ & H)|H]]].
      * rewrite (O1 _ H) in Ho. discriminate Ho.
      * rewrite (O2 _ _ H) in Ho. discriminate Ho.
      * rewrite (O3 _ H) in Ho. injection Ho as <-. exact H.
      * rewrite (O4 H) in Ho. discriminate Ho.
    + split; [exact O4|]. intros Ho.
      destruct Hways as [[e' H]|[(p' & c' & H)|[(rs & _ & H)|H]]].
      * rewrite (O1 _ H) in Ho. discriminate Ho.
      * rewrite (O2 _ _ H) in Ho. discriminate Ho.
      * rewrite (O3 _ H) in Ho. discriminate Ho.
      * exact H.
  - (* what is sent *)
    split; [exact E1|]. split; [exact E2|]. split; [exact E3|].
    split; [exact E4|]. intros Hs.
    destruct Hways as [[e H]|[(p & categories & H)|[(results & Hne & H)|H]]].
    + rewrite (E1 _ H) in Hs. discriminate Hs.
    + rewrite (E2 _ _ H) in Hs.
      destruct (create_wiki_embed p categories); discriminate Hs.
    + rewrite (E3 _ H) in Hs.
      destruct (create_search_embed repr_json results articulo true); discriminate Hs.
    + exact H.
  - (* the exceptions *)
    intros e Hs.
    destruct Hways as [[e' H]|[(p & categories & H)|[(results & Hne & H)|H]]].
    + rewrite (E1 _ H) in Hs. injection Hs as <-. left. exact H.
    + rewrite (E2 _ _ H) in Hs. right. left. exists p, categories. split; [exact H|].
      destruct (create_wiki_embed p categories);
        [discriminate Hs|injection Hs as <-; reflexivity].
    + rewrite (E3 _ H) in Hs. right. right. exists results. split; [exact H|].
      destruct (create_search_embed repr_json results articulo true);
        [discriminate Hs|injection Hs as <-; reflexivity].
    + rewrite (E4 H) in Hs. discriminate Hs.
  - (* a wiki that refuses everything *)
    intros H. apply E4. exists (snd (get_page_extract articulo n)). split.
    + rewrite (surjective_pairing (get_page_extract articulo n)) at 1.
      rewrite (get_page_extract_empty_handed articulo n); [reflexivity|].
      apply refused_empty_handed, H.
    + apply fuzzy_search_refused, H.
Qed.

(** ** Determinism *)

Lemma stable_ret {A} (a : A) : stable (ret a).
Proof. intros n n'. reflexivity. Qed.

Lemma stable_lift {A} (r : result A) : stable (lift r).
Proof. intros n n'. reflexivity. Qed.

Lemma stable_bind {A B} (m : M A) (f : A -> M B) :
  stable m -> (forall a, stable (f a)) -> stable (bind m f).
Proof.
  intros Hm Hf n n'. rewrite !bind_run. rewrite (Hm n n').
  destruct (fst (m n')) as [a|e]; [apply Hf|reflexivity].
Qed.

Section Unchanged.

Hypothesis Hremote : unchanged_remote.

Lemma stable_session_get params : stable (session_get params).
Proof.
  intros n n'. unfold session_get. cbv zeta.
  rewrite (Hremote (remote n) (remote n')).
  destruct (fst (respond (remote n') (mk_request WIKI_API_URL params))); reflexivity.
Qed.

Lemma stable_call {A} params (decode : json -> result A) (d : A) :
  stable (resp <- session_get params ;;
          if (fst resp =? 200)%Z
          then lift (data <- resp_json (snd resp) ;; decode data)%res
          else ret d)%net.
Proof.
  apply stable_bind; [apply stable_session_get|].
  intros resp. destruct (fst resp =? 200)%Z; [apply stable_lift|apply stable_ret].
Qed.

Lemma stable_search query limit : stable (search query limit).
Proof. apply stable_call. Qed.

Lemma stable_search_full query limit : stable (search_full query limit).
Proof. apply stable_call. Qed.

Lemma stable_get_all_pages prefix limit : stable (get_all_pages prefix limit).
Proof. apply stable_call. Qed.

Lemma stable_get_page_extract title : stable (get_page_extract title).
Proof. apply stable_call. Qed.

Lemma stable_get_categories title : stable (get_categories title).
Proof. apply stable_call. Qed.

Lemma stable_fuzzy_search query threshold : stable (fuzzy_search query threshold).
Proof.
  unfold fuzzy_search.
  apply stable_bind; [apply stable_search|]. intros results.
  apply stable_bind.
  - destruct (is_empty results); [|apply stable_ret].
    apply stable_bind; [apply stable_get_all_pages|]. intros all_pages.
    destruct (is_empty all_pages); [apply stable_ret|apply stable_lift].
  - intros results'. destruct (is_empty results'); [|apply stable_ret].
    apply stable_bind; [apply stable_search_full|]. intros results''.
    destruct (is_empty results''); [apply stable_ret|].
    apply stable_bind; [apply stable_lift|]. intros matches. apply stable_ret.
Qed.

Lemma stable_wiki_command articulo : stable (wiki_command articulo).
Proof.
  unfold wiki_command.
  apply stable_bind; [apply stable_get_page_extract|]. intros [p|].
  - apply stable_bind; [apply stable_get_categories|]. intros c. apply stable_ret.
  - apply stable_bind; [apply stable_fuzzy_search|]. intros [|best_match rest].
    + apply stable_ret.
    + destruct (85 <=? score_or_0 best_match)%Z; [|apply stable_ret].
      apply stable_bind; [apply stable_lift|]. intros title.
      apply stable_bind; [apply stable_get_page_extract|]. intros [p|].
      * apply stable_bind; [apply stable_get_categories|]. intros c. apply stable_ret.
      * apply stable_ret.
Qed.

End Unchanged.

(** C8.  Against a remote whose replies do not change, two runs of the
    command on the same query end in the same result, whatever state the
    remote and the log are in when each run starts; in particular a second
    run that starts where the first one ended. *)
Theorem wiki_command_deterministic articulo n n' :
  unchanged_remote ->
  fst (wiki_command articulo n) = fst (wiki_command articulo n') /\
  fst (wiki_command articulo (snd (wiki_command articulo n)))
  = fst (wiki_command articulo n).
Proof.
  intros H. split; apply (stable_wiki_command H).
Qed.

(** * More of the bot *)

(** ** Strings *)

Lemma str_len_append a b : Py.str_len (a ++ b) = Py.str_len a + Py.str_len b.
Proof.
  induction a as [|c a IH]; cbn [append Py.str_len]; [reflexivity|].
  destruct (Py.continuation c); rewrite IH; reflexivity.
Qed.

Lemma str_len_take k s : Py.str_len (Py.str_take k s) = Nat.min k (Py.str_len s).
Proof.
  revert k. induction s as [|c s IH]; intros k; cbn [Py.str_take Py.str_len].
  - now rewrite Nat.min_0_r.
  - destruct (Py.continuation c) eqn:Hc.
    + cbn [Py.str_len]. rewrite Hc. apply IH.
    + destruct k as [|k]; [reflexivity|].
      cbn [Py.str_len]. rewrite Hc, IH. reflexivity.
Qed.

Lemma str_take_all k s : Py.str_len s <= k -> Py.str_take k s = s.
Proof.
  revert k. induction s as [|c s IH]; intros k; cbn [Py.str_take Py.str_len];
    [reflexivity|].
  destruct (Py.continuation c).
  - intros H. f_equal. apply IH, H.
  - destruct k as [|k]; intros H; [lia|]. f_equal. apply IH. lia.
Qed.

Lemma prefix_str_take k s : String.prefix (Py.str_take k s) s = true.
Proof.
  revert k. induction s as [|c s IH]; intros k; cbn [Py.str_take]; [reflexivity|].
  destruct (Py.continuation c).
  - cbn [String.prefix]. destruct (ascii_dec c c) as [_|N]; [apply IH|contradiction].
  - destruct k as [|k]; [reflexivity|].
    cbn [String.prefix]. destruct (ascii_dec c c) as [_|N]; [apply IH|contradiction].
Qed.

Lemma prefix_empty s : String.prefix EmptyString s = true.
Proof. destruct s; reflexivity. Qed.

Lemma prefix_append a b : String.prefix a (a ++ b) = true.
Proof.
  induction a as [|c a IH]; cbn; [apply prefix_empty|].
  destruct (ascii_dec c c) as [_|N]; [exact IH|contradiction].
Qed.

(** ** [tiempo_restante_command] *)

Lemma timedelta_seconds_bound td : (0 <= timedelta_seconds td < 86400)%Z.
Proof.
  unfold timedelta_seconds, US_PER_DAY, US_PER_SECOND.
  pose proof (Z.mod_pos_bound td (86400 * 1000000)) as H.
  split.
  - apply Z.div_pos; lia.
  - apply Z.div_lt_upper_bound; lia.
Qed.

(** X1.  From the launch on the command says that the game is out; before
    it, it shows a number of days that is not negative, hours under 24 and
    minutes under 60. *)
Theorem tiempo_restante_range now :
  ((LAUNCH_DATE <= now)%Z -> tiempo_restante now = Released) /\
  ((now < LAUNCH_DATE)%Z ->
   exists days hours minutes,
     tiempo_restante now = Remaining days hours minutes /\
     (0 <= days)%Z /\ (0 <= hours < 24)%Z /\ (0 <= minutes < 60)%Z).
Proof.
  unfold tiempo_restante. cbv zeta. split; intros H.
  - destruct (Z.leb_spec (LAUNCH_DATE - now) 0); [reflexivity|lia].
  - destruct (Z.leb_spec (LAUNCH_DATE - now) 0); [lia|].
    pose proof (timedelta_seconds_bound (LAUNCH_DATE - now)) as Hs.
    eexists. eexists. eexists. split; [reflexivity|]. split; [|split].
    + unfold timedelta_days, US_PER_DAY. apply Z.div_pos; lia.
    + split; [apply Z.div_pos; lia|apply Z.div_lt_upper_bound; lia].
    + pose proof (Z.mod_pos_bound (timedelta_seconds (LAUNCH_DATE - now)) 3600) as Hm.
      split; [apply Z.div_pos; lia|apply Z.div_lt_upper_bound; lia].
Qed.

(** X2.  What the command shows never overstates the time that is left and
    understates it by less than a minute. *)
Theorem tiempo_restante_accuracy now days hours minutes :
  tiempo_restante now = Remaining days hours minutes ->
  let shown := ((days * 86400 + hours * 3600 + minutes * 60) * 1000000)%Z in
  (shown <= LAUNCH_DATE - now < shown + 60 * 1000000)%Z.
Proof.
  unfold tiempo_restante. cbv zeta.
  destruct (Z.leb_spec (LAUNCH_DATE - now) 0); [discriminate|].
  generalize dependent (LAUNCH_DATE - now)%Z. intros r Hr E.
  injection E as Ed Eh Em.
  subst days hours minutes.
  unfold timedelta_days, timedelta_seconds, US_PER_DAY, US_PER_SECOND.
  change (86400 * 1000000)%Z with 86400000000%Z.
  pose proof (Z.div_mod r 86400000000) as E1.
  pose proof (Z.mod_pos_bound r 86400000000) as B1.
  remember (r mod 86400000000)%Z as r1 eqn:D1.
  remember (r / 86400000000)%Z as d eqn:D0.
  pose proof (Z.div_mod r1 1000000) as E2.
  pose proof (Z.mod_pos_bound r1 1000000) as B2.
  remember (r1 mod 1000000)%Z as u eqn:D2.
  remember (r1 / 1000000)%Z as sec eqn:D3.
  pose proof (Z.div_mod sec 3600) as E3.
  pose proof (Z.mod_pos_bound sec 3600) as B3.
  remember (sec mod 3600)%Z as s1 eqn:D4.
  remember (sec / 3600)%Z as h eqn:D5.
  pose proof (Z.div_mod s1 60) as E4.
  pose proof (Z.mod_pos_bound s1 60) as B4.
  remember (s1 mod 60)%Z as s2 eqn:D6.
  remember (s1 / 60)%Z as m eqn:D7.
  clear D0 D1 D2 D3 D4 D5 D6 D7.
  lia.
Qed.

(** ** [create_wiki_embed] *)

(** X3.  For a page whose extract is a string, [create_wiki_embed] builds
    an embed with the page's title and url whose description is the
    extract when it has at most 1000 characters, and otherwise its first
    1000 characters followed by three dots, 1003 characters in all: the
    description never has more than 1003 characters, and it starts as the
    extract does. *)
Theorem create_wiki_embed_description page_data categories extract :
  Page.extract page_data = JStr extract ->
  exists embed description,
    create_wiki_embed page_data categories = Ok embed /\
    Embed.title embed = Page.title page_data /\
    Embed.url embed = Some (Page.url page_data) /\
    Embed.description embed = Some (JStr description) /\
    Py.str_len description <= 1003 /\
    String.prefix (Py.str_take 1000 extract) description = true /\
    String.prefix (Py.str_take 1000 extract) extract = true /\
    (Py.str_len extract <= 1000 -> description = extract) /\
    (1000 < Py.str_len extract ->
     description = (Py.str_take 1000 extract ++ "...")%string /\
     Py.str_len (Py.str_take 1000 extract) = 1000 /\
     Py.str_len description = 1003).
Proof.
  intros He. unfold create_wiki_embed, wiki_description. rewrite He.
  cbn [Py.len rbind].
  destruct (Nat.ltb_spec 1000 (Py.str_len extract)) as [Hlong|Hshort].
  - cbn [py_slice py_add_str rbind].
    eexists. exists (Py.str_take 1000 extract ++ "...")%string.
    assert (Hcut : Py.str_len (Py.str_take 1000 extract) = 1000).
    { rewrite str_len_take. apply Nat.min_l. lia. }
    assert (Hlen : Py.str_len (Py.str_take 1000 extract ++ "...") = 1003).
    { rewrite str_len_append, Hcut. reflexivity. }
    split; [reflexivity|]. cbn [Embed.title Embed.url Embed.description].
    split; [reflexivity|]. split; [reflexivity|]. split; [reflexivity|].
    split; [rewrite Hlen; apply Nat.le_refl|].
    split; [apply prefix_append|].
    split; [apply prefix_str_take|].
    split; [intros H; exfalso; apply (Nat.lt_irrefl 1000); eapply Nat.lt_le_trans; eassumption|].
    intros _. split; [reflexivity|]. split; [exact Hcut|exact Hlen].
  - cbn [rbind]. eexists. exists extract.
    split; [reflexivity|]. cbn [Embed.title Embed.url Embed.description].
    split; [reflexivity|]. split; [reflexivity|]. split; [reflexivity|].
    split; [eapply Nat.le_trans; [exact Hshort|]; repeat constructor|].
    split; [apply prefix_str_take|].
    split; [apply prefix_str_take|].
    split; [reflexivity|].
    intros H. exfalso. apply (Nat.lt_irrefl 1000). eapply Nat.lt_le_trans; eassumption.
Qed.

Lemma categories_value_nonempty categories : categories_value categories <> EmptyString.
Proof.
  unfold categories_value.
  destruct (String.concat ", " (firstn 5 categories)); discriminate.
Qed.

(** X4.  The embed of a page has no field when there is no category, and
    otherwise the one field [Categorías], whose value is never empty and is
    made of the first five categories only. *)
Theorem create_wiki_embed_categories page_data categories embed :
  create_wiki_embed page_data categories = Ok embed ->
  (categories = [] -> Embed.fields embed = []) /\
  (categories <> [] ->
   exists value,
     Embed.fields embed = [("Categorías", value, false)] /\
     value <> EmptyString /\
     value = categories_value (firstn 5 categories) /\
     (String.concat ", " (firstn 5 categories) <> EmptyString ->
      value = String.concat ", " (firstn 5 categories))).
Proof.
  unfold create_wiki_embed.
  destruct (wiki_description (Page.extract page_data)) as [d|e]; cbn [rbind];
    [|discriminate].
  intros E. injection E as <-. cbn [Embed.fields]. split.
  - intros ->. reflexivity.
  - intros Hne. destruct categories as [|c cs]; [contradiction|].
    exists (categories_value (c :: cs)). split; [reflexivity|].
    split; [apply categories_value_nonempty|]. split.
    + unfold categories_value. rewrite firstn_firstn. reflexivity.
    + unfold categories_value.
      destruct (String.concat ", " (firstn 5 (c :: cs))); [contradiction|reflexivity].
Qed.

(** X5.  A page entry whose [extract] is present but null escapes the
    placeholder: the page [get_page_extract] returns carries the null, and
    [create_wiki_embed] raises [TypeError] on it ([len(None)]). *)
Theorem null_extract_breaks_embed title n data page_id pd rest p categories :
  reply_to n (get_page_extract_params title) = Reply 200 (Some data) ->
  page_entries data = Ok ((page_id, JObj pd) :: rest) ->
  assoc "extract" pd = Some JNull ->
  fst (get_page_extract title n) = Ok (Some p) ->
  Page.extract p = JNull /\
  create_wiki_embed p categories = Raise TypeError.
Proof.
  intros Hr He Hx H.
  rewrite (get_page_extract_on _ _ _ _ Hr) in H. cbn [Z.eqb Pos.eqb resp_json rbind] in H.
  rewrite He in H. cbn [rbind] in H.
  destruct (String.eqb page_id "-1"); [discriminate H|].
  apply page_of_entry_some in H.
  destruct H as (pd' & p' & Hpd & Hp & _ & Hext & _).
  injection Hpd as <-. injection Hp as <-.
  unfold field in Hext. rewrite Hx in Hext.
  split; [exact Hext|].
  unfold create_wiki_embed, wiki_description. rewrite Hext. reflexivity.
Qed.

(** ** [create_search_embed] and [wikisearch_command] *)

Lemma str_take_cons k c s : exists t, Py.str_take (S k) (String c s) = String c t.
Proof. cbn [Py.str_take]. destruct (Py.continuation c); eauto. Qed.

(** What [excerpt] makes of a string. *)
Lemma excerpt_string repr_json d :
  excerpt repr_json (JStr d)
  = Ok (match d with
        | EmptyString => "Sin descripción"
        | String _ _ =>
            if (80 <? Py.str_len d)%nat then (Py.str_take 80 d ++ "...")%string
            else Py.str_take 80 d
        end).
Proof.
  unfold excerpt. cbn [py_slice rbind]. destruct d as [|c s]; [reflexivity|].
  destruct (str_take_cons 79 c s) as [t Ht]. rewrite Ht.
  cbn [py_truthy String.eqb negb Py.len rbind].
  destruct (80 <? Py.str_len (String c s))%nat;
    cbn [py_add_str rbind py_truthy append String.eqb negb fstr]; reflexivity.
Qed.

Lemma excerpt_string_ok repr_json d :
  exists x, excerpt repr_json (JStr d) = Ok x.
Proof. rewrite excerpt_string. eauto. Qed.

Lemma prefix_refl a : String.prefix a a = true.
Proof.
  induction a as [|c a IH]; [reflexivity|]. cbn.
  destruct (ascii_dec c c) as [_|N]; [exact IH|contradiction].
Qed.

(** X6.  In the embed [create_search_embed] builds, the entry of a first
    record shown without a score is its link, a line break, and a text made
    from the description: a string description is shown as it is when it has
    from 1 to 80 characters, cut to 80 characters and three dots when it has
    more, and replaced by a fixed text when it is empty.  The text is never
    empty and never longer than 83 characters. *)
Theorem excerpt_bounds repr_json r rest query fuzzy d embed :
  score_truthy r = false ->
  Cand.description r = JStr d ->
  create_search_embed repr_json (r :: rest) query fuzzy = Ok embed ->
  exists x text,
    Embed.description embed = Some (JStr text) /\
    String.prefix (("**1. [" ++ fstr repr_json (Cand.title r) ++ "]("
                      ++ fstr repr_json (Cand.url r) ++ ")**") ++ newline ++ x)%string
                  text
    = true /\
    x <> EmptyString /\
    Py.str_len x <= 83 /\
    (d = EmptyString -> x = "Sin descripción") /\
    (d <> EmptyString -> Py.str_len d <= 80 -> x = d) /\
    (80 < Py.str_len d ->
     x = (Py.str_take 80 d ++ "...")%string /\ Py.str_len x = 83).
Proof.
  intros Hs Hd H. unfold create_search_embed in H. cbv zeta in H.
  cbn [is_empty search_entries] in H. unfold search_entry in H.
  rewrite Hs, Hd, excerpt_string in H. cbn [rbind] in H.
  destruct (search_entries repr_json 2 rest) as [es|e]; cbn [rbind] in H;
    [|discriminate H].
  injection H as <-. cbn [Embed.description].
  exists (match d with
          | EmptyString => "Sin descripción"
          | String _ _ =>
              if (80 <? Py.str_len d)%nat then (Py.str_take 80 d ++ "...")%string
              else Py.str_take 80 d
          end).
  eexists. split; [reflexivity|]. split.
  - destruct es as [|e' es]; [exact (prefix_refl _)|exact (prefix_append _ _)].
  - destruct d as [|c s].
    + split; [discriminate|]. split; [repeat constructor|].
      split; [reflexivity|]. split; [intros N; contradiction|].
      cbn [Py.str_len]. intros N. inversion N.
    + destruct (str_take_cons 79 c s) as [t Ht].
      destruct (Nat.ltb_spec 80 (Py.str_len (String c s))) as [Hlong|Hshort].
      * assert (Hcut : Py.str_len (Py.str_take 80 (String c s)) = 80).
        { rewrite str_len_take. apply Nat.min_l, Nat.lt_le_incl, Hlong. }
        assert (Hlen : Py.str_len (Py.str_take 80 (String c s) ++ "...") = 83).
        { rewrite str_len_append, Hcut. reflexivity. }
        split; [rewrite Ht; discriminate|].
        split; [rewrite Hlen; apply Nat.le_refl|].
        split; [discriminate|].
        split; [intros _ N; exfalso; apply (Nat.lt_irrefl 80);
                eapply Nat.lt_le_trans; eassumption|].
        intros _. split; [reflexivity|exact Hlen].
      * rewrite (str_take_all 80 (String c s) Hshort).
        split; [discriminate|].
        split; [eapply Nat.le_trans; [exact Hshort|]; repeat constructor|].
        split; [discriminate|]. split; [reflexivity|].
        intros N. exfalso. apply (Nat.lt_irrefl 80).
        eapply Nat.lt_le_trans; eassumption.
Qed.

(** X7.  A record without a (non-zero) score whose description is null
    makes [create_search_embed] raise [TypeError] ([None[:80]]). *)
Theorem create_search_embed_null_description repr_json r rest query fuzzy :
  score_truthy r = false ->
  Cand.description r = JNull ->
  create_search_embed repr_json (r :: rest) query fuzzy = Raise TypeError.
Proof.
  intros Hs Hd. unfold create_search_embed. cbn [is_empty search_entries].
  unfold search_entry. rewrite Hs. unfold excerpt. rewrite Hd. reflexivity.
Qed.

Lemma search_entry_nonempty repr_json i r e :
  search_entry repr_json i r = Ok e -> e <> EmptyString.
Proof.
  unfold search_entry. cbv zeta.
  destruct (score_truthy r).
  - intros E. injection E as <-. discriminate.
  - destruct (excerpt repr_json (Cand.description r)); cbn [rbind]; [|discriminate].
    intros E. injection E as <-. discriminate.
Qed.

Lemma search_entry_ok repr_json i r :
  (score_truthy r = true \/ exists d, Cand.description r = JStr d) ->
  exists e, search_entry repr_json i r = Ok e.
Proof.
  intros H. unfold search_entry. cbv zeta.
  destruct (score_truthy r); [eauto|].
  destruct H as [H|[d Hd]]; [discriminate|]. rewrite Hd.
  destruct (excerpt_string_ok repr_json d) as (x & Hx).
  rewrite Hx. cbn [rbind]. eauto.
Qed.

Lemma search_entries_ok repr_json results :
  Forall (fun r => score_truthy r = true \/ exists d, Cand.description r = JStr d)
         results ->
  forall i, exists parts,
    search_entries repr_json i results = Ok parts /\
    List.length parts = List.length results /\
    Forall (fun e => e <> EmptyString) parts.
Proof.
  induction 1 as [|r rest Hr _ IH]; intros i.
  - exists []. repeat split. constructor.
  - cbn [search_entries].
    destruct (search_entry_ok repr_json i r Hr) as [e He].
    destruct (IH (S i)) as (parts & Hp & Hlen & Hne).
    rewrite He, Hp. cbn [rbind]. exists (e :: parts).
    split; [reflexivity|]. split; [cbn; now rewrite Hlen|].
    constructor; [|exact Hne]. eapply search_entry_nonempty, He.
Qed.

Lemma concat_nonempty sep a ls :
  a <> EmptyString -> String.concat sep (a :: ls) <> EmptyString.
Proof.
  intros Ha. destruct ls as [|b ls]; cbn [String.concat]; [exact Ha|].
  destruct a; [contradiction|discriminate].
Qed.

Lemma create_search_embed_built repr_json results query fuzzy :
  Forall (fun r => score_truthy r = true \/ exists d, Cand.description r = JStr d)
         results ->
  exists embed text,
    create_search_embed repr_json results query fuzzy = Ok embed /\
    Embed.title embed
    = JStr (if fuzzy then "🔎 ¿Quisiste decir...? (" ++ query ++ ")"
            else "🔍 Resultados para: " ++ query) /\
    Embed.description embed = Some (JStr text) /\
    text <> EmptyString.
Proof.
  intros H. unfold create_search_embed. cbv zeta.
  destruct results as [|r rest]; cbn [is_empty rbind].
  - eexists. eexists. split; [reflexivity|]. split; [reflexivity|].
    split; [reflexivity|discriminate].
  - destruct (search_entries_ok repr_json (r :: rest) H 1) as (parts & Hp & Hlen & Hne).
    rewrite Hp. cbn [rbind]. eexists. eexists.
    split; [reflexivity|]. split; [reflexivity|]. split; [reflexivity|].
    destruct parts as [|e es]; [discriminate Hlen|].
    inversion Hne; subst. apply concat_nonempty. assumption.
Qed.

(** X8.  When every record has a non-zero score or a string for a
    description, [create_search_embed] builds an embed, and the
    description of the embed is never empty: the fixed text for an empty
    list, one entry per record otherwise. *)
Theorem create_search_embed_total repr_json results query fuzzy :
  Forall (fun r => score_truthy r = true \/ exists d, Cand.description r = JStr d)
         results ->
  exists embed text,
    create_search_embed repr_json results query fuzzy = Ok embed /\
    Embed.description embed = Some (JStr text) /\
    text <> EmptyString /\
    (results = [] -> text = "No se encontraron resultados.") /\
    (results <> [] ->
     exists parts,
       search_entries repr_json 1 results = Ok parts /\
       List.length parts = List.length results /\
       text = String.concat (newline ++ newline) parts).
Proof.
  intros H. unfold create_search_embed. cbv zeta.
  destruct results as [|r rest]; cbn [is_empty rbind].
  - eexists. eexists. split; [reflexivity|]. split; [reflexivity|].
    split; [discriminate|]. split; [reflexivity|]. intros N. contradiction.
  - destruct (search_entries_ok repr_json (r :: rest) H 1) as (parts & Hp & Hlen & Hne).
    rewrite Hp. cbn [rbind]. eexists. eexists.
    split; [reflexivity|]. split; [reflexivity|]. split; [|split].
    + destruct parts as [|e es]; [discriminate Hlen|].
      inversion Hne; subst. apply concat_nonempty. assumption.
    + discriminate.
    + intros _. exists parts. auto.
Qed.

Lemma search_full_record_description r c :
  search_full_record r = Ok c -> exists d, Cand.description c = JStr d.
Proof.
  unfold search_full_record.
  destruct (Py.get r "title" JNull) as [title|]; cbn [rbind]; [|discriminate].
  destruct (Py.get r "snippet" (JStr EmptyString)) as [snippet|]; cbn [rbind]; [|discriminate].
  destruct (Py.replace snippet span_open EmptyString) as [d1|]; cbn [rbind]; [|discriminate].
  destruct (Py.replace title " " "_") as [u|]; cbn [rbind]; [|discriminate].
  intros E. injection E as <-. cbn. eauto.
Qed.

Lemma search_full_descriptions query limit n rs :
  fst (search_full query limit n) = Ok rs ->
  Forall (fun c => exists d, Cand.description c = JStr d) rs.
Proof.
  rewrite search_full_run. cbn [fst]. intros H.
  apply on_reply_ok in H. destruct H as [->|[data H]]; [constructor|].
  unfold search_full_payload in H.
  destruct (Py.get data "query" (JObj [])) as [q|]; cbn [rbind] in H; [|discriminate].
  destruct (Py.get q "search" (JArr [])) as [results|]; cbn [rbind] in H; [|discriminate].
  destruct (Py.iter results) as [xs|]; cbn [rbind] in H; [|discriminate].
  apply rmap_ok in H.
  induction H as [|x c xs cs Hx _ IH]; constructor; [|exact IH].
  eapply search_full_record_description, Hx.
Qed.

(** Which stage a list of the cascade comes from, and what its records
    look like then. *)
Lemma fuzzy_search_cases query threshold n rs :
  fst (fuzzy_search query threshold n) = Ok rs ->
  (fst (search query 10 n) = Ok rs /\ rs <> [] /\
   Forall (fun r => Cand.score r = None) rs) \/
  (fst (search query 10 n) = Ok [] /\
   Forall (fun r => (exists s, Cand.score r = Some s) /\
                    (exists d, Cand.description r = JStr d)) rs).
Proof.
  rewrite fuzzy_search_run. cbv zeta.
  destruct (fst (search query 10 n)) as [[|r1 rs1]|e] eqn:H1; cbn [fst];
    [| |discriminate].
  - intros H. right. split; [reflexivity|]. revert H.
    destruct (fst (get_all_pages query 50 (snd (search query 10 n))))
      as [all_pages|e]; cbn [fst]; [|discriminate].
    destruct (stage2 query threshold all_pages) as [[|r2 rs2]|e] eqn:H2; cbn [fst];
      [| |discriminate].
    + destruct (fst (search_full query 10
                       (snd (get_all_pages query 50 (snd (search query 10 n))))))
        as [results|e] eqn:H3; cbn [fst]; [|discriminate].
      unfold stage3. destruct results as [|r3 rs3]; cbn [is_empty].
      * intros E. injection E as <-. constructor.
      * destruct (process_extract query (map Cand.title (r3 :: rs3)) 5)
          as [ms|e] eqn:Hms; cbn [rbind]; [|discriminate].
        intros E. injection E as <-.
        pose proof (search_full_descriptions _ _ _ _ H3) as Hd.
        apply search_full_str in H3.
        assert (Hstr : Forall (fun c => exists t, Cand.title c = JStr t) (r3 :: rs3)).
        { eapply Forall_impl; [|exact H3]. cbn. tauto. }
        pose proof (scored_results_spec _ _ _ Hstr Hms) as Hall.
        rewrite Forall_forall in Hd.
        clear - Hall Hd.
        induction Hall as [|m r' ms out (_ & Hs & r & Hin & _ & Hdesc & _) _ IH];
          constructor; [|exact IH].
        split; [eauto|]. destruct (Hd r Hin) as [d Hr]. exists d. congruence.
    + intros E. injection E as <-.
      unfold stage2 in H2. destruct (is_empty all_pages); [discriminate H2|].
      unfold title_sample_matches in H2.
      destruct (process_extract query all_pages 5) as [ms|e]; cbn [rbind] in H2;
        [|discriminate H2].
      apply scored_matches_spec in H2. destruct H2 as [_ Hall].
      eapply Forall_impl; [|exact Hall].
      cbn beta. intros c (t & s & _ & _ & ->). cbn. eauto.
  - intros E. injection E as <-. left.
    split; [reflexivity|]. split; [discriminate|].
    eapply search_unscored, H1.
Qed.

(** X9.  [wikisearch_command] uses the title "did you mean" only for a list
    of the fuzzy stages, in which every record has a score; a list that the
    open search returned is always shown under the plain title. *)
Theorem wikisearch_fuzzy_flag busqueda n rs :
  fst (fuzzy_search busqueda 60 n) = Ok rs ->
  (fuzzy_flag rs = true ->
   fst (search busqueda 10 n) = Ok [] /\
   Forall (fun r => Cand.score r <> None) rs) /\
  (fst (search busqueda 10 n) <> Ok [] -> fuzzy_flag rs = false).
Proof.
  intros H. apply fuzzy_search_cases in H.
  destruct H as [(H1 & Hne & Hall)|(H1 & Hall)].
  - assert (Hflag : fuzzy_flag rs = false).
    { destruct rs as [|r rs']; [reflexivity|].
      inversion Hall as [|? ? Hr _]; subst.
      cbn. unfold score_truthy. rewrite Hr. reflexivity. }
    split; [rewrite Hflag; discriminate|auto].
  - split.
    + intros _. split; [exact H1|].
      eapply Forall_impl; [|exact Hall]. cbn. intros r [[s Hs] _]. congruence.
    + intros N. contradiction.
Qed.

(** X10.  When the open search finds nothing and the cascade returns,
    [wikisearch_command] always sends an embed: the records of the fuzzy
    stages have string descriptions, so building the embed cannot fail,
    and its description is not empty. *)
Theorem wikisearch_command_sends repr_json busqueda n rs :
  fst (search busqueda 10 n) = Ok [] ->
  fst (fuzzy_search busqueda 60 n) = Ok rs ->
  exists embed text,
    fst (wikisearch_command repr_json busqueda n) = Ok (SendEmbed embed) /\
    Embed.description embed = Some (JStr text) /\
    text <> EmptyString.
Proof.
  intros H1 H.
  assert (Hall : Forall (fun r => score_truthy r = true \/
                                  exists d, Cand.description r = JStr d) rs).
  { destruct (fuzzy_search_cases _ _ _ _ H) as [(H1' & Hne & _)|(_ & Hall)].
    - rewrite H1 in H1'. injection H1' as <-. contradiction.
    - eapply Forall_impl; [|exact Hall]. cbn. tauto. }
  destruct (create_search_embed_built repr_json rs busqueda (fuzzy_flag rs) Hall)
    as (embed & text & He & _ & Hd & Hne).
  exists embed, text. split; [|auto].
  unfold wikisearch_command. rewrite bind_run. rewrite H.
  rewrite bind_run. unfold lift at 1 2. cbn [fst snd]. rewrite He. reflexivity.
Qed.

(** ** The requests a command issues *)

Lemma issues_ret {A} (a : A) P : issues (ret a) 0 P.
Proof. intros n. exists []. cbn. rewrite app_nil_r. repeat split; constructor. Qed.

Lemma issues_lift {A} (r : result A) P : issues (lift r) 0 P.
Proof. intros n. exists []. cbn. rewrite app_nil_r. repeat split; constructor. Qed.

Lemma issues_weaken {A} (m : M A) b b' P : b <= b' -> issues m b P -> issues m b' P.
Proof.
  intros Hb H n. destruct (H n) as (new & Hlog & Hlen & HP).
  exists new. repeat split; [exact Hlog|lia|exact HP].
Qed.

Lemma issues_bind {A B} (m : M A) (f : A -> M B) b1 b2 P :
  issues m b1 P -> (forall a, issues (f a) b2 P) -> issues (bind m f) (b1 + b2) P.
Proof.
  intros Hm Hf n. rewrite bind_run.
  destruct (Hm n) as (new1 & Hlog1 & Hlen1 & HP1).
  destruct (fst (m n)) as [a|e].
  - destruct (Hf a (snd (m n))) as (new2 & Hlog2 & Hlen2 & HP2).
    exists (new1 ++ new2). rewrite Hlog2, Hlog1, app_assoc, length_app.
    repeat split; [lia|]. apply Forall_app. auto.
  - exists new1. cbn [snd]. repeat split; [exact Hlog1|lia|exact HP1].
Qed.

Lemma issues_session_get params :
  In ("format", "json") params -> issues (session_get params) 1 api_json.
Proof.
  intros Hin n. exists [mk_request WIKI_API_URL params].
  unfold session_get. cbv zeta.
  destruct (fst (respond (remote n) (mk_request WIKI_API_URL params)));
    cbn [snd log List.length]; (split; [reflexivity|]); (split; [lia|]);
    (constructor; [split; [reflexivity|exact Hin]|constructor]).
Qed.

Lemma issues_call {A} params (decode : json -> result A) (d : A) :
  In ("format", "json") params ->
  issues (resp <- session_get params ;;
          if (fst resp =? 200)%Z
          then lift (data <- resp_json (snd resp) ;; decode data)%res
          else ret d)%net 1 api_json.
Proof.
  intros Hin. change 1 with (1 + 0).
  apply issues_bind; [apply issues_session_get, Hin|].
  intros resp. destruct (fst resp =? 200)%Z; [apply issues_lift|apply issues_ret].
Qed.

Lemma issues_search query limit : issues (search query limit) 1 api_json.
Proof. apply issues_call. cbn. tauto. Qed.

Lemma issues_search_full query limit : issues (search_full query limit) 1 api_json.
Proof. apply issues_call. cbn. tauto. Qed.

Lemma issues_get_all_pages prefix limit : issues (get_all_pages prefix limit) 1 api_json.
Proof. apply issues_call. cbn. tauto. Qed.

Lemma issues_get_page_extract title : issues (get_page_extract title) 1 api_json.
Proof. apply issues_call. cbn. tauto. Qed.

Lemma issues_get_categories title : issues (get_categories title) 1 api_json.
Proof. apply issues_call. cbn. tauto. Qed.

Lemma issues_fuzzy_search query threshold :
  issues (fuzzy_search query threshold) 3 api_json.
Proof.
  unfold fuzzy_search. change 3 with (1 + (1 + 1)).
  apply issues_bind; [apply issues_search|]. intros results.
  apply issues_bind.
  - destruct (is_empty results); [|apply (issues_weaken _ 0); [lia|apply issues_ret]].
    change 1 with (1 + 0).
    apply issues_bind; [apply issues_get_all_pages|]. intros all_pages.
    destruct (is_empty all_pages); [apply issues_ret|apply issues_lift].
  - intros results'.
    destruct (is_empty results'); [|apply (issues_weaken _ 0); [lia|apply issues_ret]].
    change 1 with (1 + 0).
    apply issues_bind; [apply issues_search_full|]. intros results''.
    destruct (is_empty results''); [apply issues_ret|].
    change 0 with (0 + 0).
    apply issues_bind; [apply issues_lift|]. intros matches. apply issues_ret.
Qed.

Lemma issues_after_lookup articulo :
  forall page : option Page.t,
    issues (match page with
            | Some p =>
                (categories <- get_categories articulo ;;
                 ret (ShowPage p categories))%net
            | None =>
                (results <- fuzzy_search articulo 60 ;;
                 match results with
                 | best_match :: _ =>
                     if (85 <=? score_or_0 best_match)%Z then
                       title <- lift (as_str (Cand.title best_match)) ;;
                       page <- get_page_extract title ;;
                       match page with
                       | Some p =>
                           categories <- get_categories title ;;
                           ret (ShowPage p categories)
                       | None => ret (ShowSuggestions results)
                       end
                     else ret (ShowSuggestions results)
                 | [] => ret NotFound
                 end)%net
            end) 5 api_json.
Proof.
  intros [p|].
  - apply (issues_weaken _ (1 + 0)); [lia|].
    apply issues_bind; [apply issues_get_categories|]. intros c. apply issues_ret.
  - change 5 with (3 + 2).
    apply issues_bind; [apply issues_fuzzy_search|]. intros [|best_match rest].
    + apply (issues_weaken _ 0); [lia|apply issues_ret].
    + destruct (85 <=? score_or_0 best_match)%Z;
        [|apply (issues_weaken _ 0); [lia|apply issues_ret]].
      change 2 with (0 + (1 + 1)).
      apply issues_bind; [apply issues_lift|]. intros title.
      apply issues_bind; [apply issues_get_page_extract|]. intros [p|].
      * change 1 with (1 + 0).
        apply issues_bind; [apply issues_get_categories|]. intros c. apply issues_ret.
      * apply (issues_weaken _ 0); [lia|apply issues_ret].
Qed.

(** X11.  Whatever the replies, the cascade issues its requests in the
    order of its stages and each at most once: what it adds to the log is
    the first one, two or three of the open search, the title sample and
    the full-text search. *)
Theorem fuzzy_search_requests query threshold n :
  exists k,
    1 <= k <= 3 /\
    log (snd (fuzzy_search query threshold n))
    = log n ++ firstn k (stage_requests query).
Proof.
  rewrite fuzzy_search_run. cbv zeta.
  rewrite search_run. cbn [fst snd].
  destruct (on_reply search_payload [] (reply_to n (search_params query 10)))
    as [[|r rs]|e]; cbn [snd]; [|exists 1; split; [lia|reflexivity]..].
  rewrite get_all_pages_run. cbn [fst snd].
  destruct (on_reply get_all_pages_payload []
              (reply_to (after n (search_params query 10))
                        (get_all_pages_params query 50)))
    as [all_pages|e]; cbn [snd];
    [|exists 2; split; [lia|]; cbn [after log firstn stage_requests];
      rewrite <- app_assoc; reflexivity].
  destruct (stage2 query threshold all_pages) as [[|r rs]|e]; cbn [snd];
    [|exists 2; split; [lia|]; cbn [after log firstn stage_requests];
      rewrite <- app_assoc; reflexivity..].
  rewrite search_full_run. cbn [fst snd]. exists 3. split; [lia|].
  destruct (on_reply search_full_payload []
              (reply_to (after (after n (search_params query 10))
                               (get_all_pages_params query 50))
                        (search_full_params query 10)));
    cbn [snd after log firstn stage_requests]; rewrite <- !app_assoc; reflexivity.
Qed.

(** X12.  A [/wiki] command issues at most 6 requests, the first of them
    the direct lookup of the article, and every one of them goes to the
    API of the wiki and asks for JSON. *)
Theorem wiki_command_requests articulo n :
  exists new,
    log (snd (wiki_command articulo n))
    = log n ++ api_request (get_page_extract_params articulo) :: new /\
    List.length new <= 5 /\
    Forall api_json (api_request (get_page_extract_params articulo) :: new).
Proof.
  unfold wiki_command. rewrite bind_run.
  pose proof (issues_after_lookup articulo) as Hrest.
  destruct (fst (get_page_extract articulo n)) as [page|e] eqn:Hp.
  - destruct (Hrest page (snd (get_page_extract articulo n))) as (new & Hlog & Hlen & HP).
    exists new. rewrite Hlog, get_page_extract_log, <- app_assoc.
    split; [reflexivity|]. split; [exact Hlen|].
    constructor; [|exact HP]. split; [reflexivity|]. cbn. tauto.
  - exists []. cbn [snd]. rewrite get_page_extract_log.
    split; [reflexivity|]. split; [cbn; lia|].
    constructor; [|constructor]. split; [reflexivity|]. cbn. tauto.
Qed.

(** ** [get_random_page] *)

Lemma get_page_extract_of_str title n :
  get_page_extract_of (JStr title) n = get_page_extract title n.
Proof. unfold get_page_extract_of. rewrite bind_run. reflexivity. Qed.

Lemma get_random_page_run n :
  get_random_page n
  = match reply_to n get_random_page_params with
    | NetFail => (Raise ClientError, after n get_random_page_params)
    | Reply status body =>
        if (status =? 200)%Z then
          match (data <- resp_json body ;; random_title data)%res with
          | Ok (Some t) => get_page_extract_of t (after n get_random_page_params)
          | Ok None => (Ok None, after n get_random_page_params)
          | Raise e => (Raise e, after n get_random_page_params)
          end
        else (Ok None, after n get_random_page_params)
    end.
Proof.
  unfold get_random_page. rewrite bind_run.
  unfold session_get, reply_to, after, api_request. cbv zeta.
  destruct (fst (respond (remote n) (mk_request WIKI_API_URL get_random_page_params)))
    as [|status body]; cbn [fst snd]; [reflexivity|].
  destruct (status =? 200)%Z; [|reflexivity].
  rewrite bind_run. unfold lift at 1 2. cbn [fst snd].
  destruct (data <- resp_json body;; random_title data)%res as [[t|]|e]; reflexivity.
Qed.

Lemma random_title_lacks data : lacks "random" data = true -> random_title data = Ok None.
Proof.
  intros H. unfold random_title.
  rewrite <- rbind_assoc, (lacks_get _ (JArr []) _ H). reflexivity.
Qed.

(** X13.  [get_random_page] returns [None] after its one request when the
    status is not 200, when the payload has no [query.random], and when
    the list of random pages is empty. *)
Theorem get_random_page_nothing n status body :
  reply_to n get_random_page_params = Reply status body ->
  (status <> 200%Z \/
   exists data,
     body = Some data /\
     (lacks "random" data = true \/
      exists o q, data = JObj o /\ assoc "query" o = Some (JObj q) /\
                  assoc "random" q = Some (JArr []))) ->
  get_random_page n = (Ok None, after n get_random_page_params).
Proof.
  intros Hr H. rewrite get_random_page_run, Hr.
  destruct (Z.eqb_spec status 200) as [->|Hne]; [|reflexivity].
  destruct H as [H|(data & -> & H)]; [contradiction|].
  cbn [resp_json rbind].
  destruct H as [H|(o & q & -> & Hq & Hrnd)].
  - rewrite (random_title_lacks _ H). reflexivity.
  - unfold random_title. cbn [Py.get]. rewrite Hq. cbn [rbind Py.get].
    rewrite Hrnd. reflexivity.
Qed.

(** X14.  When the first random page of the payload has the string [t] for
    its title, [get_random_page] is [get_page_extract(t)] run after the
    request for the random page: same result, and the two requests in the
    log. *)
Theorem get_random_page_resolves n data t :
  reply_to n get_random_page_params = Reply 200 (Some data) ->
  random_title data = Ok (Some (JStr t)) ->
  get_random_page n = get_page_extract t (after n get_random_page_params) /\
  log (snd (get_random_page n))
  = log n ++ [api_request get_random_page_params;
              api_request (get_page_extract_params t)].
Proof.
  intros Hr Ht.
  assert (Hrun : get_random_page n
                 = get_page_extract t (after n get_random_page_params)).
  { rewrite get_random_page_run, Hr. cbn [Z.eqb Pos.eqb resp_json rbind].
    rewrite Ht. apply get_page_extract_of_str. }
  split; [exact Hrun|].
  rewrite Hrun, get_page_extract_log. cbn [after log].
  rewrite <- app_assoc. reflexivity.
Qed.

(** ** [search] *)

Lemma zip3_length {A B C} (a : list A) (b : list B) (c : list C) :
  List.length (Py.zip3 a b c)
  = Nat.min (List.length a) (Nat.min (List.length b) (List.length c)).
Proof.
  revert b c. induction a as [|x a IH]; intros [|y b] [|z c]; cbn; try reflexivity.
  now rewrite IH.
Qed.

Lemma zip3_firstn {A B C} (a : list A) (b : list B) (c : list C) :
  map (fun t => fst (fst t)) (Py.zip3 a b c) = firstn (List.length (Py.zip3 a b c)) a /\
  map (fun t => snd (fst t)) (Py.zip3 a b c) = firstn (List.length (Py.zip3 a b c)) b /\
  map snd (Py.zip3 a b c) = firstn (List.length (Py.zip3 a b c)) c.
Proof.
  revert b c. induction a as [|x a IH]; intros [|y b] [|z c]; cbn; auto.
  destruct (IH b c) as (H1 & H2 & H3). rewrite <- H1, <- H2, <- H3. auto.
Qed.

(** X15.  On the payload of an open search, [query, titles, descriptions,
    urls, ...], [search] returns the records in the order of the API, as
    many as the shortest of the three lists has entries: record [i] is made
    of the [i]-th title, description and url. *)
Theorem search_payload_zip q ts ds us extra :
  exists rs,
    search_payload (JArr (q :: JArr ts :: JArr ds :: JArr us :: extra)) = Ok rs /\
    List.length rs
    = Nat.min (List.length ts) (Nat.min (List.length ds) (List.length us)) /\
    map Cand.title rs = firstn (List.length rs) ts /\
    map Cand.description rs = firstn (List.length rs) ds /\
    map Cand.url rs = firstn (List.length rs) us /\
    Forall (fun r => Cand.score r = None) rs.
Proof.
  eexists. split; [reflexivity|].
  rewrite length_map, !map_map.
  destruct (zip3_firstn ts ds us) as (H1 & H2 & H3).
  split; [apply zip3_length|]. split; [|split; [|split]].
  - rewrite <- H1. apply map_ext. intros [[t d] u]. reflexivity.
  - rewrite <- H2. apply map_ext. intros [[t d] u]. reflexivity.
  - rewrite <- H3. apply map_ext. intros [[t d] u]. reflexivity.
  - apply Forall_map, Forall_forall. intros [[t d] u] _. reflexivity.
Qed.

(** ** [str.replace], and the URLs and names made with it *)

Lemma prefix_inv a s : String.prefix a s = true -> exists b, s = (a ++ b)%string.
Proof.
  revert s. induction a as [|c a IH]; intros s H.
  - exists s. reflexivity.
  - destruct s as [|x s]; cbn in H; [discriminate|].
    destruct (ascii_dec c x) as [->|N]; [|discriminate].
    destruct (IH s H) as [b ->]. exists b. reflexivity.
Qed.

Lemma replace_char_map c d s :
  list_ascii_of_string (Py.str_replace (String c EmptyString) (String d EmptyString) s)
  = map (fun x => if Ascii.eqb x c then d else x) (list_ascii_of_string s).
Proof.
  unfold Py.str_replace. induction s as [|x s IH]; [reflexivity|].
  cbn [Py.replace_from String.prefix String.length Nat.sub list_ascii_of_string map].
  destruct (ascii_dec c x) as [->|N].
  - rewrite prefix_empty, Ascii.eqb_refl. cbn [append list_ascii_of_string].
    now rewrite IH.
  - destruct (Ascii.eqb_spec x c) as [->|_]; [contradiction|].
    cbn [list_ascii_of_string]. now rewrite IH.
Qed.

Lemma replace_space_spec t :
  list_ascii_of_string (Py.str_replace " " "_" t) = map underscore (list_ascii_of_string t) /\
  String.length (Py.str_replace " " "_" t) = String.length t /\
  ~ In " "%char (list_ascii_of_string (Py.str_replace " " "_" t)).
Proof.
  pose proof (replace_char_map " " "_" t) as H. fold underscore in H.
  assert (Hmap : list_ascii_of_string (Py.str_replace " " "_" t)
                 = map underscore (list_ascii_of_string t)) by exact H.
  split; [exact Hmap|]. split.
  - rewrite <- (string_of_list_ascii_of_string (Py.str_replace " " "_" t)), Hmap.
    clear. induction t as [|c t IH]; [reflexivity|]. cbn. now rewrite IH.
  - rewrite Hmap. intros Hin. apply in_map_iff in Hin.
    destruct Hin as (x & Hx & _). unfold underscore in Hx.
    destruct (Ascii.eqb x " ") eqn:E; [discriminate Hx|].
    apply Ascii.eqb_neq in E. congruence.
Qed.

(** X16.  Every record of [search_full] has a string for a title and the
    URL [base/w/u], where [u] is the title, character by character, with
    each space turned into an underscore: [u] is as long as the title and
    has no space. *)
Theorem search_full_urls query limit n rs :
  fst (search_full query limit n) = Ok rs ->
  Forall (fun c => exists t u,
              Cand.title c = JStr t /\
              Cand.url c = JStr (WIKI_BASE_URL ++ "/w/" ++ u) /\
              list_ascii_of_string u = map underscore (list_ascii_of_string t) /\
              String.length u = String.length t /\
              ~ In " "%char (list_ascii_of_string u)) rs.
Proof.
  rewrite search_full_run. cbn [fst]. intros H.
  apply on_reply_ok in H. destruct H as [->|[data H]]; [constructor|].
  unfold search_full_payload in H.
  destruct (Py.get data "query" (JObj [])) as [q|]; cbn [rbind] in H; [|discriminate].
  destruct (Py.get q "search" (JArr [])) as [results|]; cbn [rbind] in H; [|discriminate].
  destruct (Py.iter results) as [xs|]; cbn [rbind] in H; [|discriminate].
  apply rmap_ok in H.
  induction H as [|x c xs cs Hx _ IH]; constructor; [|exact IH].
  clear IH. unfold search_full_record in Hx.
  destruct (Py.get x "title" JNull) as [title|]; cbn [rbind] in Hx; [|discriminate].
  destruct (Py.get x "snippet" (JStr EmptyString)) as [snippet|]; cbn [rbind] in Hx;
    [|discriminate].
  destruct (Py.replace snippet span_open EmptyString) as [d1|]; cbn [rbind] in Hx;
    [|discriminate].
  destruct title as [| | |t| |]; cbn [Py.replace rbind] in Hx; try discriminate.
  injection Hx as <-. exists t, (Py.str_replace " " "_" t).
  cbn [Cand.title Cand.url].
  destruct (replace_space_spec t) as (H1 & H2 & H3). auto.
Qed.

Lemma occurs_tail old c s : occurs old s -> occurs old (String c s).
Proof. intros (a & b & ->). exists (String c a), b. reflexivity. Qed.

Lemma replace_absent old new s : ~ occurs old s -> Py.str_replace old new s = s.
Proof.
  unfold Py.str_replace. induction s as [|c s IH]; intros H; [reflexivity|].
  cbn [Py.replace_from].
  destruct (String.prefix old (String c s)) eqn:Hp.
  - exfalso. apply H. apply prefix_inv in Hp. destruct Hp as [b Hb].
    exists EmptyString, b. exact Hb.
  - f_equal. apply IH. intros Ho. apply H, occurs_tail, Ho.
Qed.

Lemma replace_from_skip old new a s :
  Py.replace_from old new (a ++ s) (String.length a) = Py.replace_from old new s 0.
Proof.
  induction a as [|x a IH]; [|exact IH].
  destruct s; reflexivity.
Qed.

Lemma replace_leading c old new s :
  Py.str_replace (String c old) new (String c old ++ s)
  = (new ++ Py.str_replace (String c old) new s)%string.
Proof.
  unfold Py.str_replace.
  change (String c old ++ s)%string with (String c (old ++ s)).
  cbn [Py.replace_from].
  change (String c (old ++ s)) with (String c old ++ s)%string.
  rewrite prefix_append. cbn [String.length Nat.sub].
  rewrite Nat.sub_0_r, replace_from_skip. reflexivity.
Qed.

Lemma category_name cat name :
  category_named cat name ->
  (t <- Py.get cat "title" (JStr EmptyString) ;;
   Py.replace t "Category:" EmptyString)%res = Ok name.
Proof.
  intros (o & -> & [[Ht Hfree]|[Ht ->]]); cbn [Py.get]; rewrite Ht;
    cbn [rbind Py.replace]; [|reflexivity].
  f_equal.
  change ("Category:" ++ name)%string with (String "C" "ategory:" ++ name)%string.
  rewrite (replace_leading "C" "ategory:" EmptyString name).
  cbn [append]. apply replace_absent, Hfree.
Qed.

Lemma get_categories_payload_entries data :
  get_categories_payload data
  = (entries <- page_entries data ;;
     match entries with
     | [] => Ok []
     | (_, page_data) :: _ =>
         categories <- Py.get page_data "categories" (JArr []) ;;
         cs <- Py.iter categories ;;
         rmap (fun cat =>
                 t <- Py.get cat "title" (JStr EmptyString) ;;
                 Py.replace t "Category:" EmptyString) cs
     end)%res.
Proof.
  unfold get_categories_payload, page_entries.
  destruct (Py.get data "query" (JObj [])) as [q|]; cbn [rbind]; [|reflexivity].
  destruct (Py.get q "pages" (JObj [])) as [pages|]; cbn [rbind]; [|reflexivity].
  destruct pages as [| | | | |o]; cbn [Py.values Py.items rbind]; try reflexivity.
  destruct o as [|[k v] o']; reflexivity.
Qed.

(** X17.  [get_categories] returns the names of the categories of the first
    page of the payload, in their order: the title [Category:name] gives
    [name] (when [name] holds no [Category:] itself), an entry without a
    title gives the empty string. *)
Theorem get_categories_names title n data page_id pd rest cats names :
  reply_to n (get_categories_params title) = Reply 200 (Some data) ->
  page_entries data = Ok ((page_id, JObj pd) :: rest) ->
  assoc "categories" pd = Some (JArr cats) ->
  Forall2 category_named cats names ->
  fst (get_categories title n) = Ok names.
Proof.
  intros Hr He Hc Hall. rewrite get_categories_run, Hr.
  cbn [fst on_reply Z.eqb Pos.eqb resp_json rbind].
  rewrite get_categories_payload_entries, He. cbn [rbind Py.get].
  rewrite Hc. cbn [rbind Py.iter]. clear Hc.
  induction Hall as [|cat name cats' names' Hcat _ IH]; [reflexivity|].
  cbn [rmap]. rewrite (category_name _ _ Hcat). cbn [rbind].
  rewrite IH. reflexivity.
Qed.

(** X18.  The title sample depends on the first two characters of the
    query only: two queries that agree on them make [get_all_pages] issue
    the same request and return the same list.  What is sent as the prefix
    has at most two characters and starts the query. *)
Theorem get_all_pages_two_characters query query' limit n :
  Py.str_take 2 query = Py.str_take 2 query' ->
  get_all_pages query limit n = get_all_pages query' limit n /\
  In ("apprefix", Py.str_take 2 query) (get_all_pages_params query limit) /\
  Py.str_len (Py.str_take 2 query) <= 2 /\
  String.prefix (Py.str_take 2 query) query = true.
Proof.
  intros H.
  assert (Hp : forall q, get_all_pages_params q limit
                         = [ ("action", "query"); ("list", "allpages");
                             ("aplimit", str_of_nat limit);
                             ("apprefix", Py.str_take 2 q); ("format", "json") ]).
  { intros [|c q]; reflexivity. }
  split; [|split; [|split]].
  - rewrite !get_all_pages_run, !Hp, H. reflexivity.
  - rewrite Hp. do 3 right. left. reflexivity.
  - rewrite str_len_take. apply Nat.le_min_l.
  - apply prefix_str_take.
Qed.

(** ** What [wiki_command] sends *)

Lemma wiki_command_suggestions articulo n rs :
  fst (wiki_command articulo n) = Ok (ShowSuggestions rs) ->
  fst (fuzzy_search articulo 60 (snd (get_page_extract articulo n))) = Ok rs.
Proof.
  rewrite wiki_command_run. cbv zeta.
  destruct (fst (get_page_extract articulo n)) as [[p|]|e]; cbn [fst].
  - destruct (fst (get_categories articulo (snd (get_page_extract articulo n))));
      cbn [fst]; discriminate.
  - destruct (fst (fuzzy_search articulo 60 (snd (get_page_extract articulo n))))
      as [[|best_match rest]|e]; cbn [fst]; try discriminate.
    destruct (85 <=? score_or_0 best_match)%Z; cbn [fst];
      [|intros E; injection E as <-; reflexivity].
    destruct (as_str (Cand.title best_match)) as [title|e]; cbn [fst]; [|discriminate].
    rewrite resolve_again_run. cbv zeta.
    destruct (fst (get_page_extract title
                     (snd (fuzzy_search articulo 60 (snd (get_page_extract articulo n))))))
      as [[p|]|e]; cbn [fst]; try discriminate.
    + destruct (fst (get_categories title
                       (snd (get_page_extract title
                               (snd (fuzzy_search articulo 60
                                       (snd (get_page_extract articulo n))))))));
        cbn [fst]; discriminate.
    + intros E. injection E as <-. reflexivity.
  - discriminate.
Qed.

(** X19.  When [wiki_command] ends with suggestions that the fuzzy stages
    produced (the open search had found nothing), building the embed
    cannot fail: the command sends an embed under the title "did you
    mean", with a description that is not empty. *)
Theorem wiki_suggestions_embed repr_json articulo n rs :
  fst (wiki_command articulo n) = Ok (ShowSuggestions rs) ->
  fst (search articulo 10 (snd (get_page_extract articulo n))) = Ok [] ->
  exists embed text,
    present repr_json articulo (ShowSuggestions rs) = Ok (SendEmbed embed) /\
    Embed.title embed = JStr ("🔎 ¿Quisiste decir...? (" ++ articulo ++ ")") /\
    Embed.description embed = Some (JStr text) /\
    text <> EmptyString.
Proof.
  intros H H1. apply wiki_command_suggestions in H.
  assert (Hall : Forall (fun r => score_truthy r = true \/
                                  exists d, Cand.description r = JStr d) rs).
  { destruct (fuzzy_search_cases _ _ _ _ H) as [(H1' & Hne & _)|(_ & Hall)].
    - rewrite H1 in H1'. injection H1' as <-. contradiction.
    - eapply Forall_impl; [|exact Hall]. cbn. tauto. }
  destruct (create_search_embed_built repr_json rs articulo true Hall)
    as (embed & text & He & Ht & Hd & Hne).
  exists embed, text. cbn [present]. rewrite He. cbn [rbind]. auto.
Qed.

Lemma occurs_occursb old s : occurs old s -> occursb old s = true.
Proof.
  intros (a & b & ->). induction a as [|c a IH].
  - cbn [append]. destruct (old ++ b)%string eqn:E.
    + cbn. destruct old; [reflexivity|discriminate E].
    + cbn [occursb]. rewrite <- E, prefix_append. reflexivity.
  - cbn [append occursb]. rewrite IH. apply orb_true_r.
Qed.

End Bot.

(** * Examples on the sample remotes *)

Local Abbreviation wiki tbl :=
  (wiki_command sample_WRatio sample_str_score nat (table_remote tbl)).
Local Abbreviation cascade tbl :=
  (fuzzy_search sample_WRatio sample_str_score nat (table_remote tbl)).

Example replace_spaces :
  Py.str_replace " " "_" "Kweebec tree house" = "Kweebec_tree_house".
Proof. reflexivity. Qed.

Example replace_markup :
  Py.str_replace "</span>" EmptyString "a</span>b</span>" = "ab".
Proof. reflexivity. Qed.

Example eq_true_one : Py.eq (JBool true) (JNum 1) = true.
Proof. reflexivity. Qed.

(** Characters, not bytes: [len], the slice and the iteration of a string
    that is not ASCII. *)
Example characters :
  Py.len (JStr "ñandú") = Ok 5 /\
  String.length "ñandú" = 7 /\
  py_slice (JStr "ñandú") 2 = Ok (JStr "ña") /\
  Py.iter (JStr "ñandú") = Ok [JStr "ñ"; JStr "a"; JStr "n"; JStr "d"; JStr "ú"] /\
  Py.getitem (JStr "ñandú") 4 = Ok (JStr "ú").
Proof. repeat split; reflexivity. Qed.

(** A 200 without [query] resolves nothing. *)
Example nowhere_is_none :
  fst (get_page_extract nat (table_remote odd_wiki) "Nowhere" fresh) = Ok None.
Proof. reflexivity. Qed.

Example void_raises :
  fst (wiki_command_send sample_WRatio sample_str_score nat
         (table_remote null_extract_wiki) sample_repr "Void" fresh)
  = Raise TypeError.
Proof. reflexivity. Qed.

Example kweebek_resolves :
  fst (wiki kweebek_wiki "Kweebek" fresh)
  = Ok (ShowPage kweebec_record ["Factions"; "Zone 1"]).
Proof. reflexivity. Qed.

Example kweebek_falls_through :
  fst (wiki stale_wiki "Kweebek" fresh) = Ok (ShowSuggestions kweebek_candidates).
Proof. reflexivity. Qed.

(** Two results with one title: the inner loop stops at the first, which is
    appended for both matches. *)
Example twins_share_a_record :
  fst (cascade twin_wiki "people" 60%Z fresh)
  = Ok [ Cand.mk (JStr "Kweebec") (JStr "first")
                 (JStr "https://hytalewiki.org/w/Kweebec") (Some 88%Z);
         Cand.mk (JStr "Kweebec") (JStr "first")
                 (JStr "https://hytalewiki.org/w/Kweebec") (Some 88%Z) ].
Proof. reflexivity. Qed.

(** Six results, five matches: the last of the equally scored titles has no
    record in the list. *)
Example sixth_result_dropped :
  option_map (map Cand.title)
             (match fst (cascade crowded_wiki "zone" 60%Z fresh) with
              | Ok rs => Some rs
              | Raise _ => None
              end)
  = Some [ JStr "Kweebec"; JStr "Trork"; JStr "Emerald Grove";
           JStr "Howling Sands"; JStr "Borea" ].
Proof. reflexivity. Qed.

Example blo_suggests :
  fst (wiki blo_wiki "blo" fresh) = Ok (ShowSuggestions blo_results).
Proof. reflexivity. Qed.

Example xyzzy_not_found :
  fst (wiki [] "xyzzynotreal" fresh) = Ok NotFound.
Proof. reflexivity. Qed.

(** ** C1 *)

(** C1 as stated fails: exceptions do leave the command.  A 200 whose
    payload is a JSON array makes [data.get] raise in the direct lookup; a
    remote that cannot be reached makes the transport raise; and when every
    client call returns, a page whose extract is null makes
    [create_wiki_embed] raise inside the command. *)
Lemma wiki_command_raises :
  fst (wiki_command_send sample_WRatio sample_str_score nat (table_remote array_wiki)
         sample_repr "Kweebec" fresh) = Raise AttributeError /\
  fst (wiki_command_send sample_WRatio sample_str_score nat unreachable
         sample_repr "Kweebec" fresh) = Raise ClientError /\
  (fst (wiki null_extract_wiki "Void" fresh) = Ok (ShowPage void_record []) /\
   fst (wiki_command_send sample_WRatio sample_str_score nat (table_remote null_extract_wiki)
          sample_repr "Void" fresh) = Raise TypeError).
Proof. repeat split; reflexivity. Qed.

Lemma wiki_command_outcome_witness :
  (page_found sample_WRatio sample_str_score nat (table_remote kweebek_wiki)
              "Kweebek" fresh kweebec_record ["Factions"; "Zone 1"] /\
   fst (wiki_command_send sample_WRatio sample_str_score nat (table_remote kweebek_wiki)
          sample_repr "Kweebek" fresh) = Ok (SendEmbed kweebec_embed)) /\
  ((forall st rq, refused (fst (table_remote [] st rq)) = true) /\
   fst (wiki_command_send sample_WRatio sample_str_score nat (table_remote [])
          sample_repr "xyzzynotreal" fresh)
   = Ok (SendText "❌ No se encontró ningún artículo para **xyzzynotreal**" true)).
Proof.
  assert (Hpage : page_found sample_WRatio sample_str_score nat (table_remote kweebek_wiki)
                             "Kweebek" fresh kweebec_record ["Factions"; "Zone 1"]).
  { right. exists kweebek_candidates, "Kweebec". eexists. eexists.
    split; [|split; reflexivity].
    eexists. eexists. eexists.
    split; [reflexivity|]. split; [reflexivity|]. split; [reflexivity|].
    split; [discriminate|reflexivity]. }
  split; [split; [exact Hpage|]|split; [intros st rq; reflexivity|]].
  - destruct (wiki_command_outcome sample_WRatio sample_str_score nat
                (table_remote kweebek_wiki) sample_repr "Kweebek" fresh)
      as (_ & _ & (_ & Hsend & _) & _).
    rewrite (Hsend _ _ Hpage). reflexivity.
  - destruct (wiki_command_outcome sample_WRatio sample_str_score nat
                (table_remote []) sample_repr "xyzzynotreal" fresh)
      as (_ & _ & _ & _ & Hrefused).
    apply Hrefused. intros st rq. reflexivity.
Defined.

(** ** C2 *)

(** C2 as stated fails: on a 200, an object of four members makes [search]
    raise [KeyError] at [data[1]], a hit without a title makes
    [search_full] raise [AttributeError] at [r.get('title').replace], and a
    body that is not JSON makes [get_page_extract] raise at [resp.json()]. *)
Lemma client_raises :
  fst (search nat (table_remote unexpected_wiki) "Kweebec" 5 fresh) = Raise KeyError /\
  fst (search_full nat (table_remote unexpected_wiki) "Kweebec" 20 fresh)
  = Raise AttributeError /\
  fst (get_page_extract nat (table_remote unexpected_wiki) "Kweebec" fresh)
  = Raise ContentTypeError.
Proof. repeat split; reflexivity. Qed.

Lemma client_no_result_witness :
  (empty_handed short (reply_to nat (table_remote error_wiki) fresh
                  (search_params "Kweebec" 5))
   = true /\
   empty_handed (lacks "search") (reply_to nat (table_remote error_wiki) fresh
                  (search_full_params "Kweebec" 5))
   = true /\
   empty_handed (lacks "allpages") (reply_to nat (table_remote error_wiki) fresh
                  (get_all_pages_params "Kw" 5))
   = true /\
   empty_handed (lacks "pages") (reply_to nat (table_remote error_wiki) fresh
                  (get_categories_params "Kweebec"))
   = true /\
   empty_handed (lacks "pages") (reply_to nat (table_remote error_wiki) fresh
                  (get_page_extract_params "Kweebec"))
   = true) /\
  (fst (search nat (table_remote error_wiki) "Kweebec" 5 fresh) = Ok [] /\
   fst (search_full nat (table_remote error_wiki) "Kweebec" 5 fresh) = Ok [] /\
   fst (get_all_pages nat (table_remote error_wiki) "Kw" 5 fresh) = Ok [] /\
   fst (get_categories nat (table_remote error_wiki) "Kweebec" fresh) = Ok [] /\
   fst (get_page_extract nat (table_remote error_wiki) "Kweebec" fresh) = Ok None).
Proof.
  split; [repeat split; reflexivity|].
  destruct (client_no_result nat (table_remote error_wiki) fresh "Kweebec" 5 "Kw" "Kweebec")
    as (H1 & H2 & H3 & H4 & H5).
  split; [apply H1; reflexivity|].
  split; [apply H2; reflexivity|].
  split; [apply H3; reflexivity|].
  split; [apply H4; reflexivity|apply H5; reflexivity].
Defined.

(** ** C3 *)

Lemma fuzzy_search_short_circuit_witness :
  fst (search nat (table_remote blo_wiki) "blo" 10 fresh) = Ok blo_results /\
  blo_results <> [] /\
  fst (cascade blo_wiki "blo" 60%Z fresh) = Ok blo_results /\
  snd (cascade blo_wiki "blo" 60%Z fresh)
  = after nat (table_remote blo_wiki) fresh (search_params "blo" 10) /\
  log (snd (cascade blo_wiki "blo" 60%Z fresh))
  = log fresh ++ [api_request (search_params "blo" 10)] /\
  Forall (fun r => Cand.score r = None) blo_results.
Proof.
  split; [reflexivity|]. split; [discriminate|].
  apply (fuzzy_search_short_circuit sample_WRatio sample_str_score nat
           (table_remote blo_wiki) "blo" 60%Z fresh blo_results);
    [reflexivity|discriminate].
Defined.

(** ** C4 *)

(** C4 as stated fails on the description: the records of stage 2 read
    [Coincidencia: 88%], not [Match: 88%]. *)
Lemma title_sample_description :
  fst (cascade kweebek_wiki "Kweebek" 60%Z fresh) = Ok kweebek_candidates /\
  map Cand.description kweebek_candidates
  = [JStr "Coincidencia: 88%"; JStr "Coincidencia: 70%"] /\
  map Cand.description kweebek_candidates
  <> map (fun r => JStr ("Match: " ++ sample_str_score (score_or_0 r) ++ "%"))
         kweebek_candidates.
Proof. split; [reflexivity|]. split; [reflexivity|]. discriminate. Qed.

Lemma fuzzy_search_title_sample_witness :
  let respond := table_remote kweebek_wiki in
  let n1 := snd (search nat respond "Kweebek" 10 fresh) in
  let n2 := snd (get_all_pages nat respond "Kweebek" 50 n1) in
  let all_pages := [JStr "Kweebec"; JStr "Kweebec Village"; JStr "Kwyjibo"] in
  search nat respond "Kweebek" 10 fresh = (Ok [], n1) /\
  get_all_pages nat respond "Kweebek" 50 n1 = (Ok all_pages, n2) /\
  stage2 sample_WRatio sample_str_score "Kweebek" 60 all_pages = Ok kweebek_candidates /\
  cascade kweebek_wiki "Kweebek" 60%Z fresh = (Ok kweebek_candidates, n2) /\
  (List.length kweebek_candidates <= 5)%nat.
Proof.
  cbv zeta.
  split; [reflexivity|]. split; [reflexivity|]. split; [reflexivity|].
  destruct (fuzzy_search_title_sample sample_WRatio sample_str_score nat
              (table_remote kweebek_wiki) "Kweebek" fresh
              (snd (search nat (table_remote kweebek_wiki) "Kweebek" 10 fresh))
              (snd (get_all_pages nat (table_remote kweebek_wiki) "Kweebek" 50
                      (snd (search nat (table_remote kweebek_wiki) "Kweebek" 10 fresh))))
              [JStr "Kweebec"; JStr "Kweebec Village"; JStr "Kwyjibo"]
              (Cand.mk (JStr "Kweebec") (JStr "Coincidencia: 88%")
                       (JStr "https://hytalewiki.org/w/Kweebec") (Some 88%Z))
              [Cand.mk (JStr "Kweebec Village") (JStr "Coincidencia: 70%")
                       (JStr "https://hytalewiki.org/w/Kweebec_Village") (Some 70%Z)]
              eq_refl eq_refl eq_refl)
    as (Hrun & Hlen & _).
  split; [exact Hrun|exact Hlen].
Defined.

(** ** C5 *)

Lemma fuzzy_search_rerank_witness :
  let respond := table_remote forest_wiki in
  let n1 := snd (search nat respond "forest people" 10 fresh) in
  let n2 := snd (get_all_pages nat respond "forest people" 50 n1) in
  let n3 := snd (search_full nat respond "forest people" 10 n2) in
  search nat respond "forest people" 10 fresh = (Ok [], n1) /\
  get_all_pages nat respond "forest people" 50 n1 = (Ok [], n2) /\
  stage2 sample_WRatio sample_str_score "forest people" 60 [] = Ok [] /\
  search_full nat respond "forest people" 10 n2 = (Ok forest_results, n3) /\
  forest_results <> [] /\
  process_extract sample_WRatio "forest people" (map Cand.title forest_results) 5
  = Ok forest_matches /\
  exists out,
    cascade forest_wiki "forest people" 60%Z fresh = (Ok out, n3) /\
    List.length out = 3 /\
    map Cand.title out = map fst forest_matches.
Proof.
  cbv zeta.
  split; [reflexivity|]. split; [reflexivity|]. split; [reflexivity|].
  split; [reflexivity|]. split; [discriminate|]. split; [reflexivity|].
  destruct (fuzzy_search_rerank sample_WRatio sample_str_score nat
              (table_remote forest_wiki) "forest people" 60%Z fresh
              (snd (search nat (table_remote forest_wiki) "forest people" 10 fresh))
              (snd (get_all_pages nat (table_remote forest_wiki) "forest people" 50
                      (snd (search nat (table_remote forest_wiki) "forest people" 10 fresh))))
              (snd (search_full nat (table_remote forest_wiki) "forest people" 10
                      (snd (get_all_pages nat (table_remote forest_wiki) "forest people" 50
                              (snd (search nat (table_remote forest_wiki)
                                      "forest people" 10 fresh))))))
              [] forest_results forest_matches
              eq_refl eq_refl eq_refl eq_refl
              (fun H => match H in _ = l return match l with [] => False | _ => True end
                        with eq_refl => I end)
              eq_refl)
    as (out & Hrun & Hlen & Hall & _).
  exists out. split; [exact Hrun|]. split; [exact Hlen|].
  clear Hrun Hlen. induction Hall as [|m r' ms out' (Ht & _) _ IH]; [reflexivity|].
  cbn [map]. rewrite Ht, IH. reflexivity.
Defined.

(** ** C6 *)


(** ** C7 *)

(** C7 as stated fails.  A 200 whose payload is not the object the method
    expects (here a JSON array) is answered neither with [None] nor with a
    page: [data.get] raises and the exception leaves the method.  And a
    payload that does carry an entry with the id [-1] yields a page when
    that entry is not the first one. *)
Lemma get_page_extract_not_exactly :
  (reply_to nat (table_remote array_wiki) fresh (get_page_extract_params "Kweebec")
   = Reply 200 (Some (JArr [])) /\
   fst (get_page_extract nat (table_remote array_wiki) "Kweebec" fresh)
   = Raise AttributeError)
  /\
  (exists data entries missing,
      reply_to nat (table_remote odd_wiki) fresh (get_page_extract_params "Kweebec|Nope")
      = Reply 200 (Some data) /\
      page_entries data = Ok entries /\
      assoc "-1" entries = Some missing /\
      fst (get_page_extract nat (table_remote odd_wiki) "Kweebec|Nope" fresh)
      = Ok (Some (Page.mk (JStr "Kweebec")
                          (JStr "The Kweebecs are a peaceful forest people.")
                          (JStr "https://hytalewiki.org/w/Kweebec")
                          JNull))).
Proof.
  split.
  - split; reflexivity.
  - eexists. eexists. eexists. repeat split; reflexivity.
Qed.

Lemma get_page_extract_none_iff_witness :
  fst (get_page_extract nat (table_remote kweebek_wiki) "Kweebek" fresh) = Ok None /\
  fst (get_page_extract nat (table_remote kweebek_wiki) "Kweebec" fresh)
  = Ok (Some kweebec_record) /\
  fst (get_page_extract nat (table_remote unexpected_wiki) "Kweebec" fresh)
  = Raise ContentTypeError.
Proof.
  destruct (get_page_extract_none_iff nat (table_remote kweebek_wiki) "Kweebek" fresh)
    as (Hnone & _ & _).
  destruct (get_page_extract_none_iff nat (table_remote kweebek_wiki) "Kweebec" fresh)
    as (_ & Hsome & _).
  destruct (get_page_extract_none_iff nat (table_remote unexpected_wiki) "Kweebec" fresh)
    as (_ & _ & Hraise).
  split; [|split].
  - apply Hnone. right. right.
    exists (missing_page "Kweebek"),
           (JObj [ ("ns", JNum 0); ("title", JStr "Kweebek"); ("missing", JStr EmptyString) ]),
           [].
    split; reflexivity.
  - apply Hsome.
    exists kweebec_page, "11",
           [ ("pageid", JNum 11);
             ("ns", JNum 0);
             ("title", JStr "Kweebec");
             ("extract", JStr "The Kweebecs are a peaceful forest people.");
             ("thumbnail", JObj [ ("source", JStr "https://hytalewiki.org/images/kweebec.png");
                                  ("width", JNum 300) ]);
             ("fullurl", JStr "https://hytalewiki.org/w/Kweebec") ],
           [].
    split; [reflexivity|]. split; [reflexivity|]. split; [discriminate|].
    split; [reflexivity|]. split; [reflexivity|]. split; [reflexivity|].
    right. eexists. split; reflexivity.
  - apply Hraise. right. left. split; reflexivity.
Defined.

(** ** C8 *)

Lemma wiki_command_deterministic_witness :
  unchanged_remote nat (table_remote kweebek_wiki) /\
  fst (wiki kweebek_wiki "Kweebek" (snd (wiki kweebek_wiki "Kweebek" fresh)))
  = fst (wiki kweebek_wiki "Kweebek" fresh).
Proof.
  split; [intros st st' rq; reflexivity|].
  apply (wiki_command_deterministic sample_WRatio sample_str_score nat
           (table_remote kweebek_wiki) "Kweebek" fresh fresh).
  intros st st' rq. reflexivity.
Defined.

(** ** C9 *)

Lemma fuzzy_search_uniform_witness :
  fst (cascade forest_wiki "forest people" 60%Z fresh) = Ok forest_candidates /\
  (Forall (fun r => Cand.score r = None) forest_candidates \/
   Forall (fun r => Cand.score r <> None) forest_candidates).
Proof.
  split; [reflexivity|].
  apply (fuzzy_search_uniform sample_WRatio sample_str_score nat
           (table_remote forest_wiki) "forest people" 60%Z fresh).
  reflexivity.
Defined.

(** ** C10 *)

Lemma get_page_extract_defaults_witness :
  reply_to nat (table_remote bare_wiki) fresh (get_page_extract_params "kweebec")
  = Reply 200 (Some bare_page) /\
  fst (get_page_extract nat (table_remote bare_wiki) "kweebec" fresh)
  = Ok (Some (Page.mk (JStr "Kweebec")
                      (JStr "Sin descripción disponible.")
                      (JStr "https://hytalewiki.org/w/kweebec")
                      JNull)) /\
  JStr "Sin descripción disponible." <> JStr EmptyString.
Proof.
  split; [reflexivity|]. split; [reflexivity|].
  destruct (get_page_extract_defaults nat (table_remote bare_wiki) "kweebec" fresh
              bare_page "11"
              (JObj [ ("pageid", JNum 11); ("ns", JNum 0); ("title", JStr "Kweebec") ])
              []
              (Page.mk (JStr "Kweebec")
                       (JStr "Sin descripción disponible.")
                       (JStr "https://hytalewiki.org/w/kweebec")
                       JNull)
              eq_refl eq_refl eq_refl)
    as (pd & Hpd & Hextract & _).
  injection Hpd as <-.
  exact (proj2 (Hextract eq_refl)).
Defined.

(** * Examples for the rest of the bot *)

Local Abbreviation respond_of tbl := (table_remote tbl).

Lemma tiempo_restante_range_witness :
  (three_days_before < LAUNCH_DATE)%Z /\
  exists days hours minutes,
    tiempo_restante three_days_before = Remaining days hours minutes /\
    (0 <= days)%Z /\ (0 <= hours < 24)%Z /\ (0 <= minutes < 60)%Z.
Proof.
  split; [reflexivity|].
  apply (proj2 (tiempo_restante_range three_days_before)). reflexivity.
Defined.

Lemma tiempo_restante_accuracy_witness :
  tiempo_restante three_days_before = Remaining 3 13 55 /\
  ((3 * 86400 + 13 * 3600 + 55 * 60) * 1000000
   <= LAUNCH_DATE - three_days_before
   < (3 * 86400 + 13 * 3600 + 55 * 60) * 1000000 + 60 * 1000000)%Z.
Proof.
  split; [reflexivity|].
  apply (tiempo_restante_accuracy three_days_before 3 13 55). reflexivity.
Defined.

Lemma create_wiki_embed_description_witness :
  Page.extract accent_record = JStr accent_extract /\
  Py.str_len accent_extract = 600 /\
  String.length accent_extract = 1200 /\
  exists embed,
    create_wiki_embed accent_record [] = Ok embed /\
    Embed.description embed = Some (JStr accent_extract).
Proof.
  split; [reflexivity|]. split; [reflexivity|]. split; [reflexivity|].
  destruct (create_wiki_embed_description accent_record [] accent_extract eq_refl)
    as (embed & description & He & _ & _ & Hd & _ & _ & _ & Hshort & _).
  exists embed. split; [exact He|].
  rewrite Hd, Hshort; [reflexivity|].
  apply Nat.leb_le. reflexivity.
Defined.

Lemma create_wiki_embed_categories_witness :
  create_wiki_embed kweebec_record ["Factions"; "Zone 1"] = Ok kweebec_embed /\
  ["Factions"; "Zone 1"] <> [] /\
  exists value,
    Embed.fields kweebec_embed = [("Categorías", value, false)] /\
    value <> EmptyString.
Proof.
  split; [reflexivity|]. split; [discriminate|].
  destruct (create_wiki_embed_categories kweebec_record ["Factions"; "Zone 1"]
              kweebec_embed eq_refl) as [_ H].
  destruct H as (value & Hf & Hne & _); [discriminate|].
  exists value. auto.
Defined.

Lemma null_extract_breaks_embed_witness :
  fst (get_page_extract nat (respond_of null_extract_wiki) "Void" fresh)
  = Ok (Some void_record) /\
  Page.extract void_record = JNull /\
  create_wiki_embed void_record [] = Raise TypeError.
Proof.
  split; [reflexivity|].
  apply (null_extract_breaks_embed nat (respond_of null_extract_wiki) "Void" fresh
           (JObj [ ("query", JObj [ ("pages", JObj [ ("31", JObj [
              ("pageid", JNum 31); ("ns", JNum 0); ("title", JStr "Void");
              ("extract", JNull) ]) ]) ]) ])
           "31"
           [ ("pageid", JNum 31); ("ns", JNum 0); ("title", JStr "Void");
             ("extract", JNull) ]
           [] void_record []); reflexivity.
Defined.

Lemma excerpt_bounds_witness :
  score_truthy accent_candidate = false /\
  Cand.description accent_candidate = JStr accent_text /\
  exists embed text,
    create_search_embed sample_str_score sample_repr [accent_candidate] "senal" false
    = Ok embed /\
    Embed.description embed = Some (JStr text) /\
    String.prefix ("**1. [Señal](https://hytalewiki.org/w/Señal)**" ++ newline
                     ++ accent_text)%string
                  text = true.
Proof.
  split; [reflexivity|]. split; [reflexivity|].
  destruct (create_search_embed sample_str_score sample_repr [accent_candidate]
              "senal" false) as [embed|e] eqn:E; [|vm_compute in E; discriminate E].
  destruct (excerpt_bounds sample_str_score sample_repr accent_candidate [] "senal" false
              accent_text embed eq_refl eq_refl E)
    as (x & text & Hd & Hp & _ & _ & _ & Hshort & _).
  exists embed, text. split; [reflexivity|]. split; [exact Hd|].
  rewrite <- (Hshort ltac:(discriminate) ltac:(repeat constructor)). exact Hp.
Defined.

Lemma create_search_embed_null_description_witness :
  score_truthy (Cand.mk (JStr "Block") JNull (JStr "https://hytalewiki.org/w/Block") None)
  = false /\
  create_search_embed sample_str_score sample_repr
    [Cand.mk (JStr "Block") JNull (JStr "https://hytalewiki.org/w/Block") None]
    "blo" false
  = Raise TypeError.
Proof.
  split; [reflexivity|].
  apply (create_search_embed_null_description sample_str_score sample_repr);
    reflexivity.
Defined.

Lemma create_search_embed_total_witness :
  Forall (fun r => score_truthy r = true \/ exists d, Cand.description r = JStr d)
         blo_results /\
  exists embed text,
    create_search_embed sample_str_score sample_repr blo_results "blo" false = Ok embed /\
    Embed.description embed = Some (JStr text) /\
    text <> EmptyString.
Proof.
  assert (H : Forall (fun r => score_truthy r = true \/
                               exists d, Cand.description r = JStr d) blo_results).
  { unfold blo_results.
    repeat (apply Forall_cons; [right; eexists; reflexivity|]). apply Forall_nil. }
  split; [exact H|].
  destruct (create_search_embed_total sample_str_score sample_repr blo_results
              "blo" false H) as (embed & text & He & Hd & Hne & _).
  exists embed, text. auto.
Defined.

Lemma wikisearch_fuzzy_flag_witness :
  fst (cascade forest_wiki "forest people" 60%Z fresh) = Ok forest_candidates /\
  fuzzy_flag forest_candidates = true /\
  fst (search nat (respond_of forest_wiki) "forest people" 10 fresh) = Ok [] /\
  Forall (fun r => Cand.score r <> None) forest_candidates.
Proof.
  split; [reflexivity|]. split; [reflexivity|].
  apply (wikisearch_fuzzy_flag sample_WRatio sample_str_score nat
           (respond_of forest_wiki) "forest people" fresh forest_candidates);
    reflexivity.
Defined.

Lemma wikisearch_command_sends_witness :
  fst (search nat (respond_of forest_wiki) "forest people" 10 fresh) = Ok [] /\
  fst (cascade forest_wiki "forest people" 60%Z fresh) = Ok forest_candidates /\
  exists embed text,
    fst (wikisearch_command sample_WRatio sample_str_score nat (respond_of forest_wiki)
           sample_repr "forest people" fresh) = Ok (SendEmbed embed) /\
    Embed.description embed = Some (JStr text) /\
    text <> EmptyString.
Proof.
  split; [reflexivity|]. split; [reflexivity|].
  apply (wikisearch_command_sends sample_WRatio sample_str_score nat
           (respond_of forest_wiki) sample_repr "forest people" fresh forest_candidates);
    reflexivity.
Defined.

Lemma fuzzy_search_requests_witness :
  exists k,
    1 <= k <= 3 /\
    log (snd (cascade kweebek_wiki "Kweebek" 60%Z fresh))
    = log fresh ++ firstn k (stage_requests "Kweebek").
Proof.
  apply (fuzzy_search_requests sample_WRatio sample_str_score nat
           (respond_of kweebek_wiki) "Kweebek" 60%Z fresh).
Defined.

Lemma wiki_command_requests_witness :
  exists new,
    log (snd (wiki kweebek_wiki "Kweebek" fresh))
    = log fresh ++ api_request (get_page_extract_params "Kweebek") :: new /\
    List.length new <= 5 /\
    Forall api_json (api_request (get_page_extract_params "Kweebek") :: new).
Proof.
  apply (wiki_command_requests sample_WRatio sample_str_score nat
           (respond_of kweebek_wiki) "Kweebek" fresh).
Defined.

Lemma get_random_page_nothing_witness :
  reply_to nat (respond_of []) fresh get_random_page_params = Reply 404 None /\
  get_random_page nat (respond_of []) fresh
  = (Ok None, after nat (respond_of []) fresh get_random_page_params).
Proof.
  split; [reflexivity|].
  apply (get_random_page_nothing nat (respond_of []) fresh 404%Z None);
    [reflexivity|left; discriminate].
Defined.

Lemma get_random_page_resolves_witness :
  reply_to nat (respond_of random_wiki) fresh get_random_page_params
  = Reply 200 (Some random_payload) /\
  random_title random_payload = Ok (Some (JStr "Kweebec")) /\
  fst (get_random_page nat (respond_of random_wiki) fresh) = Ok (Some kweebec_record) /\
  log (snd (get_random_page nat (respond_of random_wiki) fresh))
  = [api_request get_random_page_params; api_request (get_page_extract_params "Kweebec")].
Proof.
  split; [reflexivity|]. split; [reflexivity|].
  destruct (get_random_page_resolves nat (respond_of random_wiki) fresh random_payload
              "Kweebec" eq_refl eq_refl) as [Hrun Hlog].
  split; [rewrite Hrun; reflexivity|exact Hlog].
Defined.

Lemma search_payload_zip_witness :
  exists rs,
    search_payload (JArr [ JStr "blo";
                           JArr [ JStr "Block"; JStr "Blood Moon"; JStr "Blowgun" ];
                           JArr [ JStr EmptyString; JStr EmptyString ];
                           JArr [ JStr "https://hytalewiki.org/w/Block";
                                  JStr "https://hytalewiki.org/w/Blood_Moon";
                                  JStr "https://hytalewiki.org/w/Blowgun" ] ]) = Ok rs /\
    List.length rs = 2 /\
    map Cand.title rs = [JStr "Block"; JStr "Blood Moon"].
Proof.
  destruct (search_payload_zip (JStr "blo")
              [ JStr "Block"; JStr "Blood Moon"; JStr "Blowgun" ]
              [ JStr EmptyString; JStr EmptyString ]
              [ JStr "https://hytalewiki.org/w/Block";
                JStr "https://hytalewiki.org/w/Blood_Moon";
                JStr "https://hytalewiki.org/w/Blowgun" ] [])
    as (rs & Hrs & Hlen & Ht & _).
  exists rs. split; [exact Hrs|]. split; [exact Hlen|].
  rewrite Ht, Hlen. reflexivity.
Defined.

Lemma search_full_urls_witness :
  fst (search_full nat (respond_of twin_wiki) "people" 10 fresh)
  = Ok [ Cand.mk (JStr "Kweebec") (JStr "first")
                 (JStr "https://hytalewiki.org/w/Kweebec") None;
         Cand.mk (JStr "Kweebec") (JStr "second")
                 (JStr "https://hytalewiki.org/w/Kweebec") None ] /\
  Forall (fun c => exists t u,
              Cand.title c = JStr t /\
              Cand.url c = JStr (WIKI_BASE_URL ++ "/w/" ++ u) /\
              list_ascii_of_string u = map underscore (list_ascii_of_string t) /\
              String.length u = String.length t /\
              ~ In " "%char (list_ascii_of_string u))
         [ Cand.mk (JStr "Kweebec") (JStr "first")
                   (JStr "https://hytalewiki.org/w/Kweebec") None;
           Cand.mk (JStr "Kweebec") (JStr "second")
                   (JStr "https://hytalewiki.org/w/Kweebec") None ].
Proof.
  split; [reflexivity|].
  apply (search_full_urls nat (respond_of twin_wiki) "people" 10 fresh). reflexivity.
Defined.

Lemma get_categories_names_witness :
  reply_to nat (respond_of kweebek_wiki) fresh (get_categories_params "Kweebec")
  = Reply 200 (Some kweebec_categories) /\
  fst (get_categories nat (respond_of kweebek_wiki) "Kweebec" fresh)
  = Ok ["Factions"; "Zone 1"].
Proof.
  split; [reflexivity|].
  apply (get_categories_names nat (respond_of kweebek_wiki) "Kweebec" fresh
           kweebec_categories "11"
           [ ("pageid", JNum 11);
             ("title", JStr "Kweebec");
             ("categories", JArr [ JObj [ ("ns", JNum 14); ("title", JStr "Category:Factions") ];
                                   JObj [ ("ns", JNum 14); ("title", JStr "Category:Zone 1") ] ]) ]
           []
           [ JObj [ ("ns", JNum 14); ("title", JStr "Category:Factions") ];
             JObj [ ("ns", JNum 14); ("title", JStr "Category:Zone 1") ] ]
           ["Factions"; "Zone 1"]); try reflexivity.
  constructor; [|constructor; [|constructor]].
  - eexists. split; [reflexivity|]. left. split; [reflexivity|].
    intros H. apply occurs_occursb in H. discriminate H.
  - eexists. split; [reflexivity|]. left. split; [reflexivity|].
    intros H. apply occurs_occursb in H. discriminate H.
Defined.

Lemma get_all_pages_two_characters_witness :
  Py.str_take 2 "ñandú" = "ña" /\
  Py.str_take 2 "ñame" = "ña" /\
  get_all_pages nat (respond_of kweebek_wiki) "ñandú" 50 fresh
  = get_all_pages nat (respond_of kweebek_wiki) "ñame" 50 fresh.
Proof.
  split; [reflexivity|]. split; [reflexivity|].
  apply (get_all_pages_two_characters nat (respond_of kweebek_wiki)
           "ñandú" "ñame" 50 fresh). reflexivity.
Defined.

Lemma wiki_suggestions_embed_witness :
  fst (wiki stale_wiki "Kweebek" fresh) = Ok (ShowSuggestions kweebek_candidates) /\
  fst (search nat (respond_of stale_wiki) "Kweebek" 10
         (snd (get_page_extract nat (respond_of stale_wiki) "Kweebek" fresh))) = Ok [] /\
  exists embed text,
    present sample_str_score sample_repr "Kweebek" (ShowSuggestions kweebek_candidates)
    = Ok (SendEmbed embed) /\
    Embed.description embed = Some (JStr text) /\
    text <> EmptyString.
Proof.
  split; [reflexivity|]. split; [reflexivity|].
  destruct (wiki_suggestions_embed sample_WRatio sample_str_score nat
              (respond_of stale_wiki) sample_repr "Kweebek" fresh kweebek_candidates
              eq_refl eq_refl) as (embed & text & He & _ & Hd & Hne).
  exists embed, text. auto.
Defined.
